(** * GymFlow: membership status engine and record repository

    A shallow embedding of the gym subscription tracker's database layer
    (lib/database, in its two schema revisions) and of the page handlers
    that write to it: AddMember.onSubmit, Payments.onSubmit,
    Members.handleDeleteMember, and CheckIn.handleCheckIn / canCheckIn.

    Conventions of the model.
    - A JavaScript [Date] is its time value, an integer count of
      milliseconds.  The host time zone is taken to have a constant
      offset, so local time values are used throughout: a constant shift
      cancels in every difference and comparison the code makes.  The
      Invalid Date value and the range limit of 8.64e15 ms are outside
      the model, arithmetic is on unbounded integers, and the quotient
      under [Math.ceil] is exact.
    - Money amounts are integers (whole currency units).
    - [new Date()] reads a clock.  The clock is a sequence of readings,
      [clock : nat -> Date], and the world counts the readings taken, so
      two reads within one operation may or may not agree.
    - A Dexie table with an auto-incremented primary key is a finite map
      from keys to rows together with the key generator's next value.
      The in-bound key [id] of a row is its key in the map.
    - A creating hook changes the object it is given, and the table
      stores the object so changed.  An updating hook is handed a copy
      of the modifications; the table applies what the hook returns and
      drops what the hook assigns to the copy.  The updating hooks here
      return nothing, so an update writes the caller's modifications
      and nothing else.
    - A script that declares a name twice in one block is rejected
      before it runs; none of its handlers acts on the store.
    - A rejected promise is an [Error] result.  Whatever was written
      before the rejection stays written: the code opens no transaction.
    - Component state of the pages (lists shown, form contents, toasts
      other than the one returned) is not part of the world. *)

From Stdlib Require Import ZArith Lia Bool List.
From stdpp Require Import gmap strings list fin_maps sorting.

Local Open Scope Z_scope.

(** ** ECMAScript date arithmetic *)

Module JSDate.

Definition Date := Z.

Definition msPerDay : Z := 86400000.
Definition msPerHour : Z := 3600000.
Definition msPerMinute : Z := 60000.
Definition msPerSecond : Z := 1000.

Definition Day (t : Date) : Z := t / msPerDay.
Definition TimeWithinDay (t : Date) : Z := t mod msPerDay.

Definition DaysInYear (y : Z) : Z :=
  if negb (y mod 4 =? 0) then 365
  else if negb (y mod 100 =? 0) then 366
  else if negb (y mod 400 =? 0) then 365
  else 366.

Definition DayFromYear (y : Z) : Z :=
  365 * (y - 1970) + (y - 1969) / 4 - (y - 1901) / 100 + (y - 1601) / 400.

(** The largest year whose first day is not after day [d]: a first guess
    from the mean year length, off by at most one. *)
Definition YearFromDay (d : Z) : Z :=
  let y0 := 1970 + (400 * d) / 146097 in
  if d <? DayFromYear y0 then y0 - 1
  else if DayFromYear (y0 + 1) <=? d then y0 + 1
  else y0.

Definition YearFromTime (t : Date) : Z := YearFromDay (Day t).

Definition DayWithinYear (t : Date) : Z := Day t - DayFromYear (YearFromTime t).

Definition InLeapYear (t : Date) : Z :=
  if DaysInYear (YearFromTime t) =? 366 then 1 else 0.

(** Day number within the year on which month [m] (0-based) starts. *)
Definition monthStart (leap m : Z) : Z :=
  match m with
  | 0 => 0
  | 1 => 31
  | 2 => 59 + leap
  | 3 => 90 + leap
  | 4 => 120 + leap
  | 5 => 151 + leap
  | 6 => 181 + leap
  | 7 => 212 + leap
  | 8 => 243 + leap
  | 9 => 273 + leap
  | 10 => 304 + leap
  | 11 => 334 + leap
  | _ => 365 + leap
  end.

Definition monthOfDay (leap dwy : Z) : Z :=
  if dwy <? 31 then 0
  else if dwy <? 59 + leap then 1
  else if dwy <? 90 + leap then 2
  else if dwy <? 120 + leap then 3
  else if dwy <? 151 + leap then 4
  else if dwy <? 181 + leap then 5
  else if dwy <? 212 + leap then 6
  else if dwy <? 243 + leap then 7
  else if dwy <? 273 + leap then 8
  else if dwy <? 304 + leap then 9
  else if dwy <? 334 + leap then 10
  else 11.

Definition MonthFromTime (t : Date) : Z :=
  monthOfDay (InLeapYear t) (DayWithinYear t).

Definition DateFromTime (t : Date) : Z :=
  DayWithinYear t - monthStart (InLeapYear t) (MonthFromTime t) + 1.

Definition leapOfYear (y : Z) : Z := if DaysInYear y =? 366 then 1 else 0.

Definition DaysInMonth (y m : Z) : Z :=
  monthStart (leapOfYear y) (m + 1) - monthStart (leapOfYear y) m.

(** MakeDay: the day number of the first of month [month mod 12] in year
    [year + month / 12], plus [date - 1]. *)
Definition MakeDay (year month date : Z) : Z :=
  let ym := year + month / 12 in
  let mn := month mod 12 in
  DayFromYear ym + monthStart (leapOfYear ym) mn + date - 1.

Definition MakeTime (hour min sec ms : Z) : Z :=
  hour * msPerHour + min * msPerMinute + sec * msPerSecond + ms.

Definition MakeDate (day time : Z) : Date := day * msPerDay + time.

(** [new Date(year, month, date, hours, minutes, seconds)]: a two-digit
    year counts from 1900. *)
Definition newDate (year month date hours minutes seconds : Z) : Date :=
  let yr := if (0 <=? year) && (year <=? 99) then 1900 + year else year in
  MakeDate (MakeDay yr month date) (MakeTime hours minutes seconds 0).

Definition getFullYear (t : Date) : Z := YearFromTime t.
Definition getMonth (t : Date) : Z := MonthFromTime t.
Definition getDate (t : Date) : Z := DateFromTime t.

Definition setDate (t : Date) (dt : Z) : Date :=
  MakeDate (MakeDay (YearFromTime t) (MonthFromTime t) dt) (TimeWithinDay t).

Definition setMonth (t : Date) (m : Z) : Date :=
  MakeDate (MakeDay (YearFromTime t) m (DateFromTime t)) (TimeWithinDay t).

Definition setFullYear (t : Date) (y : Z) : Date :=
  MakeDate (MakeDay y (MonthFromTime t) (DateFromTime t)) (TimeWithinDay t).

(** [Math.ceil (a / b)] for integers [a] and [b > 0]. *)
Definition ceilDiv (a b : Z) : Z := - ((- a) / b).

(** A calendar date at local midnight, months counted from 1. *)
Definition ymd (y m d : Z) : Date := newDate y (m - 1) d 0 0 0.

(** Day of the week, 0 for Sunday; [toLocaleDateString('en-US',
    { weekday: 'short' })] names it. *)
Definition WeekDay (t : Date) : Z := (Day t + 4) mod 7.

Definition weekdayShort (t : Date) : string :=
  match WeekDay t with
  | 0 => "Sun" | 1 => "Mon" | 2 => "Tue" | 3 => "Wed"
  | 4 => "Thu" | 5 => "Fri" | _ => "Sat"
  end%string.

End JSDate.

Import JSDate.

(** The host calendar's rollover rule: asking for day [d] (at most 31) of
    month [m] of year [y] gives that day when the month has it, and
    otherwise runs over into the following month by the excess. *)
Definition rollsTo (y m d tod : Z) (r : Date) : Prop :=
  TimeWithinDay r = tod /\
  (d <= DaysInMonth y m ->
     YearFromTime r = y /\ MonthFromTime r = m /\ DateFromTime r = d) /\
  (DaysInMonth y m < d ->
     YearFromTime r = y /\ MonthFromTime r = m + 1 /\
     DateFromTime r = d - DaysInMonth y m).


(** ** Dexie tables with an auto-incremented primary key *)

Module Dexie.

Record Table (A : Type) : Type := mkTable { rows : gmap N A; nextKey : N }.
Arguments mkTable {A} _ _.
Arguments rows {A} _.
Arguments nextKey {A} _.

(** The key generator starts at 1. *)
Definition empty {A : Type} : Table A := mkTable ∅ 1%N.

(** Every stored key was handed out by the generator. *)
Definition wfTable {A : Type} (t : Table A) : Prop :=
  map_Forall (λ k _, (k < nextKey t)%N) (rows t).

Definition get {A : Type} (k : N) (t : Table A) : option A := rows t !! k.

(** [add]: the row is stored under the generator's next key; [None] is
    the ConstraintError raised when that key is taken. *)
Definition add {A : Type} (row : A) (t : Table A) : option (N * Table A) :=
  let k := nextKey t in
  match rows t !! k with
  | Some _ => None
  | None => Some (k, mkTable (<[k := row]> (rows t)) (k + 1)%N)
  end.

(** [update]: the row under [k], when there is one, is replaced by its
    modified version. *)
Definition update {A : Type} (k : N) (f : A → A) (t : Table A) : Table A :=
  mkTable (alter f k (rows t)) (nextKey t).

Definition delete {A : Type} (k : N) (t : Table A) : Table A :=
  mkTable (base.delete k (rows t)) (nextKey t).

(** [where(index).equals(v).delete()]: every row selected by [sel] goes. *)
Definition deleteWhere {A : Type} (sel : A → bool) (t : Table A) : Table A :=
  mkTable (filter (λ kv, sel kv.2 = false) (rows t)) (nextKey t).

(** Index order: by the indexed value, then by primary key. *)
Definition byZ {A : Type} (key : A → Z) (x y : N * A) : bool :=
  (key x.2 <? key y.2) || ((key x.2 =? key y.2) && (x.1 <=? y.1)%N).

Definition byString {A : Type} (key : A → string) (x y : N * A) : bool :=
  String.ltb (key x.2) (key y.2) ||
  (String.eqb (key x.2) (key y.2) && (x.1 <=? y.1)%N).

(** [orderBy(index).toArray()]. *)
Definition orderBy {A : Type} (before : N * A → N * A → bool) (t : Table A)
    : list (N * A) :=
  @merge_sort _ (λ x y, before x y = true)
    (λ x y, decide (before x y = true)) (map_to_list (rows t)).

Definition inRange (lower upper : Z) (includeLower includeUpper : bool)
    (v : Z) : bool :=
  (if includeLower then lower <=? v else lower <? v) &&
  (if includeUpper then v <=? upper else v <? upper).

(** [where(index).between(lower, upper, includeLower, includeUpper)
    .toArray()]. *)
Definition between {A : Type} (key : A → Z) (lower upper : Z)
    (includeLower includeUpper : bool) (t : Table A) : list (N * A) :=
  filter (λ kv, inRange lower upper includeLower includeUpper (key kv.2) = true)
         (orderBy (byZ key) t).

(** The bounds [between] uses when the two flags are left out. *)
Definition defaultIncludeLower : bool := true.
Definition defaultIncludeUpper : bool := false.

(** Primary-key order, and [toArray()] of a table. *)
Definition byKey {A : Type} (x y : N * A) : bool := (x.1 <=? y.1)%N.

Definition keyLe {A : Type} (x y : N * A) : Prop := byKey x y = true.

Definition indexLe {A : Type} (key : A → Z) (x y : N * A) : Prop :=
  byZ key x y = true.

Definition toArray {A : Type} (t : Table A) : list (N * A) := orderBy byKey t.

(** [where(index).equals(v).toArray()]: the rows whose indexed value is
    [v], in primary-key order. *)
Definition whereEquals {A K : Type} `{EqDecision K} (key : A → K) (v : K)
    (t : Table A) : list (N * A) :=
  filter (λ kv, key kv.2 = v) (toArray t).

(** [clear()]: every row goes; the key generator keeps its value. *)
Definition clear {A : Type} (t : Table A) : Table A := mkTable ∅ (nextKey t).

End Dexie.

(** ** Effects: a store, a clock, and rejected promises *)

Module Eff.

Inductive Result (A : Type) : Type :=
| Ok (a : A)
| Error (msg : string).
Arguments Ok {A} _.
Arguments Error {A} _.

Record World (DB : Type) : Type := mkWorld { db : DB; reads : nat }.
Arguments mkWorld {DB} _ _.
Arguments db {DB} _.
Arguments reads {DB} _.

Definition Clock : Type := nat → Date.

(** A clock that advances by one millisecond at every reading, and one
    that stands still. *)
Definition ticking (start : Date) : Clock := λ i, start + Z.of_nat i.
Definition still (instant : Date) : Clock := λ _, instant.

Definition M (DB A : Type) : Type := Clock → World DB → Result A * World DB.

Definition ret {DB A : Type} (a : A) : M DB A := λ _ w, (Ok a, w).

Definition bind {DB A B : Type} (c : M DB A) (k : A → M DB B) : M DB B :=
  λ clock w,
    match c clock w with
    | (Ok a, w') => k a clock w'
    | (Error msg, w') => (Error msg, w')
    end.

Definition throw {DB A : Type} (msg : string) : M DB A :=
  λ _ w, (Error msg, w).

(** [new Date()]: the next clock reading. *)
Definition now {DB : Type} : M DB Date :=
  λ clock w, (Ok (clock (reads w)), mkWorld (db w) (S (reads w))).

Definition read {DB A : Type} (f : DB → A) : M DB A :=
  λ _ w, (Ok (f (db w)), w).

Definition write {DB : Type} (f : DB → DB) : M DB unit :=
  λ _ w, (Ok tt, mkWorld (f (db w)) (reads w)).

(** [try { body } catch { handler }]. *)
Definition catch {DB A : Type} (body : M DB A) (handler : string → M DB A)
    : M DB A :=
  λ clock w,
    match body clock w with
    | (Ok a, w') => (Ok a, w')
    | (Error msg, w') => handler msg clock w'
    end.

(** [for (const x of xs) { body x }]. *)
Fixpoint forEach {DB A : Type} (xs : list A) (body : A → M DB unit)
    : M DB unit :=
  match xs with
  | [] => ret tt
  | x :: xs' => bind (body x) (λ _, forEach xs' body)
  end.

(** [Promise.all(xs.map(async x => body x))], and a loop that pushes one
    result per element. *)
Fixpoint mapM {DB A B : Type} (body : A → M DB B) (xs : list A)
    : M DB (list B) :=
  match xs with
  | [] => ret []
  | x :: xs' =>
      bind (body x) (λ y, bind (mapM body xs') (λ ys, ret (y :: ys)))
  end.

End Eff.

Import Eff.

Declare Scope eff_scope.
Delimit Scope eff_scope with eff.
Notation "x <~ c ;; k" := (bind c (λ x, k))
  (at level 100, c at next level, right associativity) : eff_scope.
Notation "c ;;; k" := (bind c (λ _, k))
  (at level 100, right associativity) : eff_scope.


(** ** Schema revision 1: the expiry model (monthly / quarterly / annual) *)

Module SchemaV1.

Inductive Gender := male | female | other.
Inductive SubscriptionType := monthly | quarterly | annual.
Inductive Status := active | expired | expiring_soon.
Inductive PaymentMethod := cash | mpesa | card | bank_transfer.

#[global] Instance Status_eq_dec : EqDecision Status.
Proof. solve_decision. Defined.

Record Member := mkMember {
  fullName : string;
  phone : string;
  email : option string;
  gender : Gender;
  startDate : Date;
  subscriptionType : SubscriptionType;
  subscriptionFee : Z;
  renewalDate : Date;
  status : Status;
  createdAt : Date;
  updatedAt : Date
}.

Record Payment := mkPayment {
  memberId : N;
  amount : Z;
  paymentMethod : PaymentMethod;
  paymentDate : Date;
  renewalPeriod : string;
  notes : option string;
  payCreatedAt : Date
}.

Record DB := mkDB {
  members : Dexie.Table Member;
  payments : Dexie.Table Payment
}.

Definition emptyDB : DB := mkDB Dexie.empty Dexie.empty.

Definition withMembers (t : Dexie.Table Member) (d : DB) : DB :=
  mkDB t (payments d).
Definition withPayments (t : Dexie.Table Payment) (d : DB) : DB :=
  mkDB (members d) t.

Definition setRenewalDate (v : Date) (m : Member) : Member :=
  mkMember (fullName m) (phone m) (email m) (gender m) (startDate m)
    (subscriptionType m) (subscriptionFee m) v (status m)
    (createdAt m) (updatedAt m).
Definition setStatus (v : Status) (m : Member) : Member :=
  mkMember (fullName m) (phone m) (email m) (gender m) (startDate m)
    (subscriptionType m) (subscriptionFee m) (renewalDate m) v
    (createdAt m) (updatedAt m).
Definition setCreatedAt (v : Date) (m : Member) : Member :=
  mkMember (fullName m) (phone m) (email m) (gender m) (startDate m)
    (subscriptionType m) (subscriptionFee m) (renewalDate m) (status m)
    v (updatedAt m).
Definition setUpdatedAt (v : Date) (m : Member) : Member :=
  mkMember (fullName m) (phone m) (email m) (gender m) (startDate m)
    (subscriptionType m) (subscriptionFee m) (renewalDate m) (status m)
    (createdAt m) v.

Record Modifications := mkMods {
  modRenewalDate : option Date;
  modStatus : option Status;
  modUpdatedAt : option Date
}.

Definition applyMods (mods : Modifications) (m : Member) : Member :=
  let m := from_option (λ v, setRenewalDate v m) m (modRenewalDate mods) in
  let m := from_option (λ v, setStatus v m) m (modStatus mods) in
  from_option (λ v, setUpdatedAt v m) m (modUpdatedAt mods).

(** [calculateMemberStatus]; [now] is the reading of its [new Date()]. *)
Definition calculateMemberStatus (now renewalDate : Date) : Status :=
  let timeDiff := renewalDate - now in
  let daysDiff := ceilDiv timeDiff (1000 * 3600 * 24) in
  if daysDiff <? 0 then expired
  else if daysDiff <=? 7 then expiring_soon
  else active.

Definition calculateRenewalDate (startDate : Date)
    (subscriptionType : SubscriptionType) : Date :=
  let renewalDate := startDate in
  match subscriptionType with
  | monthly => setMonth renewalDate (getMonth renewalDate + 1)
  | quarterly => setMonth renewalDate (getMonth renewalDate + 3)
  | annual => setFullYear renewalDate (getFullYear renewalDate + 1)
  end.

Local Open Scope eff_scope.

Definition calculateMemberStatusNow (renewalDate : Date) : M DB Status :=
  n <~ now ;; ret (calculateMemberStatus n renewalDate).

(** [members.hook('creating')]. *)
Definition membersCreating (obj : Member) : M DB Member :=
  c <~ now ;;
  u <~ now ;;
  s <~ calculateMemberStatusNow (renewalDate obj) ;;
  ret (setStatus s (setUpdatedAt u (setCreatedAt c obj))).

(** [members.hook('updating')]: the handler assigns [updatedAt], and
    for a modifications object that carries a renewal date a derived
    [status], to the object it is handed, and returns nothing.  The
    table hands a hook its own copy of the modifications and applies
    only what the hook returns, so the two assignments reach no row:
    what remains of the handler are its readings of the clock. *)
Definition membersUpdating (mods : Modifications) : M DB unit :=
  updatedAt <~ now ;;
  match modRenewalDate mods with
  | Some r => status <~ calculateMemberStatusNow r ;; ret tt
  | None => ret tt
  end.

Definition constraintError : string := "ConstraintError".

Definition membersAdd (obj : Member) : M DB N :=
  obj <~ membersCreating obj ;;
  t <~ read members ;;
  match Dexie.add obj t with
  | Some (k, t') => write (withMembers t') ;;; ret k
  | None => throw constraintError
  end.

Definition membersGet (id : N) : M DB (option Member) :=
  read (λ d, Dexie.get id (members d)).

Definition membersUpdate (id : N) (changes : Modifications) : M DB nat :=
  existing <~ membersGet id ;;
  match existing with
  | None => ret 0%nat
  | Some _ =>
      membersUpdating changes ;;;
      write (λ d, withMembers (Dexie.update id (applyMods changes) (members d)) d) ;;;
      ret 1%nat
  end.

Definition getAllMembers : M DB (list (N * Member)) :=
  read (λ d, Dexie.orderBy (Dexie.byString fullName) (members d)).

Definition getMonthlyRevenue (year month : Z) : M DB Z :=
  let startDate := newDate year (month - 1) 1 0 0 0 in
  let endDate := newDate year month 0 23 59 59 in
  payments <~ read (λ d, Dexie.between paymentDate startDate endDate
                           Dexie.defaultIncludeLower Dexie.defaultIncludeUpper
                           (payments d)) ;;
  ret (foldl (λ total payment, total + amount payment.2) 0 payments).

(** The body of the loop in [updateMemberStatuses], for one element
    [member] of the array, stored under key [id]. *)
Definition updateMemberStatuses_body (entry : N * Member) : M DB unit :=
  let '(id, member) := entry in
  newStatus <~ calculateMemberStatusNow (renewalDate member) ;;
  if decide (status member = newStatus) then ret tt
  else membersUpdate id (mkMods None (Some newStatus) None) ;;; ret tt.

Definition updateMemberStatuses : M DB unit :=
  members <~ getAllMembers ;;
  forEach members updateMemberStatuses_body.

(** [m'] is [m] up to the status and the update stamp. *)
Definition onlyStatusChanged (m m' : Member) : Prop :=
  m' = setUpdatedAt (updatedAt m') (setStatus (status m') m).

(** What one pass of the loop makes of a member when the clock reads [n]
    for the derivation. *)
Definition refresh (n : Date) (m : Member) : Member :=
  if decide (status m = calculateMemberStatus n (renewalDate m)) then m
  else setStatus (calculateMemberStatus n (renewalDate m)) m.

(** Nothing but rows of [members] differs between [d] and [d']. *)
Definition membersOnly (d d' : DB) : Prop :=
  payments d' = payments d ∧
  Dexie.nextKey (members d') = Dexie.nextKey (members d).

(** *** pages/AddMember *)

Record MemberFormData := mkMemberFormData {
  formFullName : string;
  formPhone : string;
  formEmail : option string;
  formGender : Gender;
  formSubscriptionType : SubscriptionType;
  formSubscriptionFee : Z;
  formStartDate : Date
}.

(** [s || undefined] on an optional string: the empty string is falsy. *)
Definition orUndefined (s : option string) : option string :=
  match s with
  | Some s => if String.eqb s "" then None else Some s
  | None => None
  end.

(** [onSubmit(data)] of the registration form: [true] when the member
    was added. *)
Definition addMemberOnSubmit (data : MemberFormData) : M DB bool :=
  catch
    (let renewalDate :=
       calculateRenewalDate (formStartDate data) (formSubscriptionType data) in
     createdAt <~ now ;;
     updatedAt <~ now ;;
     membersAdd (mkMember (formFullName data) (formPhone data)
                   (orUndefined (formEmail data)) (formGender data)
                   (formStartDate data)
                   (formSubscriptionType data) (formSubscriptionFee data)
                   renewalDate active createdAt updatedAt) ;;;
     ret true)
    (λ _, ret false).

(** *** pages/Members *)

(** [handleDeleteMember(memberId)]; [confirmed] is the answer to the
    confirmation dialog. *)
Definition handleDeleteMember (confirmed : bool) (memberId : N) : M DB unit :=
  if confirmed then
    catch
      (write (λ d, withMembers (Dexie.delete memberId (members d)) d) ;;;
       write (λ d, withPayments
                     (Dexie.deleteWhere
                        (λ p, bool_decide (SchemaV1.memberId p = memberId))
                        (payments d)) d))
      (λ _, ret tt)
  else ret tt.

(** How far a status is from good standing. *)
Definition statusRank (s : Status) : Z :=
  match s with active => 0 | expiring_soon => 1 | expired => 2 end.

(** *** Queries of the database class *)

Definition getMembersByStatus (status : Status) : M DB (list (N * Member)) :=
  read (λ d, Dexie.whereEquals SchemaV1.status status (members d)).

Definition getActiveMembers : M DB (list (N * Member)) :=
  read (λ d, Dexie.whereEquals status active (members d)).

Definition getExpiredMembers : M DB (list (N * Member)) :=
  read (λ d, Dexie.whereEquals status expired (members d)).

Definition getExpiringSoonMembers : M DB (list (N * Member)) :=
  read (λ d, Dexie.whereEquals status expiring_soon (members d)).

(** [where('memberId').equals(memberId).reverse().toArray()]. *)
Definition getMemberPayments (memberId : N) : M DB (list (N * Payment)) :=
  read (λ d, reverse (Dexie.whereEquals SchemaV1.memberId memberId (payments d))).

(** *** pages/Settings: clearing the data *)

(** [clearAllData()]; [confirmed] is the answer to the confirmation
    dialog, the result tells whether the success toast was shown. *)
Definition clearAllData (confirmed : bool) : M DB bool :=
  if confirmed then
    catch
      (write (λ d, withMembers (Dexie.clear (members d)) d) ;;;
       write (λ d, withPayments (Dexie.clear (payments d)) d) ;;;
       ret true)
      (λ _, ret false)
  else ret false.

(** Every table of the store is well formed. *)
Definition wfDB (d : DB) : Prop :=
  Dexie.wfTable (members d) ∧ Dexie.wfTable (payments d).

End SchemaV1.

(** ** Settings (schema revision 1)

    The settings table is read and written by functions that touch no
    other table; it is modelled as a store of its own. *)

Module SettingsV1.

Record GymSettings := mkGymSettings {
  gymName : string;
  gymLogo : option string;
  contactPhone : option string;
  contactEmail : option string;
  address : option string;
  defaultMonthlyFee : Z;
  defaultQuarterlyFee : Z;
  defaultAnnualFee : Z;
  pinCode : option string;
  createdAt : Date;
  updatedAt : Date
}.

Definition DB : Type := Dexie.Table GymSettings.

Local Open Scope eff_scope.

(** [settings.hook('creating')]. *)
Definition settingsCreating (obj : GymSettings) : M DB GymSettings :=
  c <~ now ;;
  u <~ now ;;
  ret (mkGymSettings (gymName obj) (gymLogo obj) (contactPhone obj)
         (contactEmail obj) (address obj) (defaultMonthlyFee obj)
         (defaultQuarterlyFee obj) (defaultAnnualFee obj) (pinCode obj) c u).

Definition constraintError : string := "ConstraintError".

Definition settingsAdd (obj : GymSettings) : M DB N :=
  obj <~ settingsCreating obj ;;
  t <~ read id ;;
  match Dexie.add obj t with
  | Some (k, t') => write (λ _, t') ;;; ret k
  | None => throw constraintError
  end.

(** [getGymSettings()]: [orderBy('id').last()], with the row's key. *)
Definition getGymSettings : M DB (option (N * GymSettings)) :=
  read (λ t, last (Dexie.toArray t)).

(** [initializeDefaultSettings()]. *)
Definition initializeDefaultSettings : M DB unit :=
  existingSettings <~ getGymSettings ;;
  match existingSettings with
  | Some _ => ret tt
  | None =>
      createdAt <~ now ;;
      updatedAt <~ now ;;
      settingsAdd (mkGymSettings "My Gym" None None None None
                     2000 5500 20000 None createdAt updatedAt) ;;;
      ret tt
  end.

(** *** pages/Settings *)

Record SettingsFormData := mkSettingsFormData {
  formGymName : string;
  formContactPhone : option string;
  formContactEmail : option string;
  formAddress : option string;
  formMonthlyFee : Z;
  formQuarterlyFee : Z;
  formAnnualFee : Z;
  formPinCode : option string
}.

(** [a || b] on optional strings: the empty string is falsy. *)
Definition orElse (a b : option string) : option string :=
  match a with
  | Some s => if String.eqb s "" then b else Some s
  | None => b
  end.

(** The modifications object [settingsData] applied to a stored row: the
    logo and the creation stamp are not among its keys; a key whose value
    is undefined is removed from the row; [stamp] is its [updatedAt]. *)
Definition applySettingsData (data : SettingsFormData) (pin : option string)
    (stamp : Date) (s : GymSettings) : GymSettings :=
  mkGymSettings (formGymName data) (gymLogo s) (formContactPhone data)
    (formContactEmail data) (formAddress data) (formMonthlyFee data)
    (formQuarterlyFee data) (formAnnualFee data) pin (createdAt s) stamp.

(** [settings.hook('updating')]: the handler assigns [updatedAt] to the
    object it is handed and returns nothing; the table applies only what
    a hook returns, so the reading of the clock is all that remains. *)
Definition settingsUpdating : M DB unit :=
  updatedAt <~ now ;; ret tt.

(** [onSubmit(data)] of the settings form; [settings] is the row the
    page loaded, with its key, and the result tells whether the success
    toast was shown.  A row that is updated keeps the [updatedAt] the
    page took. *)
Definition onSubmit (settings : option (N * GymSettings))
    (data : SettingsFormData) : M DB bool :=
  catch
    (let pin := orElse (formPinCode data) (settings ≫= (λ s, pinCode s.2)) in
     updatedAt <~ now ;;
     match settings with
     | Some (key, _) =>
         if (key =? 0)%N then
           createdAt <~ now ;;
           settingsAdd (mkGymSettings (formGymName data) None
                          (formContactPhone data) (formContactEmail data)
                          (formAddress data) (formMonthlyFee data)
                          (formQuarterlyFee data) (formAnnualFee data)
                          pin createdAt updatedAt) ;;;
           ret true
         else
           existing <~ read (Dexie.get key) ;;
           match existing with
           | None => ret true
           | Some _ =>
               settingsUpdating ;;;
               write (Dexie.update key (applySettingsData data pin updatedAt)) ;;;
               ret true
           end
     | None =>
         createdAt <~ now ;;
         settingsAdd (mkGymSettings (formGymName data) None
                        (formContactPhone data) (formContactEmail data)
                        (formAddress data) (formMonthlyFee data)
                        (formQuarterlyFee data) (formAnnualFee data)
                        pin createdAt updatedAt) ;;;
         ret true
     end)
    (λ _, ret false).

(** [authenticatePin()]: [None] when the page has no PIN to compare
    with, otherwise whether the entered PIN is the stored one. *)
Definition authenticatePin (settings : option (N * GymSettings))
    (enteredPin : string) : option bool :=
  match orElse (settings ≫= (λ s, pinCode s.2)) None with
  | None => None
  | Some pin => Some (String.eqb enteredPin pin)
  end.

End SettingsV1.
(** ** Schema revision 2: the dues model (daily / weekly / monthly),
       with check-ins and a payment-completeness flag *)

Module SchemaV2.

Inductive Gender := male | female | other.
Inductive SubscriptionType := daily | weekly | monthly.
Inductive Status := active | due | overdue.
Inductive PaymentStatus := paid | incomplete.
Inductive PaymentMethod := cash | mpesa | card | bank_transfer.

#[global] Instance Status_eq_dec : EqDecision Status.
Proof. solve_decision. Defined.
#[global] Instance PaymentStatus_eq_dec : EqDecision PaymentStatus.
Proof. solve_decision. Defined.

(** The primary key [id] is the key of the row in its table. *)
Record Member := mkMember {
  fullName : string;
  phone : string;
  email : option string;
  gender : Gender;
  startDate : Date;
  subscriptionType : SubscriptionType;
  subscriptionFee : Z;
  renewalDate : Date;
  status : Status;
  paymentStatus : PaymentStatus;
  lastCheckIn : option Date;
  createdAt : Date;
  updatedAt : Date
}.

Record Payment := mkPayment {
  memberId : N;
  amount : Z;
  paymentMethod : PaymentMethod;
  paymentDate : Date;
  renewalPeriod : string;
  paySubscriptionType : SubscriptionType;
  notes : option string;
  payCreatedAt : Date
}.

Record CheckIn := mkCheckIn {
  ciMemberId : N;
  checkInDate : Date;
  ciCreatedAt : Date
}.

Record DB := mkDB {
  members : Dexie.Table Member;
  payments : Dexie.Table Payment;
  checkIns : Dexie.Table CheckIn
}.

Definition emptyDB : DB := mkDB Dexie.empty Dexie.empty Dexie.empty.

Definition withMembers (t : Dexie.Table Member) (d : DB) : DB :=
  mkDB t (payments d) (checkIns d).
Definition withPayments (t : Dexie.Table Payment) (d : DB) : DB :=
  mkDB (members d) t (checkIns d).
Definition withCheckIns (t : Dexie.Table CheckIn) (d : DB) : DB :=
  mkDB (members d) (payments d) t.

Definition setRenewalDate (v : Date) (m : Member) : Member :=
  mkMember (fullName m) (phone m) (email m) (gender m) (startDate m)
    (subscriptionType m) (subscriptionFee m) v (status m)
    (paymentStatus m) (lastCheckIn m) (createdAt m) (updatedAt m).
Definition setStatus (v : Status) (m : Member) : Member :=
  mkMember (fullName m) (phone m) (email m) (gender m) (startDate m)
    (subscriptionType m) (subscriptionFee m) (renewalDate m) v
    (paymentStatus m) (lastCheckIn m) (createdAt m) (updatedAt m).
Definition setLastCheckIn (v : Date) (m : Member) : Member :=
  mkMember (fullName m) (phone m) (email m) (gender m) (startDate m)
    (subscriptionType m) (subscriptionFee m) (renewalDate m) (status m)
    (paymentStatus m) (Some v) (createdAt m) (updatedAt m).
Definition setCreatedAt (v : Date) (m : Member) : Member :=
  mkMember (fullName m) (phone m) (email m) (gender m) (startDate m)
    (subscriptionType m) (subscriptionFee m) (renewalDate m) (status m)
    (paymentStatus m) (lastCheckIn m) v (updatedAt m).
Definition setUpdatedAt (v : Date) (m : Member) : Member :=
  mkMember (fullName m) (phone m) (email m) (gender m) (startDate m)
    (subscriptionType m) (subscriptionFee m) (renewalDate m) (status m)
    (paymentStatus m) (lastCheckIn m) (createdAt m) v.

(** A modifications object ([Partial<Member>]) with the keys that some
    caller or hook of the repository ever sets. *)
Record Modifications := mkMods {
  modRenewalDate : option Date;
  modStatus : option Status;
  modLastCheckIn : option Date;
  modUpdatedAt : option Date
}.

Definition applyMods (mods : Modifications) (m : Member) : Member :=
  let m := from_option (λ v, setRenewalDate v m) m (modRenewalDate mods) in
  let m := from_option (λ v, setStatus v m) m (modStatus mods) in
  let m := from_option (λ v, setLastCheckIn v m) m (modLastCheckIn mods) in
  from_option (λ v, setUpdatedAt v m) m (modUpdatedAt mods).

(** [calculateMemberStatus]; [now] is the reading of its [new Date()]. *)
Definition calculateMemberStatus (now renewalDate : Date) : Status :=
  let timeDiff := renewalDate - now in
  let daysDiff := ceilDiv timeDiff (1000 * 3600 * 24) in
  if daysDiff <? -7 then overdue
  else if daysDiff <=? 0 then due
  else active.

Definition calculateRenewalDate (startDate : Date)
    (subscriptionType : SubscriptionType) : Date :=
  let renewalDate := startDate in
  match subscriptionType with
  | daily => setDate renewalDate (getDate renewalDate + 1)
  | weekly => setDate renewalDate (getDate renewalDate + 7)
  | monthly => setMonth renewalDate (getMonth renewalDate + 1)
  end.

Local Open Scope eff_scope.

Definition calculateMemberStatusNow (renewalDate : Date) : M DB Status :=
  n <~ now ;; ret (calculateMemberStatus n renewalDate).

(** [members.hook('creating')]. *)
Definition membersCreating (obj : Member) : M DB Member :=
  c <~ now ;;
  u <~ now ;;
  s <~ calculateMemberStatusNow (renewalDate obj) ;;
  ret (setStatus s (setUpdatedAt u (setCreatedAt c obj))).

(** [members.hook('updating')]: the handler assigns [updatedAt], and
    for a modifications object that carries a renewal date a derived
    [status], to the object it is handed, and returns nothing.  The
    table hands a hook its own copy of the modifications and applies
    only what the hook returns, so the two assignments reach no row:
    what remains of the handler are its readings of the clock. *)
Definition membersUpdating (mods : Modifications) : M DB unit :=
  updatedAt <~ now ;;
  match modRenewalDate mods with
  | Some r => status <~ calculateMemberStatusNow r ;; ret tt
  | None => ret tt
  end.

(** [payments.hook('creating')], [checkIns.hook('creating')]. *)
Definition paymentsCreating (obj : Payment) : M DB Payment :=
  c <~ now ;;
  ret (mkPayment (memberId obj) (amount obj) (paymentMethod obj)
         (paymentDate obj) (renewalPeriod obj) (paySubscriptionType obj)
         (notes obj) c).

Definition checkInsCreating (obj : CheckIn) : M DB CheckIn :=
  c <~ now ;;
  ret (mkCheckIn (ciMemberId obj) (checkInDate obj) c).

Definition constraintError : string := "ConstraintError".

(** [db.members.add(obj)], [db.payments.add(obj)], [db.checkIns.add(obj)]. *)
Definition membersAdd (obj : Member) : M DB N :=
  obj <~ membersCreating obj ;;
  t <~ read members ;;
  match Dexie.add obj t with
  | Some (k, t') => write (withMembers t') ;;; ret k
  | None => throw constraintError
  end.

Definition paymentsAdd (obj : Payment) : M DB N :=
  obj <~ paymentsCreating obj ;;
  t <~ read payments ;;
  match Dexie.add obj t with
  | Some (k, t') => write (withPayments t') ;;; ret k
  | None => throw constraintError
  end.

Definition checkInsAdd (obj : CheckIn) : M DB N :=
  obj <~ checkInsCreating obj ;;
  t <~ read checkIns ;;
  match Dexie.add obj t with
  | Some (k, t') => write (withCheckIns t') ;;; ret k
  | None => throw constraintError
  end.

(** [db.members.get(id)]. *)
Definition membersGet (id : N) : M DB (option Member) :=
  read (λ d, Dexie.get id (members d)).

(** [db.members.update(id, changes)]: the hook runs for a stored row
    only, and the row gets the caller's [changes]; the result is the
    number of rows updated. *)
Definition membersUpdate (id : N) (changes : Modifications) : M DB nat :=
  existing <~ membersGet id ;;
  match existing with
  | None => ret 0%nat
  | Some _ =>
      membersUpdating changes ;;;
      write (λ d, withMembers (Dexie.update id (applyMods changes) (members d)) d) ;;;
      ret 1%nat
  end.

Definition getAllMembers : M DB (list (N * Member)) :=
  read (λ d, Dexie.orderBy (Dexie.byString fullName) (members d)).

Definition getMonthlyRevenue (year month : Z) : M DB Z :=
  let startDate := newDate year (month - 1) 1 0 0 0 in
  let endDate := newDate year month 0 23 59 59 in
  payments <~ read (λ d, Dexie.between paymentDate startDate endDate
                           Dexie.defaultIncludeLower Dexie.defaultIncludeUpper
                           (payments d)) ;;
  ret (foldl (λ total payment, total + amount payment.2) 0 payments).

(** The body of the loop in [updateMemberStatuses], for one element
    [member] of the array, stored under key [id]. *)
Definition updateMemberStatuses_body (entry : N * Member) : M DB unit :=
  let '(id, member) := entry in
  newStatus <~ calculateMemberStatusNow (renewalDate member) ;;
  if decide (status member = newStatus) then ret tt
  else membersUpdate id (mkMods None (Some newStatus) None None) ;;; ret tt.

Definition updateMemberStatuses : M DB unit :=
  members <~ getAllMembers ;;
  forEach members updateMemberStatuses_body.

(** [m'] is [m] up to the status and the update stamp. *)
Definition onlyStatusChanged (m m' : Member) : Prop :=
  m' = setUpdatedAt (updatedAt m') (setStatus (status m') m).

(** What one pass of the loop makes of a member when the clock reads [n]
    for the derivation. *)
Definition refresh (n : Date) (m : Member) : Member :=
  if decide (status m = calculateMemberStatus n (renewalDate m)) then m
  else setStatus (calculateMemberStatus n (renewalDate m)) m.

(** Nothing but rows of [members] differs between [d] and [d']. *)
Definition membersOnly (d d' : DB) : Prop :=
  payments d' = payments d ∧ checkIns d' = checkIns d ∧
  Dexie.nextKey (members d') = Dexie.nextKey (members d).

Definition memberNotFound : string := "Member not found".
Definition cannotCheckIn : string :=
  "Cannot check in: Member has overdue subscription or incomplete payment".

Definition checkInMember (memberId : N) : M DB unit :=
  member <~ membersGet memberId ;;
  match member with
  | None => throw memberNotFound
  | Some member =>
      if bool_decide (status member = overdue)
         || bool_decide (paymentStatus member = incomplete)
      then throw cannotCheckIn
      else
        checkInDate <~ now ;;
        createdAt <~ now ;;
        checkInsAdd (mkCheckIn memberId checkInDate createdAt) ;;;
        lastCheckIn <~ now ;;
        membersUpdate memberId (mkMods None None (Some lastCheckIn) None) ;;;
        ret tt
  end.

(** The world an accepted check-in leaves behind: five clock readings, a
    new row in [checkIns], and [lastCheckIn] set on the member. *)
Definition afterCheckIn (clock : Clock) (w : World DB) (id : N) : World DB :=
  let r := reads w in
  let k := Dexie.nextKey (checkIns (db w)) in
  mkWorld
    (mkDB
       (Dexie.update id (setLastCheckIn (clock (3 + r)%nat)) (members (db w)))
       (payments (db w))
       (Dexie.mkTable
          (<[k := mkCheckIn id (clock r) (clock (2 + r)%nat)]>
             (Dexie.rows (checkIns (db w))))
          (k + 1)%N))
    (5 + r)%nat.

(** *** pages/CheckIn *)

Definition canCheckIn (member : Member) : bool :=
  bool_decide (status member = active)
  && bool_decide (paymentStatus member = paid).

Inductive Toast :=
| CheckInBlocked (reason : string)
| CheckInSuccessful
| CheckInFailed (description : string)
| PaymentRecorded
| PaymentFailed.

(** [handleCheckIn(member)], given the row the search result shows under
    key [id]. *)
Definition handleCheckIn (id : N) (member : Member) : M DB Toast :=
  catch
    (if bool_decide (status member = overdue)
        || bool_decide (paymentStatus member = incomplete)
     then ret (CheckInBlocked
                 (if bool_decide (status member = overdue)
                  then "Overdue subscription" else "Incomplete payment"))
     else checkInMember id ;;; ret CheckInSuccessful)
    (λ msg, ret (CheckInFailed msg)).

(** *** pages/Payments *)

Record PaymentFormData := mkPaymentFormData {
  formMemberId : N;
  formAmount : Z;
  formPaymentMethod : PaymentMethod;
  formPaymentDate : Date;
  formRenewalPeriod : string;
  formNotes : option string
}.

(** The statements of [onSubmit(data)], in source order, as they would
    run with the second [const member] (line 128) read as a binding of
    its own.  After the writes the form is reset, which reads the clock
    for the next default payment date. *)
Definition onSubmit_statements (data : PaymentFormData) : M DB Toast :=
  catch
    (member <~ membersGet (formMemberId data) ;;
     createdAt <~ now ;;
     paymentsAdd (mkPayment (formMemberId data) (formAmount data)
                    (formPaymentMethod data) (formPaymentDate data)
                    (formRenewalPeriod data)
                    (from_option subscriptionType monthly member)
                    (Some (default "" (formNotes data))) createdAt) ;;;
     member <~ membersGet (formMemberId data) ;;
     match member with
     | Some member =>
         let newRenewalDate :=
           calculateRenewalDate (formPaymentDate data) (subscriptionType member) in
         membersUpdate (formMemberId data)
           (mkMods (Some newRenewalDate) None None None) ;;;
         ret tt
     | None => ret tt
     end ;;;
     nextDefaultDate <~ now ;;
     ret PaymentRecorded)
    (λ _, ret PaymentFailed).

(** The names that the statement list of the handler's [try] block
    declares with [const], in source order (lines 115 and 128);
    [newRenewalDate] belongs to the block of the [if]. *)
Definition onSubmit_declaredNames : list string := ["member"; "member"].

(** A statement list that declares a name twice is rejected with a
    SyntaxError when the script is read, before any of it runs. *)
Definition redeclares (names : list string) : bool :=
  negb (bool_decide (NoDup names)).

Definition syntaxError : string :=
  "SyntaxError: Identifier 'member' has already been declared".

(** [onSubmit(data)] as the page has it.  The page's script is rejected
    for the redeclaration, so no submission reaches a statement of the
    handler, its [catch] included; a submission is modelled as raising
    that error. *)
Definition onSubmit (data : PaymentFormData) : M DB Toast :=
  if redeclares onSubmit_declaredNames then throw syntaxError
  else onSubmit_statements data.

(** The world the statements of [onSubmit] would leave behind for a
    stored paying member [m]: five clock readings, a new row in
    [payments], and the member's renewal date rewritten. *)
Definition afterPayment (clock : Clock) (w : World DB) (data : PaymentFormData)
    (m : Member) : World DB :=
  let r := reads w in
  let k := Dexie.nextKey (payments (db w)) in
  let renewal :=
    calculateRenewalDate (formPaymentDate data) (subscriptionType m) in
  mkWorld
    (mkDB
       (Dexie.update (formMemberId data) (setRenewalDate renewal)
          (members (db w)))
       (Dexie.mkTable
          (<[k := mkPayment (formMemberId data) (formAmount data)
                    (formPaymentMethod data) (formPaymentDate data)
                    (formRenewalPeriod data) (subscriptionType m)
                    (Some (default "" (formNotes data)))
                    (clock (1 + r)%nat)]>
             (Dexie.rows (payments (db w))))
          (k + 1)%N)
       (checkIns (db w)))
    (5 + r)%nat.

(** How far a status is from good standing. *)
Definition statusRank (s : Status) : Z :=
  match s with active => 0 | due => 1 | overdue => 2 end.

(** *** Queries of the database class *)

Definition getMembersByStatus (status : Status) : M DB (list (N * Member)) :=
  read (λ d, Dexie.whereEquals SchemaV2.status status (members d)).

Definition getActiveMembers : M DB (list (N * Member)) :=
  read (λ d, Dexie.whereEquals status active (members d)).

Definition getDueMembers : M DB (list (N * Member)) :=
  read (λ d, Dexie.whereEquals status due (members d)).

Definition getOverdueMembers : M DB (list (N * Member)) :=
  read (λ d, Dexie.whereEquals status overdue (members d)).

Definition getMembersWithIncompletePayments : M DB (list (N * Member)) :=
  read (λ d, Dexie.whereEquals paymentStatus incomplete (members d)).

(** [where('memberId').equals(memberId).reverse().toArray()]. *)
Definition getMemberPayments (memberId : N) : M DB (list (N * Payment)) :=
  read (λ d, reverse (Dexie.whereEquals SchemaV2.memberId memberId (payments d))).

Definition unknownMember : string := "Unknown Member".

(** [member?.fullName || 'Unknown Member']: an empty name is falsy. *)
Definition memberNameOr (fallback : string) (member : option Member) : string :=
  match member with
  | Some member =>
      if String.eqb (fullName member) "" then fallback else fullName member
  | None => fallback
  end.

Definition getRecentCheckIns (limit : nat)
    : M DB (list (N * CheckIn * string)) :=
  checkIns <~ read (λ d, take limit
                           (reverse (Dexie.orderBy (Dexie.byZ checkInDate)
                                       (checkIns d)))) ;;
  mapM (λ checkIn,
          member <~ membersGet (ciMemberId checkIn.2) ;;
          ret (checkIn, memberNameOr unknownMember member))
       checkIns.

Definition getTodayCheckIns : M DB nat :=
  today <~ now ;;
  let startOfDay :=
    newDate (getFullYear today) (getMonth today) (getDate today) 0 0 0 in
  let endOfDay :=
    newDate (getFullYear today) (getMonth today) (getDate today) 23 59 59 in
  todayCheckIns <~ read (λ d, length (Dexie.between checkInDate startOfDay endOfDay
                                        Dexie.defaultIncludeLower
                                        Dexie.defaultIncludeUpper (checkIns d))) ;;
  ret todayCheckIns.

Definition getWeeklyCheckInStats : M DB (list (string * nat)) :=
  today <~ now ;;
  mapM (λ i,
          let date := setDate today (getDate today - i) in
          let startOfDay :=
            newDate (getFullYear date) (getMonth date) (getDate date) 0 0 0 in
          let endOfDay :=
            newDate (getFullYear date) (getMonth date) (getDate date) 23 59 59 in
          checkIns <~ read (λ d, length (Dexie.between checkInDate startOfDay endOfDay
                                           Dexie.defaultIncludeLower
                                           Dexie.defaultIncludeUpper (checkIns d))) ;;
          ret (weekdayShort date, checkIns))
       [6; 5; 4; 3; 2; 1; 0].

Record Revenue := mkRevenue {
  revDaily : Z;
  revWeekly : Z;
  revMonthly : Z;
  revIncomplete : Z
}.

(** [revenue[payment.subscriptionType] += payment.amount]. *)
Definition addRevenue (revenue : Revenue) (payment : Payment) : Revenue :=
  match paySubscriptionType payment with
  | daily => mkRevenue (revDaily revenue + amount payment) (revWeekly revenue)
               (revMonthly revenue) (revIncomplete revenue)
  | weekly => mkRevenue (revDaily revenue) (revWeekly revenue + amount payment)
                (revMonthly revenue) (revIncomplete revenue)
  | monthly => mkRevenue (revDaily revenue) (revWeekly revenue)
                 (revMonthly revenue + amount payment) (revIncomplete revenue)
  end.

Definition getTodayRevenue : M DB Revenue :=
  today <~ now ;;
  let startOfDay :=
    newDate (getFullYear today) (getMonth today) (getDate today) 0 0 0 in
  let endOfDay :=
    newDate (getFullYear today) (getMonth today) (getDate today) 23 59 59 in
  todayPayments <~ read (λ d, Dexie.between paymentDate startOfDay endOfDay
                                Dexie.defaultIncludeLower
                                Dexie.defaultIncludeUpper (payments d)) ;;
  let revenue :=
    foldl (λ revenue payment, addRevenue revenue payment.2)
          (mkRevenue 0 0 0 0) todayPayments in
  incompleteMembers <~ getMembersWithIncompletePayments ;;
  ret (mkRevenue (revDaily revenue) (revWeekly revenue) (revMonthly revenue)
         (foldl (λ sum member, sum + subscriptionFee member.2) 0
                incompleteMembers)).

(** Every table of the store is well formed. *)
Definition wfDB (d : DB) : Prop :=
  Dexie.wfTable (members d) ∧ Dexie.wfTable (payments d) ∧
  Dexie.wfTable (checkIns d).

#[global] Instance SubscriptionType_eq_dec : EqDecision SubscriptionType.
Proof. solve_decision. Defined.

(** The amounts of a list of payment rows, and the fees of a list of
    member rows, added up. *)
Definition sumAmounts (l : list (N * Payment)) : Z :=
  foldr (λ kv acc, amount kv.2 + acc) 0 l.
Definition sumFees (l : list (N * Member)) : Z :=
  foldr (λ kv acc, subscriptionFee kv.2 + acc) 0 l.

End SchemaV2.

(** ** Sample data *)

Module Samples.

Import SchemaV2.

Definition alice : Member :=
  mkMember "Alice" "0700000001" None female (ymd 2024 1 1) monthly 2000
    (ymd 2024 2 1) active paid None (ymd 2024 1 1) (ymd 2024 1 1).
Definition bob : Member :=
  mkMember "Bob" "0700000002" None male (ymd 2024 1 1) weekly 500
    (ymd 2024 1 8) due paid None (ymd 2024 1 1) (ymd 2024 1 9).
Definition carol : Member :=
  mkMember "Carol" "0700000003" None female (ymd 2023 12 1) monthly 2000
    (ymd 2024 1 1) overdue paid None (ymd 2023 12 1) (ymd 2024 1 9).
Definition dave : Member :=
  mkMember "Dave" "0700000004" None male (ymd 2024 1 5) monthly 2000
    (ymd 2024 2 5) active incomplete None (ymd 2024 1 5) (ymd 2024 1 5).

Definition gymMembers : Dexie.Table Member :=
  Dexie.mkTable (<[1%N := alice]> (<[2%N := bob]> (<[3%N := carol]>
                  (<[4%N := dave]> ∅)))) 5%N.

(** 2024-01-31 23:59:59.500, in the last second of January. *)
Definition lateJanuary : Date := ymd 2024 1 31 + MakeTime 23 59 59 500.

Definition latePayment : Payment :=
  mkPayment 1%N 1000 cash lateJanuary "Jan 2024" monthly (Some "") lateJanuary.

Definition gym : DB := mkDB gymMembers Dexie.empty Dexie.empty.

Definition gymWithLatePayment : DB :=
  mkDB gymMembers (Dexie.mkTable {[1%N := latePayment]} 2%N) Dexie.empty.

Definition aliceFebruaryPayment : PaymentFormData :=
  mkPaymentFormData 1%N 2000 mpesa (ymd 2024 2 10) "Feb 2024" None.

(** The morning of 2024-01-10. *)
Definition jan10 : Date := ymd 2024 1 10 + MakeTime 9 0 0 0.

(** A payment row of 2000 dated that morning. *)
Definition midJanuaryPayment : Payment :=
  mkPayment 1%N 2000 mpesa jan10 "Jan 2024" monthly (Some "") jan10.

(** A registration on 2024-01-01 in a revision-1 store. *)
Definition erinRegistration : SchemaV1.MemberFormData :=
  SchemaV1.mkMemberFormData "Erin" "0700000005" None SchemaV1.female
    SchemaV1.monthly 2000 (ymd 2024 1 1).

(** The same late payment in a revision-1 store. *)
Definition gymV1WithLatePayment : SchemaV1.DB :=
  SchemaV1.mkDB Dexie.empty
    (Dexie.mkTable
       {[1%N := SchemaV1.mkPayment 1%N 1000 SchemaV1.cash lateJanuary
                  "Jan 2024" (Some "") lateJanuary]} 2%N).

(** A payment form filled in for Carol on the morning of 2024-01-10. *)
Definition carolPayment : PaymentFormData :=
  mkPaymentFormData 3%N 2000 cash jan10 "Jan 2024" None.

(** A settings table with one PIN-protected row, and three states of
    the settings form. *)
Definition protectedSettings : SettingsV1.GymSettings :=
  SettingsV1.mkGymSettings "My Gym" (Some "logo") None None None
    2000 5500 20000 (Some "1234") 10 20.

Definition settingsStore : World SettingsV1.DB :=
  mkWorld (Dexie.mkTable {[1%N := protectedSettings]} 2%N) 0.

Definition renamingForm : SettingsV1.SettingsFormData :=
  SettingsV1.mkSettingsFormData "Iron Temple" (Some "0700") None None
    2500 6000 21000 None.

Definition emptyPinForm : SettingsV1.SettingsFormData :=
  SettingsV1.mkSettingsFormData "My Gym" None None None 2000 5500 20000 (Some "").

Definition newPinForm : SettingsV1.SettingsFormData :=
  SettingsV1.mkSettingsFormData "Iron Temple" None None None
    2500 6000 21000 (Some "4321").

End Samples.
(** Linear arithmetic after naming the quotients and remainders of the
    divisions by constants. *)
Ltac zlia := Z.to_euclidean_division_equations; lia.

(** ** Facts about the date arithmetic *)

Lemma ceilDiv_spec (a b q : Z) :
  0 < b -> (ceilDiv a b = q <-> (q - 1) * b < a <= q * b).
Proof.
  intros Hb. unfold ceilDiv.
  pose proof (Z.div_mod (- a) b ltac:(lia)) as E.
  pose proof (Z.mod_pos_bound (- a) b Hb) as B.
  split; intros H; nia.
Qed.

Lemma DayFromYear_succ (y : Z) :
  DayFromYear (y + 1) = DayFromYear y + DaysInYear y.
Proof.
  unfold DayFromYear, DaysInYear.
  repeat match goal with
  | |- context [if negb (?a =? ?b) then _ else _] =>
      destruct (Z.eqb_spec a b); simpl negb; cbv iota
  end; zlia.
Qed.

Lemma DaysInYear_cases (y : Z) : DaysInYear y = 365 \/ DaysInYear y = 366.
Proof.
  unfold DaysInYear.
  repeat match goal with
  | |- context [if negb ?c then _ else _] => destruct c; simpl negb; cbv iota
  end; auto.
Qed.

Lemma leapOfYear_cases (y : Z) :
  (leapOfYear y = 0 /\ DaysInYear y = 365) \/
  (leapOfYear y = 1 /\ DaysInYear y = 366).
Proof.
  unfold leapOfYear. destruct (DaysInYear_cases y) as [E|E]; rewrite E; auto.
Qed.

Lemma DayFromYear_mono (a b : Z) : a <= b -> DayFromYear a <= DayFromYear b.
Proof. intros H. unfold DayFromYear. zlia. Qed.

Lemma YearFromDay_spec (d : Z) :
  DayFromYear (YearFromDay d) <= d < DayFromYear (YearFromDay d + 1).
Proof.
  unfold YearFromDay. cbv zeta.
  set (y0 := 1970 + 400 * d / 146097).
  assert (Hlo : DayFromYear (y0 - 1) <= d).
  { subst y0. unfold DayFromYear. zlia. }
  assert (Hhi : d < DayFromYear (y0 + 1 + 1)).
  { subst y0. unfold DayFromYear. zlia. }
  destruct (Z.ltb_spec d (DayFromYear y0)).
  - replace (y0 - 1 + 1) with y0 by lia. lia.
  - destruct (Z.leb_spec (DayFromYear (y0 + 1)) d); lia.
Qed.

(** [YearFromDay] is the year ECMAScript defines: the only [y] whose
    first day is at or before [d] and whose successor starts after it. *)
Lemma YearFromDay_unique (d y : Z) :
  DayFromYear y <= d < DayFromYear (y + 1) -> YearFromDay d = y.
Proof.
  intros Hy. pose proof (YearFromDay_spec d) as HY.
  destruct (Z.lt_trichotomy (YearFromDay d) y) as [L | [E | G]]; [| exact E |].
  - pose proof (DayFromYear_mono (YearFromDay d + 1) y ltac:(lia)). lia.
  - pose proof (DayFromYear_mono (y + 1) (YearFromDay d) ltac:(lia)). lia.
Qed.

Lemma Day_MakeDate (day time : Z) :
  0 <= time < msPerDay -> Day (MakeDate day time) = day.
Proof. unfold Day, MakeDate, msPerDay. intros H. zlia. Qed.

Lemma TimeWithinDay_MakeDate (day time : Z) :
  0 <= time < msPerDay -> TimeWithinDay (MakeDate day time) = time.
Proof. unfold TimeWithinDay, MakeDate, msPerDay. intros H. zlia. Qed.

Lemma TimeWithinDay_bounds (t : Date) : 0 <= TimeWithinDay t < msPerDay.
Proof. unfold TimeWithinDay, msPerDay. zlia. Qed.

Lemma MakeDate_Day (t : Date) : MakeDate (Day t) (TimeWithinDay t) = t.
Proof. unfold MakeDate, Day, TimeWithinDay, msPerDay. zlia. Qed.

Lemma DayWithinYear_bounds (t : Date) :
  0 <= DayWithinYear t < DaysInYear (YearFromTime t).
Proof.
  unfold DayWithinYear, YearFromTime.
  pose proof (YearFromDay_spec (Day t)) as H.
  rewrite DayFromYear_succ in H. lia.
Qed.

Lemma InLeapYear_leapOfYear (t : Date) :
  InLeapYear t = leapOfYear (YearFromTime t).
Proof. reflexivity. Qed.

Lemma monthOfDay_range (leap dwy : Z) : 0 <= monthOfDay leap dwy <= 11.
Proof.
  unfold monthOfDay.
  repeat match goal with
  | |- context [if ?a <? ?b then _ else _] => destruct (Z.ltb_spec a b)
  end; lia.
Qed.

Lemma MonthFromTime_range (t : Date) : 0 <= MonthFromTime t <= 11.
Proof. apply monthOfDay_range. Qed.

(** The calendar fields of a time value give back its day number. *)
Lemma MakeDay_fields (t : Date) :
  MakeDay (YearFromTime t) (MonthFromTime t) (DateFromTime t) = Day t.
Proof.
  pose proof (MonthFromTime_range t) as HM.
  unfold MakeDay. cbv zeta.
  replace (MonthFromTime t / 12) with 0 by zlia.
  replace (MonthFromTime t mod 12) with (MonthFromTime t) by zlia.
  rewrite Z.add_0_r, <- InLeapYear_leapOfYear.
  unfold DateFromTime, DayWithinYear. lia.
Qed.

Lemma MakeDay_date_shift (y m d n : Z) :
  MakeDay y m (d + n) = MakeDay y m d + n.
Proof. unfold MakeDay. lia. Qed.

Lemma MakeDay_norm (y m d : Z) :
  0 <= m <= 11 ->
  MakeDay y m d = DayFromYear y + monthStart (leapOfYear y) m + d - 1.
Proof.
  intros H. unfold MakeDay. cbv zeta.
  replace (m / 12) with 0 by zlia. replace (m mod 12) with m by zlia.
  rewrite Z.add_0_r. reflexivity.
Qed.

Lemma month_cases (m : Z) :
  0 <= m <= 11 ->
  m = 0 \/ m = 1 \/ m = 2 \/ m = 3 \/ m = 4 \/ m = 5 \/
  m = 6 \/ m = 7 \/ m = 8 \/ m = 9 \/ m = 10 \/ m = 11.
Proof. lia. Qed.

Ltac month_succ_norm :=
  change (0 + 1) with 1 in *; change (1 + 1) with 2 in *;
  change (2 + 1) with 3 in *; change (3 + 1) with 4 in *;
  change (4 + 1) with 5 in *; change (5 + 1) with 6 in *;
  change (6 + 1) with 7 in *; change (7 + 1) with 8 in *;
  change (8 + 1) with 9 in *; change (9 + 1) with 10 in *;
  change (10 + 1) with 11 in *; change (11 + 1) with 12 in *.

Ltac month_split m H :=
  destruct (month_cases m H) as
    [-> | [-> | [-> | [-> | [-> | [-> | [-> | [-> | [-> | [-> | [-> | ->]]]]]]]]]]];
  month_succ_norm.

Lemma DaysInMonth_bounds (y m : Z) :
  0 <= m <= 11 -> 28 <= DaysInMonth y m <= 31.
Proof.
  intros H. unfold DaysInMonth.
  destruct (leapOfYear_cases y) as [[-> _] | [-> _]];
    month_split m H; cbn; lia.
Qed.

(** Within a month, the calendar fields of the time value built from
    (year, month, date, time of day) are those very fields. *)
Lemma fields_in_month (y m d tod : Z) :
  0 <= m <= 11 -> 1 <= d <= DaysInMonth y m -> 0 <= tod < msPerDay ->
  let t := MakeDate (MakeDay y m d) tod in
  YearFromTime t = y /\ MonthFromTime t = m /\ DateFromTime t = d /\
  TimeWithinDay t = tod.
Proof.
  intros Hm Hd Htod t.
  assert (HD : Day t = DayFromYear y + monthStart (leapOfYear y) m + d - 1).
  { subst t. rewrite Day_MakeDate by exact Htod. apply MakeDay_norm, Hm. }
  assert (Hrange : 0 <= monthStart (leapOfYear y) m + d - 1 < DaysInYear y).
  { unfold DaysInMonth in Hd.
    destruct (leapOfYear_cases y) as [[E1 E2] | [E1 E2]];
      rewrite E1 in *; rewrite E2; clear HD;
      month_split m Hm; cbn in Hd |- *; lia. }
  assert (HY : YearFromTime t = y).
  { unfold YearFromTime. apply YearFromDay_unique.
    rewrite DayFromYear_succ, HD. lia. }
  assert (HW : DayWithinYear t = monthStart (leapOfYear y) m + d - 1).
  { unfold DayWithinYear. rewrite HY, HD. lia. }
  assert (HM : MonthFromTime t = m).
  { unfold MonthFromTime. rewrite InLeapYear_leapOfYear, HY, HW.
    unfold DaysInMonth in Hd. unfold monthOfDay. clear HD Hrange HW.
    destruct (leapOfYear_cases y) as [[E1 _] | [E1 _]]; rewrite E1 in *;
      month_split m Hm; cbn in Hd |- *;
      repeat match goal with
      | |- context [if ?a <? ?b then _ else _] => destruct (Z.ltb_spec a b)
      end; lia. }
  repeat split; [exact HY | exact HM | |].
  - unfold DateFromTime. rewrite InLeapYear_leapOfYear, HY, HM, HW. lia.
  - subst t. apply TimeWithinDay_MakeDate, Htod.
Qed.

Lemma DateFromTime_bounds (t : Date) :
  1 <= DateFromTime t <= DaysInMonth (YearFromTime t) (MonthFromTime t).
Proof.
  pose proof (DayWithinYear_bounds t) as HW.
  unfold DateFromTime, DaysInMonth, MonthFromTime.
  rewrite InLeapYear_leapOfYear in *.
  destruct (leapOfYear_cases (YearFromTime t)) as [[E1 E] | [E1 E]];
    rewrite E1 in *; rewrite E in HW; unfold monthOfDay;
    repeat match goal with
    | |- context [if ?a <? ?b then _ else _] => destruct (Z.ltb_spec a b)
    end; month_succ_norm; cbn; lia.
Qed.

(** A date past the end of a month of fewer than 31 days spills over into
    the month that follows. *)
Lemma MakeDay_overflow (y m d : Z) :
  0 <= m <= 10 ->
  MakeDay y m d = MakeDay y (m + 1) (d - DaysInMonth y m).
Proof.
  intros H. rewrite !MakeDay_norm by lia. unfold DaysInMonth. lia.
Qed.

Lemma MakeDay_normalise (y m d : Z) :
  MakeDay y m d = MakeDay (y + m / 12) (m mod 12) d.
Proof.
  unfold MakeDay. cbv zeta.
  replace (m mod 12 / 12) with 0 by zlia.
  replace (m mod 12 mod 12) with (m mod 12) by zlia.
  rewrite Z.add_0_r. reflexivity.
Qed.

Lemma MakeDate_rollsTo (y m d tod : Z) :
  0 <= m <= 11 -> 1 <= d <= 31 -> 0 <= tod < msPerDay ->
  rollsTo y m d tod (MakeDate (MakeDay y m d) tod).
Proof.
  intros Hm Hd Htod. unfold rollsTo.
  split; [apply TimeWithinDay_MakeDate, Htod |]. split; intros Hfit.
  - destruct (fields_in_month y m d tod Hm ltac:(lia) Htod) as (A & B & C & _).
    auto.
  - assert (Hm' : 0 <= m <= 10).
    { destruct (Z.eq_dec m 11) as [-> |]; [| lia].
      unfold DaysInMonth in Hfit. month_succ_norm. cbn in Hfit. lia. }
    pose proof (DaysInMonth_bounds y m Hm).
    pose proof (DaysInMonth_bounds y (m + 1) ltac:(lia)).
    rewrite MakeDay_overflow by exact Hm'.
    destruct (fields_in_month y (m + 1) (d - DaysInMonth y m) tod
                ltac:(lia) ltac:(lia) Htod) as (A & B & C & _).
    auto.
Qed.

(** [setMonth] to [n] months past the current month. *)
Lemma setMonth_rollsTo (t : Date) (n : Z) :
  rollsTo (YearFromTime t + (MonthFromTime t + n) / 12)
          ((MonthFromTime t + n) mod 12)
          (DateFromTime t) (TimeWithinDay t)
          (setMonth t (getMonth t + n)).
Proof.
  unfold setMonth, getMonth. rewrite MakeDay_normalise.
  pose proof (DateFromTime_bounds t) as HD.
  pose proof (DaysInMonth_bounds (YearFromTime t) _ (MonthFromTime_range t)).
  apply MakeDate_rollsTo; [zlia | lia | apply TimeWithinDay_bounds].
Qed.

Lemma setFullYear_rollsTo (t : Date) (n : Z) :
  rollsTo (YearFromTime t + n) (MonthFromTime t)
          (DateFromTime t) (TimeWithinDay t)
          (setFullYear t (getFullYear t + n)).
Proof.
  unfold setFullYear, getFullYear.
  pose proof (DateFromTime_bounds t) as HD.
  pose proof (DaysInMonth_bounds (YearFromTime t) _ (MonthFromTime_range t)).
  apply MakeDate_rollsTo;
    [apply MonthFromTime_range | lia | apply TimeWithinDay_bounds].
Qed.

Lemma setDate_shift (t : Date) (n : Z) :
  setDate t (getDate t + n) = t + n * msPerDay.
Proof.
  unfold setDate, getDate.
  rewrite MakeDay_date_shift, MakeDay_fields.
  pose proof (MakeDate_Day t) as E. unfold MakeDate in *. lia.
Qed.

Example jan01_2024 : ymd 2024 1 1 = 1704067200000.
Proof. reflexivity. Qed.

Example jan31_plus_month :
  SchemaV2.calculateRenewalDate (ymd 2024 1 31) SchemaV2.monthly = ymd 2024 3 2.
Proof. vm_compute. reflexivity. Qed.

Example jan31_plus_two_months :
  SchemaV2.calculateRenewalDate
    (SchemaV2.calculateRenewalDate (ymd 2023 1 31) SchemaV2.monthly)
    SchemaV2.monthly = ymd 2023 4 3.
Proof. vm_compute. reflexivity. Qed.

Example weekly_over_new_year :
  SchemaV2.calculateRenewalDate (ymd 2023 12 28) SchemaV2.weekly = ymd 2024 1 4.
Proof. vm_compute. reflexivity. Qed.

Example feb29_plus_year :
  SchemaV1.calculateRenewalDate (ymd 2024 2 29) SchemaV1.annual = ymd 2025 3 1.
Proof. vm_compute. reflexivity. Qed.

(** ** Status derivation *)

Lemma ceilDiv_day (x q : Z) :
  (q - 1) * msPerDay < x <= q * msPerDay -> ceilDiv x (1000 * 3600 * 24) = q.
Proof.
  intros H. apply ceilDiv_spec; [lia |].
  change (1000 * 3600 * 24) with msPerDay. exact H.
Qed.

(** C1. Dues model.  With [daysUntil] the ceiling of [(r - n) / 1 day],
    the derived status is overdue exactly when [daysUntil < -7], due
    exactly when [-7 <= daysUntil <= 0] and active exactly when
    [daysUntil > 0]; the boundary values -7 and 0 both give due. *)
Theorem calculateMemberStatus_dues_buckets (r n daysUntil : Z) :
  (daysUntil - 1) * msPerDay < r - n <= daysUntil * msPerDay ->
  (SchemaV2.calculateMemberStatus n r = SchemaV2.overdue <-> daysUntil < -7) /\
  (SchemaV2.calculateMemberStatus n r = SchemaV2.due <-> -7 <= daysUntil <= 0) /\
  (SchemaV2.calculateMemberStatus n r = SchemaV2.active <-> daysUntil > 0) /\
  (daysUntil = -7 -> SchemaV2.calculateMemberStatus n r = SchemaV2.due) /\
  (daysUntil = 0 -> SchemaV2.calculateMemberStatus n r = SchemaV2.due).
Proof.
  intros H. unfold SchemaV2.calculateMemberStatus. cbv zeta.
  rewrite (ceilDiv_day _ _ H).
  destruct (Z.ltb_spec daysUntil (-7)); [| destruct (Z.leb_spec daysUntil 0)];
    repeat split; intros; try discriminate; try reflexivity; lia.
Qed.

Lemma calculateMemberStatus_dues_buckets_witness :
  ((-7 - 1) * msPerDay < 0 - 7 * msPerDay <= -7 * msPerDay) /\
  SchemaV2.calculateMemberStatus (7 * msPerDay) 0 = SchemaV2.due.
Proof.
  assert (H : (-7 - 1) * msPerDay < 0 - 7 * msPerDay <= -7 * msPerDay)
    by (unfold msPerDay; lia).
  split; [exact H |].
  destruct (calculateMemberStatus_dues_buckets 0 (7 * msPerDay) (-7) H)
    as (_ & _ & _ & Hb & _).
  apply Hb. reflexivity.
Defined.

(** C7. Expiry model.  With [daysUntil] the ceiling of [(r - n) / 1 day],
    the derived status is expired exactly when [daysUntil < 0],
    expiring-soon exactly when [0 <= daysUntil <= 7] and active exactly
    when [daysUntil > 7]; the three buckets cover every value of
    [daysUntil] and no two of them overlap. *)
Theorem calculateMemberStatus_expiry_buckets (r n daysUntil : Z) :
  (daysUntil - 1) * msPerDay < r - n <= daysUntil * msPerDay ->
  (SchemaV1.calculateMemberStatus n r = SchemaV1.expired <-> daysUntil < 0) /\
  (SchemaV1.calculateMemberStatus n r = SchemaV1.expiring_soon
     <-> 0 <= daysUntil <= 7) /\
  (SchemaV1.calculateMemberStatus n r = SchemaV1.active <-> daysUntil > 7) /\
  (daysUntil < 0 \/ 0 <= daysUntil <= 7 \/ daysUntil > 7) /\
  ~ (daysUntil < 0 /\ 0 <= daysUntil <= 7) /\
  ~ (0 <= daysUntil <= 7 /\ daysUntil > 7) /\
  ~ (daysUntil < 0 /\ daysUntil > 7).
Proof.
  intros H. unfold SchemaV1.calculateMemberStatus. cbv zeta.
  rewrite (ceilDiv_day _ _ H).
  destruct (Z.ltb_spec daysUntil 0); [| destruct (Z.leb_spec daysUntil 7)];
    repeat split; intros; try discriminate; try reflexivity; lia.
Qed.

Lemma calculateMemberStatus_expiry_buckets_witness :
  ((7 - 1) * msPerDay < 7 * msPerDay - 0 <= 7 * msPerDay) /\
  SchemaV1.calculateMemberStatus 0 (7 * msPerDay) = SchemaV1.expiring_soon.
Proof.
  assert (H : (7 - 1) * msPerDay < 7 * msPerDay - 0 <= 7 * msPerDay)
    by (unfold msPerDay; lia).
  split; [exact H |].
  destruct (calculateMemberStatus_expiry_buckets (7 * msPerDay) 0 7 H)
    as (_ & Hb & _).
  apply Hb. lia.
Defined.

(** The boundary values the specification lists, one day apart. *)
Example dues_boundaries :
  map (λ k, SchemaV2.calculateMemberStatus 0 (k * msPerDay))
      [-8; -7; -1; 0; 1; 7; 8]
  = [SchemaV2.overdue; SchemaV2.due; SchemaV2.due; SchemaV2.due;
     SchemaV2.active; SchemaV2.active; SchemaV2.active].
Proof. vm_compute. reflexivity. Qed.

Example expiry_boundaries :
  map (λ k, SchemaV1.calculateMemberStatus 0 (k * msPerDay))
      [-8; -7; -1; 0; 1; 7; 8]
  = [SchemaV1.expired; SchemaV1.expired; SchemaV1.expired;
     SchemaV1.expiring_soon; SchemaV1.expiring_soon; SchemaV1.expiring_soon;
     SchemaV1.active].
Proof. vm_compute. reflexivity. Qed.

(** ** Renewal date projection *)

(** C5. Daily adds one day and weekly seven days, as exact amounts of
    time whatever month or year boundary lies in between; monthly moves
    to the same date one calendar month on, quarterly (revision 1) three
    months on, annual (revision 1) one year on, each under the host
    calendar's rollover rule and at the same time of day. *)
Theorem calculateRenewalDate_increments (d : Date) :
  SchemaV2.calculateRenewalDate d SchemaV2.daily = d + 1 * msPerDay /\
  SchemaV2.calculateRenewalDate d SchemaV2.weekly = d + 7 * msPerDay /\
  rollsTo (YearFromTime d + (MonthFromTime d + 1) / 12)
          ((MonthFromTime d + 1) mod 12) (DateFromTime d) (TimeWithinDay d)
          (SchemaV2.calculateRenewalDate d SchemaV2.monthly) /\
  rollsTo (YearFromTime d + (MonthFromTime d + 1) / 12)
          ((MonthFromTime d + 1) mod 12) (DateFromTime d) (TimeWithinDay d)
          (SchemaV1.calculateRenewalDate d SchemaV1.monthly) /\
  rollsTo (YearFromTime d + (MonthFromTime d + 3) / 12)
          ((MonthFromTime d + 3) mod 12) (DateFromTime d) (TimeWithinDay d)
          (SchemaV1.calculateRenewalDate d SchemaV1.quarterly) /\
  rollsTo (YearFromTime d + 1) (MonthFromTime d)
          (DateFromTime d) (TimeWithinDay d)
          (SchemaV1.calculateRenewalDate d SchemaV1.annual).
Proof.
  unfold SchemaV2.calculateRenewalDate, SchemaV1.calculateRenewalDate.
  cbv zeta.
  split; [apply setDate_shift |].
  split; [apply setDate_shift |].
  split; [apply setMonth_rollsTo |].
  split; [apply setMonth_rollsTo |].
  split; [apply setMonth_rollsTo |].
  apply setFullYear_rollsTo.
Qed.

(** ** The registration-to-payment scenario *)

Lemma ymd_plus (y m d t : Z) :
  y < 0 \/ 99 < y -> ymd y m d + t = MakeDate (MakeDay y (m - 1) d) t.
Proof.
  intros Hy. unfold ymd, newDate. cbv zeta.
  replace ((0 <=? y) && (y <=? 99)) with false
    by (symmetry; apply andb_false_iff; rewrite Z.leb_gt, Z.leb_gt; lia).
  unfold MakeDate, MakeTime. lia.
Qed.

(** One month on from day [d] of month [m], when the next month has a
    day [d] as well. *)
Lemma setMonth_next_ymd (y m d t : Z) :
  y < 0 \/ 99 < y -> 1 <= m <= 11 ->
  1 <= d <= DaysInMonth y (m - 1) -> 0 <= t < msPerDay ->
  setMonth (ymd y m d + t) (getMonth (ymd y m d + t) + 1)
  = ymd y (m + 1) d + t.
Proof.
  intros Hy Hm Hd Ht. rewrite !ymd_plus by exact Hy.
  destruct (fields_in_month y (m - 1) d t ltac:(lia) Hd Ht) as (A & B & C & E).
  unfold setMonth, getMonth. rewrite A, B, C, E.
  replace (m - 1 + 1) with (m + 1 - 1) by lia. reflexivity.
Qed.

Ltac status_by_arith :=
  cbv zeta; unfold ceilDiv;
  repeat match goal with
  | |- context [if ?a <? ?b then _ else _] => destruct (Z.ltb_spec a b)
  | |- context [if ?a <=? ?b then _ else _] => destruct (Z.leb_spec a b)
  end; try reflexivity; exfalso; unfold msPerDay in *; zlia.

(** C6, counterexample.  Four days before the renewal date the dues
    model derives active, not due. *)
Lemma scenario_jan28_dues_is_active :
  SchemaV2.calculateRenewalDate (ymd 2024 1 1) SchemaV2.monthly = ymd 2024 2 1 /\
  SchemaV2.calculateMemberStatus (ymd 2024 1 28) (ymd 2024 2 1)
    = SchemaV2.active /\
  SchemaV2.calculateMemberStatus (ymd 2024 1 28) (ymd 2024 2 1)
    <> SchemaV2.due.
Proof. vm_compute. repeat split; discriminate. Qed.

(** C6, amended.  A member registered on 2024-01-01 with a monthly
    subscription has renewal date 2024-02-01 (at the time of day of the
    registration).  Derived at any instant of 2024-01-28 the status is
    expiring-soon in the expiry model and active in the dues model;
    derived at any instant of 2024-02-10 it is expired, respectively
    overdue.  The renewal date projected from a payment date of
    2024-02-10 is 2024-03-10, and the status derived from it at any
    instant of 2024-02-10 is active in both models. *)
Theorem scenario_register_lapse_pay (reg a b pay c : Z) :
  0 <= reg < msPerDay -> 0 <= a < msPerDay -> 0 <= b < msPerDay ->
  0 <= pay < msPerDay -> 0 <= c < msPerDay ->
  let r1 := SchemaV1.calculateRenewalDate (ymd 2024 1 1 + reg) SchemaV1.monthly in
  let r2 := SchemaV2.calculateRenewalDate (ymd 2024 1 1 + reg) SchemaV2.monthly in
  let p1 := SchemaV1.calculateRenewalDate (ymd 2024 2 10 + pay) SchemaV1.monthly in
  let p2 := SchemaV2.calculateRenewalDate (ymd 2024 2 10 + pay) SchemaV2.monthly in
  r1 = ymd 2024 2 1 + reg /\ r2 = ymd 2024 2 1 + reg /\
  SchemaV1.calculateMemberStatus (ymd 2024 1 28 + a) r1 = SchemaV1.expiring_soon /\
  SchemaV2.calculateMemberStatus (ymd 2024 1 28 + a) r2 = SchemaV2.active /\
  SchemaV1.calculateMemberStatus (ymd 2024 2 10 + b) r1 = SchemaV1.expired /\
  SchemaV2.calculateMemberStatus (ymd 2024 2 10 + b) r2 = SchemaV2.overdue /\
  p1 = ymd 2024 3 10 + pay /\ p2 = ymd 2024 3 10 + pay /\
  SchemaV1.calculateMemberStatus (ymd 2024 2 10 + c) p1 = SchemaV1.active /\
  SchemaV2.calculateMemberStatus (ymd 2024 2 10 + c) p2 = SchemaV2.active.
Proof.
  intros Hreg Ha Hb Hpay Hc r1 r2 p1 p2.
  assert (E1 : r1 = ymd 2024 2 1 + reg).
  { subst r1. unfold SchemaV1.calculateRenewalDate. cbv zeta.
    apply (setMonth_next_ymd 2024 1 1 reg); [lia | lia | | exact Hreg].
    vm_compute. split; discriminate. }
  assert (E2 : r2 = ymd 2024 2 1 + reg).
  { subst r2. unfold SchemaV2.calculateRenewalDate. cbv zeta.
    apply (setMonth_next_ymd 2024 1 1 reg); [lia | lia | | exact Hreg].
    vm_compute. split; discriminate. }
  assert (E3 : p1 = ymd 2024 3 10 + pay).
  { subst p1. unfold SchemaV1.calculateRenewalDate. cbv zeta.
    apply (setMonth_next_ymd 2024 2 10 pay); [lia | lia | | exact Hpay].
    vm_compute. split; discriminate. }
  assert (E4 : p2 = ymd 2024 3 10 + pay).
  { subst p2. unfold SchemaV2.calculateRenewalDate. cbv zeta.
    apply (setMonth_next_ymd 2024 2 10 pay); [lia | lia | | exact Hpay].
    vm_compute. split; discriminate. }
  rewrite E1, E2, E3, E4. clear r1 r2 p1 p2 E1 E2 E3 E4.
  change (ymd 2024 2 1) with 1706745600000.
  change (ymd 2024 1 28) with 1706400000000.
  change (ymd 2024 2 10) with 1707523200000.
  change (ymd 2024 3 10) with 1710028800000.
  unfold SchemaV1.calculateMemberStatus, SchemaV2.calculateMemberStatus.
  change (1000 * 3600 * 24) with 86400000.
  repeat split; status_by_arith.
Qed.

Lemma scenario_register_lapse_pay_witness :
  0 <= 0 < msPerDay /\
  SchemaV2.calculateMemberStatus (ymd 2024 1 28 + 0)
    (SchemaV2.calculateRenewalDate (ymd 2024 1 1 + 0) SchemaV2.monthly)
  = SchemaV2.active.
Proof.
  assert (H : 0 <= 0 < msPerDay) by (unfold msPerDay; lia).
  split; [exact H |].
  destruct (scenario_register_lapse_pay 0 0 0 0 0 H H H H H)
    as (_ & _ & _ & Hs & _).
  exact Hs.
Defined.

(** ** Tables *)

Section TableFacts.
Context {A : Type}.
Implicit Types (t : Dexie.Table A) (k : N) (row : A).

Lemma wfTable_empty : Dexie.wfTable (@Dexie.empty A).
Proof. unfold Dexie.wfTable, Dexie.empty. cbn. apply map_Forall_empty. Qed.

(** The generator's next key is free in a well-formed table. *)
Lemma wfTable_fresh t : Dexie.wfTable t → Dexie.get (Dexie.nextKey t) t = None.
Proof.
  intros Hwf. unfold Dexie.get.
  destruct (Dexie.rows t !! Dexie.nextKey t) as [x |] eqn:E; [| reflexivity].
  apply Hwf in E. cbn in E. lia.
Qed.

Lemma add_fresh t row :
  Dexie.get (Dexie.nextKey t) t = None →
  Dexie.add row t =
    Some (Dexie.nextKey t,
          Dexie.mkTable (<[Dexie.nextKey t := row]> (Dexie.rows t))
                        (Dexie.nextKey t + 1)%N).
Proof. intros H. unfold Dexie.add, Dexie.get in *. cbv zeta. rewrite H. reflexivity. Qed.

Lemma wfTable_add t row k t' :
  Dexie.wfTable t → Dexie.add row t = Some (k, t') → Dexie.wfTable t'.
Proof.
  intros Hwf Hadd. rewrite (add_fresh t row (wfTable_fresh t Hwf)) in Hadd.
  injection Hadd as <- <-. unfold Dexie.wfTable in *. cbn.
  apply map_Forall_insert_2; [lia |].
  eapply map_Forall_impl; [exact Hwf |]. cbn. intros. lia.
Qed.

Lemma wfTable_update t k (f : A → A) :
  Dexie.wfTable t → Dexie.wfTable (Dexie.update k f t).
Proof.
  unfold Dexie.wfTable, Dexie.update. cbn. intros Hwf j x Hj.
  apply lookup_alter_Some in Hj as [(-> & y & Hy & _) | (_ & Hj)];
    eapply Hwf; eassumption.
Qed.

Lemma wfTable_delete t k : Dexie.wfTable t → Dexie.wfTable (Dexie.delete k t).
Proof.
  unfold Dexie.wfTable, Dexie.delete. cbn. intros Hwf.
  apply map_Forall_delete, Hwf.
Qed.

Lemma wfTable_deleteWhere t (sel : A → bool) :
  Dexie.wfTable t → Dexie.wfTable (Dexie.deleteWhere sel t).
Proof.
  unfold Dexie.wfTable, Dexie.deleteWhere. cbn. intros Hwf j x Hj.
  apply map_lookup_filter_Some in Hj as [Hj _]. eapply Hwf, Hj.
Qed.

Lemma get_update_eq t k (f : A → A) :
  Dexie.get k (Dexie.update k f t) = f <$> Dexie.get k t.
Proof. unfold Dexie.get, Dexie.update. cbn. apply lookup_alter_eq. Qed.

Lemma get_update_ne t k j (f : A → A) :
  k ≠ j → Dexie.get j (Dexie.update k f t) = Dexie.get j t.
Proof. intros H. unfold Dexie.get, Dexie.update. cbn. by apply lookup_alter_ne. Qed.

(** [orderBy] lists each stored row once, under its key. *)
Lemma orderBy_Permutation (before : N * A → N * A → bool) t :
  Dexie.orderBy before t ≡ₚ map_to_list (Dexie.rows t).
Proof. unfold Dexie.orderBy. apply merge_sort_Permutation. Qed.

Lemma orderBy_NoDup_keys (before : N * A → N * A → bool) t :
  NoDup (Dexie.orderBy before t).*1.
Proof.
  rewrite orderBy_Permutation. apply NoDup_fst_map_to_list.
Qed.

Lemma elem_of_orderBy (before : N * A → N * A → bool) t k row :
  (k, row) ∈ Dexie.orderBy before t ↔ Dexie.get k t = Some row.
Proof.
  rewrite orderBy_Permutation. unfold Dexie.get. apply elem_of_map_to_list.
Qed.

Lemma between_Permutation (key : A → Z) lower upper il iu t :
  Dexie.between key lower upper il iu t ≡ₚ
  filter (λ kv, Dexie.inRange lower upper il iu (key kv.2) = true)
         (map_to_list (Dexie.rows t)).
Proof. unfold Dexie.between. rewrite orderBy_Permutation. reflexivity. Qed.

End TableFacts.

(** ** Effects *)

Lemma forEach_cons {DB A : Type} (x : A) (xs : list A) (body : A → M DB unit)
    (clock : Clock) (w : World DB) :
  forEach (x :: xs) body clock w =
  match body x clock w with
  | (Ok _, w') => forEach xs body clock w'
  | (Error msg, w') => (Error msg, w')
  end.
Proof. reflexivity. Qed.

(** ** Check-in (schema revision 2) *)

Section CheckIn.
Import SchemaV2.

Lemma canCheckIn_spec (m : Member) :
  canCheckIn m = true ↔ status m = active ∧ paymentStatus m = paid.
Proof.
  unfold canCheckIn. rewrite andb_true_iff, !bool_decide_eq_true. reflexivity.
Qed.

Lemma gate_false (m : Member) :
  bool_decide (status m = overdue) || bool_decide (paymentStatus m = incomplete)
    = false
  ↔ status m ≠ overdue ∧ paymentStatus m = paid.
Proof.
  rewrite orb_false_iff, !bool_decide_eq_false.
  destruct (paymentStatus m); split; intros [? ?]; split; congruence.
Qed.

Lemma checkInMember_missing (clock : Clock) (w : World DB) (id : N) :
  Dexie.get id (members (db w)) = None →
  checkInMember id clock w = (Error memberNotFound, w).
Proof.
  intros Hget. unfold checkInMember, bind, membersGet, read.
  rewrite Hget. reflexivity.
Qed.

(** A blocked check-in rejects before anything is read from the clock or
    written to the store. *)
Lemma checkInMember_blocked (clock : Clock) (w : World DB) (id : N) (m : Member) :
  Dexie.get id (members (db w)) = Some m →
  status m = overdue ∨ paymentStatus m = incomplete →
  checkInMember id clock w = (Error cannotCheckIn, w).
Proof.
  intros Hget Hgate. unfold checkInMember, bind, membersGet, read.
  rewrite Hget.
  replace (bool_decide (status m = overdue)
           || bool_decide (paymentStatus m = incomplete)) with true.
  - reflexivity.
  - symmetry. apply orb_true_iff. rewrite !bool_decide_eq_true. exact Hgate.
Qed.

Lemma checkInMember_accepted (clock : Clock) (w : World DB) (id : N) (m : Member) :
  Dexie.wfTable (checkIns (db w)) →
  Dexie.get id (members (db w)) = Some m →
  status m ≠ overdue → paymentStatus m = paid →
  checkInMember id clock w = (Ok tt, afterCheckIn clock w id).
Proof.
  intros Hwf Hget Hs Hp.
  unfold checkInMember, bind, membersGet, read. rewrite Hget.
  rewrite (proj2 (gate_false m) (conj Hs Hp)).
  unfold checkInsAdd, checkInsCreating, bind, now, read, ret. cbn.
  rewrite (add_fresh _ _ (wfTable_fresh _ Hwf)). cbn.
  unfold membersUpdate, membersGet, membersUpdating, bind, now, read, write, ret.
  cbn. rewrite Hget. reflexivity.
Qed.

End CheckIn.

Section CheckInClaims.
Import SchemaV2 Samples.

(** C2, counterexample.  A member whose status is due and whose payment
    is complete is refused by [canCheckIn] and accepted by
    [checkInMember]. *)
Lemma checkInMember_accepts_due_member :
  Dexie.get 2%N (members gym) = Some bob /\
  canCheckIn bob = false /\
  fst (checkInMember 2%N (ticking jan10) (mkWorld gym 0)) = Ok tt.
Proof. vm_compute. repeat split. Qed.

(** C2, amended.  [canCheckIn] holds exactly for a member that is active
    and paid.  [checkInMember] succeeds for a stored member exactly when
    the status is not overdue and the payment is complete: it accepts
    every member [canCheckIn] accepts, and it rejects every member whose
    status is overdue or whose payment is incomplete. *)
Theorem checkInMember_gate (clock : Clock) (w : World DB) (id : N) (m : Member) :
  Dexie.wfTable (checkIns (db w)) ->
  Dexie.get id (members (db w)) = Some m ->
  (canCheckIn m = true <-> status m = active /\ paymentStatus m = paid) /\
  ((exists w', checkInMember id clock w = (Ok tt, w'))
     <-> status m <> overdue /\ paymentStatus m = paid) /\
  (canCheckIn m = true -> exists w', checkInMember id clock w = (Ok tt, w')) /\
  (status m = overdue \/ paymentStatus m = incomplete ->
     exists msg, checkInMember id clock w = (Error msg, w)).
Proof.
  intros Hwf Hget.
  split; [apply canCheckIn_spec |].
  split; [| split].
  - split.
    + intros [w' Hrun].
      destruct (decide (status m = overdue)) as [Ho | Ho].
      { rewrite (checkInMember_blocked clock w id m Hget (or_introl Ho)) in Hrun.
        discriminate. }
      destruct (paymentStatus m) eqn:Hp; [auto |].
      rewrite (checkInMember_blocked clock w id m Hget (or_intror Hp)) in Hrun.
      discriminate.
    + intros [Hs Hp]. eexists.
      apply (checkInMember_accepted clock w id m Hwf Hget Hs Hp).
  - intros Hcan. apply canCheckIn_spec in Hcan as [Hs Hp]. eexists.
    apply (checkInMember_accepted clock w id m Hwf Hget); [congruence | exact Hp].
  - intros Hgate. eexists.
    apply (checkInMember_blocked clock w id m Hget Hgate).
Qed.

Lemma checkInMember_gate_witness :
  Dexie.wfTable (checkIns gym) /\
  Dexie.get 1%N (members gym) = Some alice /\
  exists w', checkInMember 1%N (ticking jan10) (mkWorld gym 0) = (Ok tt, w').
Proof.
  assert (Hwf : Dexie.wfTable (checkIns (db (mkWorld gym 0))))
    by apply wfTable_empty.
  assert (Hget : Dexie.get 1%N (members (db (mkWorld gym 0))) = Some alice)
    by reflexivity.
  split; [exact Hwf |]. split; [exact Hget |].
  destruct (checkInMember_gate (ticking jan10) (mkWorld gym 0) 1%N alice Hwf Hget)
    as (_ & _ & Hacc & _).
  apply Hacc. reflexivity.
Defined.

(** C3, counterexample.  The member's [lastCheckIn] is a clock reading
    of its own, taken after the CheckIn row was inserted: with a clock
    that advances between readings it differs from the row's
    [checkInDate] (and from its [createdAt]). *)
Lemma checkInMember_stamp_differs :
  let w' := snd (checkInMember 1%N (ticking jan10) (mkWorld gym 0)) in
  canCheckIn alice = true /\
  Dexie.get 1%N (members gym) = Some alice /\
  fst (checkInMember 1%N (ticking jan10) (mkWorld gym 0)) = Ok tt /\
  checkInDate <$> Dexie.get 1%N (checkIns (db w')) = Some jan10 /\
  ciCreatedAt <$> Dexie.get 1%N (checkIns (db w')) = Some (jan10 + 2) /\
  lastCheckIn <$> Dexie.get 1%N (members (db w')) = Some (Some (jan10 + 3)) /\
  lastCheckIn <$> Dexie.get 1%N (members (db w'))
    <> Some (checkInDate <$> Dexie.get 1%N (checkIns (db w'))).
Proof. vm_compute. repeat split. discriminate. Qed.

(** C3, amended.  For a stored member whose status is overdue or whose
    payment is incomplete, [checkInMember] fails and leaves the whole
    world as it was.  For a member [canCheckIn] accepts it succeeds, adds
    exactly one CheckIn row (under a key that was free) carrying the
    member's id and the clock reading taken first, sets the member's
    [lastCheckIn] to the clock reading taken when the member row is
    updated, leaving the member's other fields as they were, and changes
    no other member and no payment.  [lastCheckIn] equals the new row's
    [checkInDate] whenever the clock shows the same instant at both
    readings. *)
Theorem checkInMember_effect (clock : Clock) (w : World DB) (id : N) (m : Member) :
  Dexie.wfTable (checkIns (db w)) ->
  Dexie.get id (members (db w)) = Some m ->
  (status m = overdue \/ paymentStatus m = incomplete ->
     checkInMember id clock w = (Error cannotCheckIn, w)) /\
  (canCheckIn m = true ->
     exists w', checkInMember id clock w = (Ok tt, w') /\
       let k := Dexie.nextKey (checkIns (db w)) in
       let record := mkCheckIn id (clock (reads w)) (clock (2 + reads w)%nat) in
       let stamp := clock (3 + reads w)%nat in
       Dexie.get k (checkIns (db w)) = None /\
       Dexie.rows (checkIns (db w'))
         = <[k := record]> (Dexie.rows (checkIns (db w))) /\
       size (Dexie.rows (checkIns (db w')))
         = S (size (Dexie.rows (checkIns (db w)))) /\
       Dexie.get id (members (db w')) = Some (setLastCheckIn stamp m) /\
       (forall j, j <> id ->
          Dexie.get j (members (db w')) = Dexie.get j (members (db w))) /\
       payments (db w') = payments (db w) /\
       (stamp = checkInDate record ->
          lastCheckIn <$> Dexie.get id (members (db w'))
            = Some (Some (checkInDate record)))).
Proof.
  intros Hwf Hget. split.
  - apply (checkInMember_blocked clock w id m Hget).
  - intros Hcan. apply canCheckIn_spec in Hcan as [Hs Hp].
    exists (afterCheckIn clock w id). split.
    { apply (checkInMember_accepted clock w id m Hwf Hget); [congruence | exact Hp]. }
    pose proof (wfTable_fresh _ Hwf) as Hfresh.
    cbv zeta. unfold afterCheckIn. cbn [db members payments checkIns Dexie.rows].
    split; [exact Hfresh |]. split; [reflexivity |].
    split; [apply map_size_insert_None; exact Hfresh |].
    split; [rewrite get_update_eq, Hget; reflexivity |].
    split; [intros j Hj; apply get_update_ne; congruence |].
    split; [reflexivity |].
    intros Hsame. rewrite get_update_eq, Hget. cbn in Hsame |- *.
    rewrite Hsame. reflexivity.
Qed.

Lemma checkInMember_effect_witness :
  Dexie.wfTable (checkIns gym) /\
  Dexie.get 3%N (members gym) = Some carol /\
  checkInMember 3%N (ticking jan10) (mkWorld gym 0)
    = (Error cannotCheckIn, mkWorld gym 0).
Proof.
  assert (Hwf : Dexie.wfTable (checkIns (db (mkWorld gym 0))))
    by apply wfTable_empty.
  assert (Hget : Dexie.get 3%N (members (db (mkWorld gym 0))) = Some carol)
    by reflexivity.
  split; [exact Hwf |]. split; [exact Hget |].
  destruct (checkInMember_effect (ticking jan10) (mkWorld gym 0) 3%N carol Hwf Hget)
    as (Hrej & _).
  apply Hrej. left. reflexivity.
Defined.

End CheckInClaims.

Section CheckInPage.
Import SchemaV2.

(** The page handler blocks the same members before it reaches the
    store, with a toast and no write. *)
Lemma handleCheckIn_blocked (clock : Clock) (w : World DB) (id : N) (m : Member) :
  status m = overdue ∨ paymentStatus m = incomplete →
  ∃ reason, handleCheckIn id m clock w = (Ok (CheckInBlocked reason), w).
Proof.
  intros Hgate. unfold handleCheckIn, catch.
  replace (bool_decide (status m = overdue)
           || bool_decide (paymentStatus m = incomplete)) with true.
  - eexists. reflexivity.
  - symmetry. apply orb_true_iff. rewrite !bool_decide_eq_true. exact Hgate.
Qed.

Lemma handleCheckIn_accepted (clock : Clock) (w : World DB) (id : N) (m : Member) :
  Dexie.wfTable (checkIns (db w)) →
  Dexie.get id (members (db w)) = Some m →
  status m ≠ overdue → paymentStatus m = paid →
  handleCheckIn id m clock w = (Ok CheckInSuccessful, afterCheckIn clock w id).
Proof.
  intros Hwf Hget Hs Hp. unfold handleCheckIn, catch, bind.
  rewrite (proj2 (gate_false m) (conj Hs Hp)).
  rewrite (checkInMember_accepted clock w id m Hwf Hget Hs Hp). reflexivity.
Qed.

End CheckInPage.
(** ** Recording a payment (schema revision 2) *)

Section Payments.
Import SchemaV2 Samples.

Lemma onSubmit_rejected (clock : Clock) (w : World DB) (data : PaymentFormData) :
  onSubmit data clock w = (Error syntaxError, w).
Proof. reflexivity. Qed.

(** What the statements would do for a stored member, were they to run. *)
Lemma onSubmit_statements_recorded (clock : Clock) (w : World DB)
    (data : PaymentFormData) (m : Member) :
  Dexie.wfTable (payments (db w)) →
  Dexie.get (formMemberId data) (members (db w)) = Some m →
  onSubmit_statements data clock w
  = (Ok PaymentRecorded, afterPayment clock w data m).
Proof.
  intros Hwf Hget.
  unfold onSubmit_statements, catch, bind, membersGet, read. rewrite Hget.
  unfold paymentsAdd, paymentsCreating, bind, now, read, ret. cbn.
  rewrite (add_fresh _ _ (wfTable_fresh _ Hwf)). cbn.
  unfold membersUpdate, membersGet, membersUpdating, calculateMemberStatusNow,
    bind, now, read, write, ret, withPayments, withMembers.
  cbn. rewrite ?Hget. cbn. rewrite ?Hget. reflexivity.
Qed.

(** C4, the code at the failing input.  Alice is stored, and a payment
    of 2000 by M-Pesa dated 2024-02-10 is submitted for her.  The
    handler's [try] block declares [member] twice, so the submission
    ends in the SyntaxError of the page's script: no Payment row is
    added, Alice's renewal date stays 2024-02-01, and the store is what
    it was.  The same holds for every submission. *)
Theorem onSubmit_rejected_before_it_runs :
  Dexie.get (formMemberId aliceFebruaryPayment) (members gym) = Some alice /\
  formAmount aliceFebruaryPayment = 2000 /\
  redeclares onSubmit_declaredNames = true /\
  onSubmit aliceFebruaryPayment (ticking (ymd 2024 2 10)) (mkWorld gym 0)
    = (Error syntaxError, mkWorld gym 0) /\
  size (Dexie.rows (payments gym)) = 0%nat /\
  renewalDate <$> Dexie.get 1%N (members gym) = Some (ymd 2024 2 1) /\
  (forall data clock w, onSubmit data clock w = (Error syntaxError, w)).
Proof.
  split; [reflexivity |]. split; [reflexivity |]. split; [reflexivity |].
  split; [reflexivity |]. split; [reflexivity |].
  split; [vm_compute; reflexivity |].
  intros data clock w. apply onSubmit_rejected.
Qed.

(** Were the second declaration renamed, the statements would store the
    payment and move the renewal date, and leave the status and the
    update stamp as they were: Carol, overdue, pays on the morning of
    2024-01-10 and is still stored as overdue. *)
Example onSubmit_statements_keep_status :
  let w' := snd (onSubmit_statements carolPayment (ticking jan10)
                   (mkWorld gym 0)) in
  fst (onSubmit_statements carolPayment (ticking jan10) (mkWorld gym 0))
    = Ok PaymentRecorded /\
  size (Dexie.rows (payments (db w'))) = 1%nat /\
  Dexie.get 3%N (members (db w'))
    = Some (setRenewalDate (ymd 2024 2 10 + MakeTime 9 0 0 0) carol) /\
  status <$> Dexie.get 3%N (members (db w')) = Some overdue /\
  calculateMemberStatus jan10 (ymd 2024 2 10 + MakeTime 9 0 0 0) = active.
Proof. vm_compute. repeat split. Qed.

End Payments.

(** ** Periodic status refresh (schema revision 1) *)

Section RefreshV1.
Import SchemaV1.

Lemma onlyStatusChanged_refl_v1 (m : Member) : onlyStatusChanged m m.
Proof. destruct m. reflexivity. Qed.

Lemma onlyStatusChanged_refresh_v1 (n : Date) (m : Member) :
  onlyStatusChanged m (refresh n m).
Proof.
  unfold refresh. case_decide; [apply onlyStatusChanged_refl_v1 |].
  destruct m. reflexivity.
Qed.

Lemma refresh_fixed_v1 (n : Date) (m : Member) :
  status m = calculateMemberStatus n (renewalDate m) → refresh n m = m.
Proof. intros H. unfold refresh. case_decide; [reflexivity | contradiction]. Qed.

Lemma refresh_status_v1 (n : Date) (m : Member) :
  status (refresh n m) = calculateMemberStatus n (renewalDate (refresh n m)).
Proof. unfold refresh. case_decide; [assumption |]. destruct m. reflexivity. Qed.

Lemma refresh_idem_v1 (n : Date) (m : Member) :
  refresh n (refresh n m) = refresh n m.
Proof. apply refresh_fixed_v1, refresh_status_v1. Qed.

Lemma membersOnly_refl_v1 (d : DB) : membersOnly d d.
Proof. unfold membersOnly. auto. Qed.

Lemma membersOnly_trans_v1 (d1 d2 d3 : DB) :
  membersOnly d1 d2 → membersOnly d2 d3 → membersOnly d1 d3.
Proof. unfold membersOnly. intuition congruence. Qed.

(** One pass of the loop body over a row as it is stored. *)
Lemma updateMemberStatuses_body_step_v1 (clock : Clock) (w : World DB)
    (k : N) (m : Member) :
  Dexie.get k (members (db w)) = Some m →
  ∃ w1, updateMemberStatuses_body (k, m) clock w = (Ok tt, w1) ∧
    membersOnly (db w) (db w1) ∧
    Dexie.get k (members (db w1))
      = Some (refresh (clock (reads w)) m) ∧
    (∀ j, j ≠ k → Dexie.get j (members (db w1)) = Dexie.get j (members (db w))).
Proof.
  intros Hget.
  unfold updateMemberStatuses_body, calculateMemberStatusNow, bind, now, ret.
  cbn. unfold refresh.
  destruct (decide (status m = calculateMemberStatus (clock (reads w)) (renewalDate m)))
    as [E | E].
  - eexists. split; [reflexivity |]. cbn.
    split; [apply membersOnly_refl_v1 |]. split; [exact Hget | reflexivity].
  - unfold membersUpdate, membersGet, membersUpdating, bind, now, read, write, ret.
    cbn. rewrite Hget. cbn.
    eexists. split; [reflexivity |]. cbn.
    split; [unfold membersOnly; cbn; auto |].
    split; [rewrite get_update_eq, Hget; reflexivity |].
    intros j Hj. apply get_update_ne. congruence.
Qed.

Lemma forEach_refresh_v1 (clock : Clock) (l : list (N * Member)) :
  ∀ w : World DB,
    NoDup l.*1 →
    (∀ k m, (k, m) ∈ l → Dexie.get k (members (db w)) = Some m) →
    ∃ w', forEach l updateMemberStatuses_body clock w = (Ok tt, w') ∧
      membersOnly (db w) (db w') ∧
      (∀ j, j ∉ l.*1 →
         Dexie.get j (members (db w')) = Dexie.get j (members (db w))) ∧
      (∀ k m, (k, m) ∈ l →
         ∃ i, Dexie.get k (members (db w'))
                = Some (refresh (clock i) m)).
Proof.
  induction l as [| [k0 m0] l IH]; intros w Hnd Hsnap.
  - exists w. split; [reflexivity |]. split; [apply membersOnly_refl_v1 |].
    split; [reflexivity |]. intros k m Hin. inversion Hin.
  - cbn in Hnd. apply NoDup_cons in Hnd as [Hk0 Hnd].
    destruct (updateMemberStatuses_body_step_v1 clock w k0 m0)
      as (w1 & Hrun1 & Hframe1 & Hk1 & Hother1).
    { apply Hsnap. left. }
    destruct (IH w1 Hnd) as (w' & Hrun & Hframe & Hout & Hin).
    { intros k m Hkm. rewrite Hother1.
      - apply Hsnap. right. exact Hkm.
      - intros ->. apply Hk0. apply list_elem_of_fmap. exists (k0, m). auto. }
    exists w'. split.
    { rewrite forEach_cons, Hrun1. exact Hrun. }
    split; [eapply membersOnly_trans_v1; eassumption |].
    split.
    + intros j Hj. cbn in Hj. apply not_elem_of_cons in Hj as [Hj0 Hj].
      rewrite (Hout j Hj). apply Hother1, Hj0.
    + intros k m Hkm. apply elem_of_cons in Hkm as [Heq | Hkm].
      * injection Heq as -> ->. exists (reads w).
        rewrite (Hout k0 Hk0). exact Hk1.
      * apply Hin, Hkm.
Qed.

Lemma updateMemberStatuses_refresh_v1 (clock : Clock) (w : World DB) :
  ∃ w', updateMemberStatuses clock w = (Ok tt, w') ∧
    membersOnly (db w) (db w') ∧
    (∀ k, Dexie.get k (members (db w)) = None →
       Dexie.get k (members (db w')) = None) ∧
    (∀ k m, Dexie.get k (members (db w)) = Some m →
       ∃ i, Dexie.get k (members (db w'))
              = Some (refresh (clock i) m)).
Proof.
  set (l := Dexie.orderBy (Dexie.byString fullName) (members (db w))).
  destruct (forEach_refresh_v1 clock l w) as (w' & Hrun & Hframe & Hout & Hin).
  { apply orderBy_NoDup_keys. }
  { intros k m Hkm. apply elem_of_orderBy in Hkm. exact Hkm. }
  exists w'. split.
  { unfold updateMemberStatuses, getAllMembers, bind, read. exact Hrun. }
  split; [exact Hframe |]. split.
  - intros k Hnone. rewrite Hout; [exact Hnone |].
    intros Hk. apply list_elem_of_fmap in Hk as ([k' m] & Hk' & Hkm).
    cbn in Hk'. subst k'. apply elem_of_orderBy in Hkm. congruence.
  - intros k m Hget. apply Hin. apply elem_of_orderBy. exact Hget.
Qed.

Lemma DB_eq_v1 (d d' : DB) :
  membersOnly d d' →
  (∀ k, Dexie.get k (members d') = Dexie.get k (members d)) → d' = d.
Proof.
  intros (Hp & Hn) Hrows.
  destruct d as [[r n] p], d' as [[r' n'] p']. cbn in *.
  subst. f_equal. f_equal. apply map_eq. exact Hrows.
Qed.

End RefreshV1.

Section RefreshClaimsV1.
Import SchemaV1.

Lemma refresh_changed_v1 (n : Date) (m : Member) :
  status m ≠ calculateMemberStatus n (renewalDate m) →
  refresh n m = setStatus (calculateMemberStatus n (renewalDate m)) m.
Proof.
  intros H. unfold refresh. case_decide; [contradiction | reflexivity].
Qed.

(** Whatever the clock shows, one run touches nothing but the status of
    members.  Each member's status is derived afresh at some reading [i]
    of the clock: when the stored status equals it the row stays as it
    is, otherwise the row gets that status and keeps every other field,
    the update stamp included. *)
Lemma updateMemberStatuses_frame_v1 (clock : Clock) (w : World DB) :
  ∃ w', updateMemberStatuses clock w = (Ok tt, w') ∧
    membersOnly (db w) (db w') ∧
    (∀ k, Dexie.get k (members (db w)) = None →
       Dexie.get k (members (db w')) = None) ∧
    (∀ k m, Dexie.get k (members (db w)) = Some m →
       ∃ m' i, Dexie.get k (members (db w')) = Some m' ∧
         onlyStatusChanged m m' ∧
         (status m = calculateMemberStatus (clock i) (renewalDate m) →
            m' = m) ∧
         (status m ≠ calculateMemberStatus (clock i) (renewalDate m) →
            m' = setStatus (calculateMemberStatus (clock i) (renewalDate m)) m)).
Proof.
  destruct (updateMemberStatuses_refresh_v1 clock w)
    as (w' & Hrun & Hframe & Hnone & Hsome).
  exists w'. split; [exact Hrun |]. split; [exact Hframe |].
  split; [exact Hnone |].
  intros k m Hget. destruct (Hsome k m Hget) as (i & Hi).
  eexists. exists i. split; [exact Hi |].
  split; [apply onlyStatusChanged_refresh_v1 |].
  split; [apply refresh_fixed_v1 | apply refresh_changed_v1].
Qed.

(** With the clock standing still at [n], a second run changes nothing,
    and the first run leaves alone every member whose status is already
    the one derived at [n]. *)
Lemma updateMemberStatuses_twice_v1 (n : Date) (w : World DB) :
  ∃ w1 w2,
    updateMemberStatuses (still n) w = (Ok tt, w1) ∧
    updateMemberStatuses (still n) w1 = (Ok tt, w2) ∧
    db w2 = db w1 ∧
    (∀ k m, Dexie.get k (members (db w)) = Some m →
       status m = calculateMemberStatus n (renewalDate m) →
       Dexie.get k (members (db w1)) = Some m).
Proof.
  destruct (updateMemberStatuses_refresh_v1 (still n) w)
    as (w1 & Hrun1 & Hframe1 & Hnone1 & Hsome1).
  destruct (updateMemberStatuses_refresh_v1 (still n) w1)
    as (w2 & Hrun2 & Hframe2 & Hnone2 & Hsome2).
  exists w1, w2. split; [exact Hrun1 |]. split; [exact Hrun2 |]. split.
  - apply DB_eq_v1; [exact Hframe2 |]. intros k.
    destruct (Dexie.get k (members (db w1))) as [m1 |] eqn:E1.
    + destruct (Hsome2 k m1 E1) as (i & Hi). rewrite Hi. f_equal.
      unfold still.
      destruct (Dexie.get k (members (db w))) as [m |] eqn:E.
      * destruct (Hsome1 k m E) as (j & Hj). unfold still in Hj.
        rewrite E1 in Hj. injection Hj as ->. apply refresh_idem_v1.
      * rewrite (Hnone1 k E) in E1. discriminate.
    + apply Hnone2, E1.
  - intros k m Hget Hfix. destruct (Hsome1 k m Hget) as (i & Hi).
    rewrite Hi. f_equal. apply refresh_fixed_v1. exact Hfix.
Qed.

End RefreshClaimsV1.

(** ** Periodic status refresh (schema revision 2) *)

Section RefreshV2.
Import SchemaV2.

Lemma onlyStatusChanged_refl (m : Member) : onlyStatusChanged m m.
Proof. destruct m. reflexivity. Qed.

Lemma onlyStatusChanged_refresh (n : Date) (m : Member) :
  onlyStatusChanged m (refresh n m).
Proof.
  unfold refresh. case_decide; [apply onlyStatusChanged_refl |].
  destruct m. reflexivity.
Qed.

Lemma refresh_fixed (n : Date) (m : Member) :
  status m = calculateMemberStatus n (renewalDate m) → refresh n m = m.
Proof. intros H. unfold refresh. case_decide; [reflexivity | contradiction]. Qed.

Lemma refresh_status (n : Date) (m : Member) :
  status (refresh n m) = calculateMemberStatus n (renewalDate (refresh n m)).
Proof. unfold refresh. case_decide; [assumption |]. destruct m. reflexivity. Qed.

Lemma refresh_idem (n : Date) (m : Member) :
  refresh n (refresh n m) = refresh n m.
Proof. apply refresh_fixed, refresh_status. Qed.

Lemma membersOnly_refl (d : DB) : membersOnly d d.
Proof. unfold membersOnly. auto. Qed.

Lemma membersOnly_trans (d1 d2 d3 : DB) :
  membersOnly d1 d2 → membersOnly d2 d3 → membersOnly d1 d3.
Proof. unfold membersOnly. intuition congruence. Qed.

(** One pass of the loop body over a row as it is stored. *)
Lemma updateMemberStatuses_body_step (clock : Clock) (w : World DB)
    (k : N) (m : Member) :
  Dexie.get k (members (db w)) = Some m →
  ∃ w1, updateMemberStatuses_body (k, m) clock w = (Ok tt, w1) ∧
    membersOnly (db w) (db w1) ∧
    Dexie.get k (members (db w1))
      = Some (refresh (clock (reads w)) m) ∧
    (∀ j, j ≠ k → Dexie.get j (members (db w1)) = Dexie.get j (members (db w))).
Proof.
  intros Hget.
  unfold updateMemberStatuses_body, calculateMemberStatusNow, bind, now, ret.
  cbn. unfold refresh.
  destruct (decide (status m = calculateMemberStatus (clock (reads w)) (renewalDate m)))
    as [E | E].
  - eexists. split; [reflexivity |]. cbn.
    split; [apply membersOnly_refl |]. split; [exact Hget | reflexivity].
  - unfold membersUpdate, membersGet, membersUpdating, bind, now, read, write, ret.
    cbn. rewrite Hget. cbn.
    eexists. split; [reflexivity |]. cbn.
    split; [unfold membersOnly; cbn; auto |].
    split; [rewrite get_update_eq, Hget; reflexivity |].
    intros j Hj. apply get_update_ne. congruence.
Qed.

Lemma forEach_refresh (clock : Clock) (l : list (N * Member)) :
  ∀ w : World DB,
    NoDup l.*1 →
    (∀ k m, (k, m) ∈ l → Dexie.get k (members (db w)) = Some m) →
    ∃ w', forEach l updateMemberStatuses_body clock w = (Ok tt, w') ∧
      membersOnly (db w) (db w') ∧
      (∀ j, j ∉ l.*1 →
         Dexie.get j (members (db w')) = Dexie.get j (members (db w))) ∧
      (∀ k m, (k, m) ∈ l →
         ∃ i, Dexie.get k (members (db w'))
                = Some (refresh (clock i) m)).
Proof.
  induction l as [| [k0 m0] l IH]; intros w Hnd Hsnap.
  - exists w. split; [reflexivity |]. split; [apply membersOnly_refl |].
    split; [reflexivity |]. intros k m Hin. inversion Hin.
  - cbn in Hnd. apply NoDup_cons in Hnd as [Hk0 Hnd].
    destruct (updateMemberStatuses_body_step clock w k0 m0)
      as (w1 & Hrun1 & Hframe1 & Hk1 & Hother1).
    { apply Hsnap. left. }
    destruct (IH w1 Hnd) as (w' & Hrun & Hframe & Hout & Hin).
    { intros k m Hkm. rewrite Hother1.
      - apply Hsnap. right. exact Hkm.
      - intros ->. apply Hk0. apply list_elem_of_fmap. exists (k0, m). auto. }
    exists w'. split.
    { rewrite forEach_cons, Hrun1. exact Hrun. }
    split; [eapply membersOnly_trans; eassumption |].
    split.
    + intros j Hj. cbn in Hj. apply not_elem_of_cons in Hj as [Hj0 Hj].
      rewrite (Hout j Hj). apply Hother1, Hj0.
    + intros k m Hkm. apply elem_of_cons in Hkm as [Heq | Hkm].
      * injection Heq as -> ->. exists (reads w).
        rewrite (Hout k0 Hk0). exact Hk1.
      * apply Hin, Hkm.
Qed.

Lemma updateMemberStatuses_refresh (clock : Clock) (w : World DB) :
  ∃ w', updateMemberStatuses clock w = (Ok tt, w') ∧
    membersOnly (db w) (db w') ∧
    (∀ k, Dexie.get k (members (db w)) = None →
       Dexie.get k (members (db w')) = None) ∧
    (∀ k m, Dexie.get k (members (db w)) = Some m →
       ∃ i, Dexie.get k (members (db w'))
              = Some (refresh (clock i) m)).
Proof.
  set (l := Dexie.orderBy (Dexie.byString fullName) (members (db w))).
  destruct (forEach_refresh clock l w) as (w' & Hrun & Hframe & Hout & Hin).
  { apply orderBy_NoDup_keys. }
  { intros k m Hkm. apply elem_of_orderBy in Hkm. exact Hkm. }
  exists w'. split.
  { unfold updateMemberStatuses, getAllMembers, bind, read. exact Hrun. }
  split; [exact Hframe |]. split.
  - intros k Hnone. rewrite Hout; [exact Hnone |].
    intros Hk. apply list_elem_of_fmap in Hk as ([k' m] & Hk' & Hkm).
    cbn in Hk'. subst k'. apply elem_of_orderBy in Hkm. congruence.
  - intros k m Hget. apply Hin. apply elem_of_orderBy. exact Hget.
Qed.

Lemma DB_eq (d d' : DB) :
  membersOnly d d' →
  (∀ k, Dexie.get k (members d') = Dexie.get k (members d)) → d' = d.
Proof.
  intros (Hp & Hc & Hn) Hrows.
  destruct d as [[r n] p c], d' as [[r' n'] p' c']. cbn in *.
  subst. f_equal. f_equal. apply map_eq. exact Hrows.
Qed.

End RefreshV2.

Section RefreshClaimsV2.
Import SchemaV2.

Lemma refresh_changed (n : Date) (m : Member) :
  status m ≠ calculateMemberStatus n (renewalDate m) →
  refresh n m = setStatus (calculateMemberStatus n (renewalDate m)) m.
Proof.
  intros H. unfold refresh. case_decide; [contradiction | reflexivity].
Qed.

(** Whatever the clock shows, one run touches nothing but the status of
    members.  Each member's status is derived afresh at some reading [i]
    of the clock: when the stored status equals it the row stays as it
    is, otherwise the row gets that status and keeps every other field,
    the update stamp included. *)
Lemma updateMemberStatuses_frame (clock : Clock) (w : World DB) :
  ∃ w', updateMemberStatuses clock w = (Ok tt, w') ∧
    membersOnly (db w) (db w') ∧
    (∀ k, Dexie.get k (members (db w)) = None →
       Dexie.get k (members (db w')) = None) ∧
    (∀ k m, Dexie.get k (members (db w)) = Some m →
       ∃ m' i, Dexie.get k (members (db w')) = Some m' ∧
         onlyStatusChanged m m' ∧
         (status m = calculateMemberStatus (clock i) (renewalDate m) →
            m' = m) ∧
         (status m ≠ calculateMemberStatus (clock i) (renewalDate m) →
            m' = setStatus (calculateMemberStatus (clock i) (renewalDate m)) m)).
Proof.
  destruct (updateMemberStatuses_refresh clock w)
    as (w' & Hrun & Hframe & Hnone & Hsome).
  exists w'. split; [exact Hrun |]. split; [exact Hframe |].
  split; [exact Hnone |].
  intros k m Hget. destruct (Hsome k m Hget) as (i & Hi).
  eexists. exists i. split; [exact Hi |].
  split; [apply onlyStatusChanged_refresh |].
  split; [apply refresh_fixed | apply refresh_changed].
Qed.

(** With the clock standing still at [n], a second run changes nothing,
    and the first run leaves alone every member whose status is already
    the one derived at [n]. *)
Lemma updateMemberStatuses_twice (n : Date) (w : World DB) :
  ∃ w1 w2,
    updateMemberStatuses (still n) w = (Ok tt, w1) ∧
    updateMemberStatuses (still n) w1 = (Ok tt, w2) ∧
    db w2 = db w1 ∧
    (∀ k m, Dexie.get k (members (db w)) = Some m →
       status m = calculateMemberStatus n (renewalDate m) →
       Dexie.get k (members (db w1)) = Some m).
Proof.
  destruct (updateMemberStatuses_refresh (still n) w)
    as (w1 & Hrun1 & Hframe1 & Hnone1 & Hsome1).
  destruct (updateMemberStatuses_refresh (still n) w1)
    as (w2 & Hrun2 & Hframe2 & Hnone2 & Hsome2).
  exists w1, w2. split; [exact Hrun1 |]. split; [exact Hrun2 |]. split.
  - apply DB_eq; [exact Hframe2 |]. intros k.
    destruct (Dexie.get k (members (db w1))) as [m1 |] eqn:E1.
    + destruct (Hsome2 k m1 E1) as (i & Hi). rewrite Hi. f_equal.
      unfold still.
      destruct (Dexie.get k (members (db w))) as [m |] eqn:E.
      * destruct (Hsome1 k m E) as (j & Hj). unfold still in Hj.
        rewrite E1 in Hj. injection Hj as ->. apply refresh_idem.
      * rewrite (Hnone1 k E) in E1. discriminate.
    + apply Hnone2, E1.
  - intros k m Hget Hfix. destruct (Hsome1 k m Hget) as (i & Hi).
    rewrite Hi. f_equal. apply refresh_fixed. exact Hfix.
Qed.

End RefreshClaimsV2.

(** ** Periodic status refresh: the claim for both schema revisions *)

(** C10. [updateMemberStatuses] always completes; it changes no table
    but [members], creates and removes no member, and on each member
    changes at most the status (so at most the status and [updatedAt]).
    Each member's status is derived afresh at some clock reading [i]: a
    member whose stored status equals it is not written, so its row
    stays as it was, [updatedAt] included; any other member gets the
    derived status and keeps its other fields.  Run twice at one
    instant, the second run leaves the database that the first run
    produced.  This holds in both schema revisions. *)
Theorem updateMemberStatuses_frame_idempotent :
  (forall (clock : Clock) (w : World SchemaV2.DB),
     exists w', SchemaV2.updateMemberStatuses clock w = (Ok tt, w') /\
       SchemaV2.membersOnly (db w) (db w') /\
       (forall k, Dexie.get k (SchemaV2.members (db w)) = None ->
          Dexie.get k (SchemaV2.members (db w')) = None) /\
       (forall k m, Dexie.get k (SchemaV2.members (db w)) = Some m ->
          exists m' i, Dexie.get k (SchemaV2.members (db w')) = Some m' /\
            SchemaV2.onlyStatusChanged m m' /\
            (SchemaV2.status m
               = SchemaV2.calculateMemberStatus (clock i) (SchemaV2.renewalDate m) ->
             m' = m) /\
            (SchemaV2.status m
               <> SchemaV2.calculateMemberStatus (clock i) (SchemaV2.renewalDate m) ->
             m' = SchemaV2.setStatus
                    (SchemaV2.calculateMemberStatus (clock i)
                       (SchemaV2.renewalDate m)) m))) /\
  (forall (n : Date) (w : World SchemaV2.DB),
     exists w1 w2,
       SchemaV2.updateMemberStatuses (still n) w = (Ok tt, w1) /\
       SchemaV2.updateMemberStatuses (still n) w1 = (Ok tt, w2) /\
       db w2 = db w1 /\
       (forall k m, Dexie.get k (SchemaV2.members (db w)) = Some m ->
          SchemaV2.status m
            = SchemaV2.calculateMemberStatus n (SchemaV2.renewalDate m) ->
          Dexie.get k (SchemaV2.members (db w1)) = Some m)) /\
  (forall (clock : Clock) (w : World SchemaV1.DB),
     exists w', SchemaV1.updateMemberStatuses clock w = (Ok tt, w') /\
       SchemaV1.membersOnly (db w) (db w') /\
       (forall k, Dexie.get k (SchemaV1.members (db w)) = None ->
          Dexie.get k (SchemaV1.members (db w')) = None) /\
       (forall k m, Dexie.get k (SchemaV1.members (db w)) = Some m ->
          exists m' i, Dexie.get k (SchemaV1.members (db w')) = Some m' /\
            SchemaV1.onlyStatusChanged m m' /\
            (SchemaV1.status m
               = SchemaV1.calculateMemberStatus (clock i) (SchemaV1.renewalDate m) ->
             m' = m) /\
            (SchemaV1.status m
               <> SchemaV1.calculateMemberStatus (clock i) (SchemaV1.renewalDate m) ->
             m' = SchemaV1.setStatus
                    (SchemaV1.calculateMemberStatus (clock i)
                       (SchemaV1.renewalDate m)) m))) /\
  (forall (n : Date) (w : World SchemaV1.DB),
     exists w1 w2,
       SchemaV1.updateMemberStatuses (still n) w = (Ok tt, w1) /\
       SchemaV1.updateMemberStatuses (still n) w1 = (Ok tt, w2) /\
       db w2 = db w1 /\
       (forall k m, Dexie.get k (SchemaV1.members (db w)) = Some m ->
          SchemaV1.status m
            = SchemaV1.calculateMemberStatus n (SchemaV1.renewalDate m) ->
          Dexie.get k (SchemaV1.members (db w1)) = Some m)).
Proof.
  split; [exact updateMemberStatuses_frame |].
  split; [exact updateMemberStatuses_twice |].
  split; [exact updateMemberStatuses_frame_v1 | exact updateMemberStatuses_twice_v1].
Qed.

(** On the sample gym, on the morning of 2024-01-20: Bob, due since the
    8th, turns overdue and keeps his update stamp; the others keep their
    rows. *)
Example updateMemberStatuses_sample :
  let w' := snd (SchemaV2.updateMemberStatuses (still (ymd 2024 1 20))
                   (mkWorld Samples.gym 0)) in
  Dexie.get 2%N (SchemaV2.members (db w'))
    = Some (SchemaV2.setStatus SchemaV2.overdue Samples.bob) /\
  Dexie.get 1%N (SchemaV2.members (db w')) = Some Samples.alice /\
  Dexie.get 3%N (SchemaV2.members (db w')) = Some Samples.carol /\
  Dexie.get 4%N (SchemaV2.members (db w')) = Some Samples.dave.
Proof. vm_compute. repeat split. Qed.

(** ** Deleting a member (pages/Members) *)

(** C8. Once the deletion is confirmed and has completed, the member is
    gone from [members] and no row of [payments] carries its id; the
    payments of other members and the other members stay. *)
Theorem handleDeleteMember_cascades (clock : Clock) (w : World SchemaV1.DB)
    (memberId : N) :
  exists w', SchemaV1.handleDeleteMember true memberId clock w = (Ok tt, w') /\
    Dexie.get memberId (SchemaV1.members (db w')) = None /\
    (forall k p, Dexie.get k (SchemaV1.payments (db w')) = Some p ->
       SchemaV1.memberId p <> memberId) /\
    (forall k p, Dexie.get k (SchemaV1.payments (db w)) = Some p ->
       SchemaV1.memberId p <> memberId ->
       Dexie.get k (SchemaV1.payments (db w')) = Some p) /\
    (forall j, j <> memberId ->
       Dexie.get j (SchemaV1.members (db w'))
         = Dexie.get j (SchemaV1.members (db w))).
Proof.
  eexists. split; [reflexivity |].
  cbn. unfold Dexie.get, Dexie.delete, Dexie.deleteWhere. cbn.
  split; [apply lookup_delete_eq |]. split; [| split].
  - intros k p Hp. apply map_lookup_filter_Some in Hp as [_ Hsel].
    cbn in Hsel. apply bool_decide_eq_false in Hsel. exact Hsel.
  - intros k p Hp Hne. apply map_lookup_filter_Some. split; [exact Hp |].
    cbn. apply bool_decide_eq_false. exact Hne.
  - intros j Hj. apply lookup_delete_ne. congruence.
Qed.

Lemma handleDeleteMember_declined (clock : Clock) (w : World SchemaV1.DB)
    (memberId : N) :
  SchemaV1.handleDeleteMember false memberId clock w = (Ok tt, w).
Proof. reflexivity. Qed.

(** ** Monthly revenue *)

Lemma foldl_sum_foldr {A : Type} (f : A → Z) (l : list A) (z : Z) :
  foldl (λ total x, total + f x) z l = z + foldr (λ x acc, f x + acc) 0 l.
Proof.
  revert z. induction l as [| x l IH]; intros z; cbn; [lia |].
  rewrite IH. lia.
Qed.

Lemma foldr_sum_Permutation {A : Type} (f : A → Z) (l l' : list A) :
  l ≡ₚ l' → foldr (λ x acc, f x + acc) 0 l = foldr (λ x acc, f x + acc) 0 l'.
Proof. induction 1; cbn; lia. Qed.

(** What [getMonthlyRevenue] computes: the amounts of the payments dated
    from the first instant of the month up to, but not including, second
    23:59:59 of its last day. *)
Lemma getMonthlyRevenue_sum (clock : Clock) (w : World SchemaV2.DB)
    (year month : Z) :
  SchemaV2.getMonthlyRevenue year month clock w =
  (Ok (foldr (λ kv acc, SchemaV2.amount kv.2 + acc) 0
         (filter (λ kv, (newDate year (month - 1) 1 0 0 0 <=? SchemaV2.paymentDate kv.2)
                        && (SchemaV2.paymentDate kv.2 <? newDate year month 0 23 59 59)
                        = true)
                 (map_to_list (Dexie.rows (SchemaV2.payments (db w)))))),
   w).
Proof.
  unfold SchemaV2.getMonthlyRevenue, bind, read, ret. cbn.
  rewrite foldl_sum_foldr, Z.add_0_l. f_equal. f_equal.
  apply foldr_sum_Permutation.
  exact (between_Permutation SchemaV2.paymentDate _ _ true false _).
Qed.

Lemma getMonthlyRevenue_sum_v1 (clock : Clock) (w : World SchemaV1.DB)
    (year month : Z) :
  SchemaV1.getMonthlyRevenue year month clock w =
  (Ok (foldr (λ kv acc, SchemaV1.amount kv.2 + acc) 0
         (filter (λ kv, (newDate year (month - 1) 1 0 0 0 <=? SchemaV1.paymentDate kv.2)
                        && (SchemaV1.paymentDate kv.2 <? newDate year month 0 23 59 59)
                        = true)
                 (map_to_list (Dexie.rows (SchemaV1.payments (db w)))))),
   w).
Proof.
  unfold SchemaV1.getMonthlyRevenue, bind, read, ret. cbn.
  rewrite foldl_sum_foldr, Z.add_0_l. f_equal. f_equal.
  apply foldr_sum_Permutation.
  exact (between_Permutation SchemaV1.paymentDate _ _ true false _).
Qed.

(** C9, the code at the failing input.  A payment of 1000 stamped
    2024-01-31 23:59:59.500 lies in January 2024, on its last day, and
    is the only payment stored; the revenue reported for January 2024 is
    0, in both schema revisions, and so is the revenue reported for
    February: the payment is counted in no month.  The upper bound is
    second 23:59:59 sharp, and the payment would be left out even if
    that bound were included. *)
Theorem getMonthlyRevenue_misses_last_second :
  YearFromTime Samples.lateJanuary = 2024 /\
  MonthFromTime Samples.lateJanuary = 0 /\
  DateFromTime Samples.lateJanuary = 31 /\
  SchemaV2.amount Samples.latePayment = 1000 /\
  SchemaV2.paymentDate Samples.latePayment = Samples.lateJanuary /\
  fst (SchemaV2.getMonthlyRevenue 2024 1 (still Samples.jan10)
         (mkWorld Samples.gymWithLatePayment 0)) = Ok 0 /\
  fst (SchemaV1.getMonthlyRevenue 2024 1 (still Samples.jan10)
         (mkWorld Samples.gymV1WithLatePayment 0)) = Ok 0 /\
  fst (SchemaV2.getMonthlyRevenue 2024 2 (still Samples.jan10)
         (mkWorld Samples.gymWithLatePayment 0)) = Ok 0 /\
  Dexie.between SchemaV2.paymentDate
    (newDate 2024 0 1 0 0 0) (newDate 2024 1 0 23 59 59) true true
    (SchemaV2.payments Samples.gymWithLatePayment) = [].
Proof. vm_compute. repeat split. Qed.

(** ** The scenario run through the store *)

(** Revision 1.  Erin registers on 2024-01-01; the creating hook derives
    active.  A refresh on 2024-01-28 stores expiring-soon, a refresh on
    2024-02-10 stores expired. *)
Example scenario_store_v1 :
  let w0 := mkWorld SchemaV1.emptyDB 0 in
  let w1 := snd (SchemaV1.addMemberOnSubmit Samples.erinRegistration
                   (still (ymd 2024 1 1)) w0) in
  let w2 := snd (SchemaV1.updateMemberStatuses (still (ymd 2024 1 28)) w1) in
  let w3 := snd (SchemaV1.updateMemberStatuses (still (ymd 2024 2 10)) w2) in
  let field {A} (f : SchemaV1.Member → A) (w : World SchemaV1.DB) :=
    f <$> Dexie.get 1%N (SchemaV1.members (db w)) in
  field SchemaV1.renewalDate w1 = Some (ymd 2024 2 1) /\
  field SchemaV1.status w1 = Some SchemaV1.active /\
  field SchemaV1.status w2 = Some SchemaV1.expiring_soon /\
  field SchemaV1.status w3 = Some SchemaV1.expired.
Proof. vm_compute. repeat split. Qed.

(** Revision 2.  Alice's renewal date is 2024-02-01.  A refresh on
    2024-01-28 keeps active and a refresh on 2024-02-10 stores overdue.
    An update of the renewal date to the one projected from 2024-02-10
    stores 2024-03-10 and leaves overdue in place; the next refresh
    stores active. *)
Example scenario_store_v2 :
  let w0 := mkWorld Samples.gym 0 in
  let w1 := snd (SchemaV2.updateMemberStatuses (still (ymd 2024 1 28)) w0) in
  let w2 := snd (SchemaV2.updateMemberStatuses (still (ymd 2024 2 10)) w1) in
  let w3 := snd (SchemaV2.membersUpdate 1%N
                   (SchemaV2.mkMods
                      (Some (SchemaV2.calculateRenewalDate (ymd 2024 2 10)
                               SchemaV2.monthly)) None None None)
                   (still (ymd 2024 2 10)) w2) in
  let w4 := snd (SchemaV2.updateMemberStatuses (still (ymd 2024 2 10)) w3) in
  let field {A} (f : SchemaV2.Member → A) (w : World SchemaV2.DB) :=
    f <$> Dexie.get 1%N (SchemaV2.members (db w)) in
  field SchemaV2.status w1 = Some SchemaV2.active /\
  field SchemaV2.status w2 = Some SchemaV2.overdue /\
  field SchemaV2.renewalDate w3 = Some (ymd 2024 3 10) /\
  field SchemaV2.status w3 = Some SchemaV2.overdue /\
  field SchemaV2.status w4 = Some SchemaV2.active.
Proof. vm_compute. repeat split. Qed.

(** * Further properties *)

(** ** The status thresholds in elapsed time *)

Ltac by_day_arith :=
  cbv zeta; unfold ceilDiv; change (1000 * 3600 * 24) with 86400000;
  unfold msPerDay in *;
  repeat match goal with
  | |- context [if ?a <? ?b then _ else _] => destruct (Z.ltb_spec a b)
  | |- context [if ?a <=? ?b then _ else _] => destruct (Z.leb_spec a b)
  end.

Lemma dues_thresholds (now renewalDate : Date) :
  (SchemaV2.calculateMemberStatus now renewalDate = SchemaV2.active
     <-> now < renewalDate) /\
  (SchemaV2.calculateMemberStatus now renewalDate = SchemaV2.due
     <-> renewalDate <= now < renewalDate + 8 * msPerDay) /\
  (SchemaV2.calculateMemberStatus now renewalDate = SchemaV2.overdue
     <-> renewalDate + 8 * msPerDay <= now).
Proof.
  unfold SchemaV2.calculateMemberStatus. by_day_arith;
    repeat split; intros; try discriminate; try reflexivity; zlia.
Qed.

(** X1. Dues model, in time rather than in days: a member is active
    until the renewal instant, due from that instant for eight full days,
    and overdue from then on. *)
Theorem dues_status_by_elapsed_time (now renewalDate : Date) :
  (SchemaV2.calculateMemberStatus now renewalDate = SchemaV2.active
     <-> now < renewalDate) /\
  (SchemaV2.calculateMemberStatus now renewalDate = SchemaV2.due
     <-> renewalDate <= now < renewalDate + 8 * msPerDay) /\
  (SchemaV2.calculateMemberStatus now renewalDate = SchemaV2.overdue
     <-> renewalDate + 8 * msPerDay <= now).
Proof. exact (dues_thresholds now renewalDate). Qed.

Lemma expiry_thresholds (now renewalDate : Date) :
  (SchemaV1.calculateMemberStatus now renewalDate = SchemaV1.active
     <-> now < renewalDate - 7 * msPerDay) /\
  (SchemaV1.calculateMemberStatus now renewalDate = SchemaV1.expiring_soon
     <-> renewalDate - 7 * msPerDay <= now < renewalDate + 1 * msPerDay) /\
  (SchemaV1.calculateMemberStatus now renewalDate = SchemaV1.expired
     <-> renewalDate + 1 * msPerDay <= now).
Proof.
  unfold SchemaV1.calculateMemberStatus. by_day_arith;
    repeat split; intros; try discriminate; try reflexivity; zlia.
Qed.

(** X2. Expiry model, in time rather than in days: a member is active
    until seven days before the renewal instant, expiring-soon from then
    until one full day after it, and expired from then on. *)
Theorem expiry_status_by_elapsed_time (now renewalDate : Date) :
  (SchemaV1.calculateMemberStatus now renewalDate = SchemaV1.active
     <-> now < renewalDate - 7 * msPerDay) /\
  (SchemaV1.calculateMemberStatus now renewalDate = SchemaV1.expiring_soon
     <-> renewalDate - 7 * msPerDay <= now < renewalDate + 1 * msPerDay) /\
  (SchemaV1.calculateMemberStatus now renewalDate = SchemaV1.expired
     <-> renewalDate + 1 * msPerDay <= now).
Proof. exact (expiry_thresholds now renewalDate). Qed.

(** X3. With the renewal date fixed, the passing of time never improves
    a status, in either model. *)
Theorem status_never_improves_with_time (n n' renewalDate : Date) :
  n <= n' ->
  SchemaV2.statusRank (SchemaV2.calculateMemberStatus n renewalDate)
    <= SchemaV2.statusRank (SchemaV2.calculateMemberStatus n' renewalDate) /\
  SchemaV1.statusRank (SchemaV1.calculateMemberStatus n renewalDate)
    <= SchemaV1.statusRank (SchemaV1.calculateMemberStatus n' renewalDate).
Proof.
  intros Hle.
  unfold SchemaV2.calculateMemberStatus, SchemaV1.calculateMemberStatus.
  split; by_day_arith; cbn; try lia; exfalso; zlia.
Qed.

Lemma status_never_improves_with_time_witness :
  0 <= 9 * msPerDay /\
  SchemaV2.statusRank (SchemaV2.calculateMemberStatus 0 msPerDay)
    <= SchemaV2.statusRank (SchemaV2.calculateMemberStatus (9 * msPerDay) msPerDay).
Proof.
  assert (H : 0 <= 9 * msPerDay) by (unfold msPerDay; lia).
  split; [exact H |].
  destruct (status_never_improves_with_time 0 (9 * msPerDay) msPerDay H)
    as [Hr _].
  exact Hr.
Defined.

(** ** How far the renewal date lies from the start date *)

Lemma MakeDate_shift_days (t : Date) (day k : Z) :
  day = Day t + k -> MakeDate day (TimeWithinDay t) = t + k * msPerDay.
Proof.
  intros ->. pose proof (MakeDate_Day t) as E. unfold MakeDate in *. lia.
Qed.

Lemma MakeDay_next_year (y m d : Z) :
  0 <= m <= 11 -> MakeDay y (m + 12) d = MakeDay (y + 1) m d.
Proof.
  intros H. unfold MakeDay. cbv zeta.
  replace ((m + 12) / 12) with 1 by zlia.
  replace ((m + 12) mod 12) with m by zlia.
  replace (m / 12) with 0 by zlia. replace (m mod 12) with m by zlia.
  rewrite Z.add_0_r. reflexivity.
Qed.

Lemma MakeDay_month_succ (y m d : Z) :
  0 <= m <= 11 -> MakeDay y (m + 1) d = MakeDay y m d + DaysInMonth y m.
Proof.
  intros H. destruct (Z.eq_dec m 11) as [-> | Hne].
  - change (11 + 1) with (0 + 12). rewrite MakeDay_next_year by lia.
    rewrite !MakeDay_norm by lia. rewrite DayFromYear_succ.
    unfold DaysInMonth. change (11 + 1) with 12.
    destruct (leapOfYear_cases y) as [[E1 E2] | [E1 E2]];
      destruct (leapOfYear_cases (y + 1)) as [[F1 F2] | [F1 F2]];
      rewrite ?E1, ?E2, ?F1; cbn [monthStart]; lia.
  - rewrite !MakeDay_norm by lia. unfold DaysInMonth. lia.
Qed.

Lemma MakeDay_quarter (y m d : Z) :
  0 <= m <= 11 ->
  exists k, 89 <= k <= 92 /\ MakeDay y (m + 3) d = MakeDay y m d + k.
Proof.
  intros H.
  exists (MakeDay y (m + 3) d - MakeDay y m d). split; [| lia].
  destruct (Z_le_gt_dec m 8) as [Hlo | Hhi].
  - rewrite !MakeDay_norm by lia.
    destruct (leapOfYear_cases y) as [[E1 _] | [E1 _]]; rewrite E1;
      month_split m H; try lia;
      repeat match goal with
      | |- context [Z.add (Zpos ?a) (Zpos ?b)] =>
          let v := eval vm_compute in (Z.add (Zpos a) (Zpos b)) in
          change (Z.add (Zpos a) (Zpos b)) with v
      | |- context [Z.add Z0 (Zpos ?b)] => change (0 + Zpos b) with (Zpos b)
      end; cbn [monthStart]; lia.
  - replace (m + 3) with (m - 9 + 12) by lia.
    rewrite MakeDay_next_year by lia. rewrite !MakeDay_norm by lia.
    rewrite DayFromYear_succ.
    destruct (leapOfYear_cases y) as [[E1 E2] | [E1 E2]];
      destruct (leapOfYear_cases (y + 1)) as [[F1 F2] | [F1 F2]];
      rewrite ?E1, ?E2, ?F1;
      month_split m H; try lia;
      repeat match goal with
      | |- context [Z.sub (Zpos ?a) (Zpos ?b)] =>
          let v := eval vm_compute in (Z.sub (Zpos a) (Zpos b)) in
          change (Z.sub (Zpos a) (Zpos b)) with v
      end; cbn [monthStart]; lia.
Qed.

Lemma MakeDay_year_succ (y m d : Z) :
  0 <= m <= 11 ->
  exists k, 365 <= k <= 366 /\ MakeDay (y + 1) m d = MakeDay y m d + k.
Proof.
  intros H.
  exists (MakeDay (y + 1) m d - MakeDay y m d). split; [| lia].
  rewrite !MakeDay_norm by lia. rewrite DayFromYear_succ.
  destruct (leapOfYear_cases y) as [[E1 E2] | [E1 E2]];
    destruct (leapOfYear_cases (y + 1)) as [[F1 F2] | [F1 F2]];
    rewrite ?E1, ?E2, ?F1; month_split m H; cbn [monthStart]; lia.
Qed.

Lemma renewal_distance (d : Date) :
  SchemaV2.calculateRenewalDate d SchemaV2.monthly
    = d + DaysInMonth (YearFromTime d) (MonthFromTime d) * msPerDay /\
  SchemaV1.calculateRenewalDate d SchemaV1.monthly
    = d + DaysInMonth (YearFromTime d) (MonthFromTime d) * msPerDay /\
  28 <= DaysInMonth (YearFromTime d) (MonthFromTime d) <= 31 /\
  (exists k, 89 <= k <= 92 /\
     SchemaV1.calculateRenewalDate d SchemaV1.quarterly = d + k * msPerDay) /\
  (exists k, 365 <= k <= 366 /\
     SchemaV1.calculateRenewalDate d SchemaV1.annual = d + k * msPerDay).
Proof.
  pose proof (MonthFromTime_range d) as HM.
  assert (Hmonth : setMonth d (getMonth d + 1)
            = d + DaysInMonth (YearFromTime d) (MonthFromTime d) * msPerDay).
  { unfold setMonth, getMonth. apply MakeDate_shift_days.
    rewrite MakeDay_month_succ by exact HM. rewrite MakeDay_fields. reflexivity. }
  unfold SchemaV2.calculateRenewalDate, SchemaV1.calculateRenewalDate. cbv zeta.
  split; [exact Hmonth |]. split; [exact Hmonth |].
  split; [apply DaysInMonth_bounds, HM |]. split.
  - destruct (MakeDay_quarter (YearFromTime d) (MonthFromTime d) (DateFromTime d) HM)
      as (k & Hk & E).
    exists k. split; [exact Hk |].
    unfold setMonth, getMonth. apply MakeDate_shift_days.
    rewrite E, MakeDay_fields. reflexivity.
  - destruct (MakeDay_year_succ (YearFromTime d) (MonthFromTime d) (DateFromTime d) HM)
      as (k & Hk & E).
    exists k. split; [exact Hk |].
    unfold setFullYear, getFullYear. apply MakeDate_shift_days.
    rewrite E, MakeDay_fields. reflexivity.
Qed.

(** X4. The renewal date is later than the start date by a whole number
    of days, at the same time of day: by the length of the start date's
    calendar month (28 to 31 days) for a monthly subscription, by 89 to
    92 days for a quarterly one and by 365 or 366 days for an annual
    one. *)
Theorem calculateRenewalDate_distance (d : Date) :
  SchemaV2.calculateRenewalDate d SchemaV2.monthly
    = d + DaysInMonth (YearFromTime d) (MonthFromTime d) * msPerDay /\
  SchemaV1.calculateRenewalDate d SchemaV1.monthly
    = d + DaysInMonth (YearFromTime d) (MonthFromTime d) * msPerDay /\
  28 <= DaysInMonth (YearFromTime d) (MonthFromTime d) <= 31 /\
  (exists k, 89 <= k <= 92 /\
     SchemaV1.calculateRenewalDate d SchemaV1.quarterly = d + k * msPerDay) /\
  (exists k, 365 <= k <= 366 /\
     SchemaV1.calculateRenewalDate d SchemaV1.annual = d + k * msPerDay).
Proof. exact (renewal_distance d). Qed.

(** X5. A renewal date projected from an instant is in good standing at
    that instant: the status derived there is active, for every
    subscription type of either revision. *)
Theorem fresh_renewal_is_active (d : Date) :
  (forall t, SchemaV2.calculateMemberStatus d (SchemaV2.calculateRenewalDate d t)
               = SchemaV2.active) /\
  (forall t, SchemaV1.calculateMemberStatus d (SchemaV1.calculateRenewalDate d t)
               = SchemaV1.active).
Proof.
  destruct (renewal_distance d) as (E2 & E1 & Hb & (q & Hq & Eq) & (a & Ha & Ea)).
  split; intros t.
  - apply dues_thresholds.
    destruct t; [unfold SchemaV2.calculateRenewalDate; rewrite setDate_shift ..
                | rewrite E2]; unfold msPerDay; nia.
  - apply expiry_thresholds.
    destruct t; rewrite ?E1, ?Eq, ?Ea; unfold msPerDay; nia.
Qed.

(** ** More on tables: array order, index look-up, clearing *)

Section ArrayFacts.
Context {A : Type}.
Implicit Types (t : Dexie.Table A) (k : N) (row : A).

Lemma keyLe_le (x y : N * A) : (@Dexie.keyLe A) x y ↔ (x.1 ≤ y.1)%N.
Proof. unfold Dexie.keyLe, Dexie.byKey. apply N.leb_le. Qed.

#[local] Instance keyLe_total : Total (@Dexie.keyLe A).
Proof. intros x y. rewrite !keyLe_le. lia. Qed.

#[local] Instance keyLe_trans : Transitive (@Dexie.keyLe A).
Proof. intros x y z. rewrite !keyLe_le. lia. Qed.

Lemma elem_of_toArray t k row :
  (k, row) ∈ Dexie.toArray t ↔ Dexie.get k t = Some row.
Proof. apply elem_of_orderBy. Qed.

Lemma toArray_NoDup_keys t : NoDup (Dexie.toArray t).*1.
Proof. apply orderBy_NoDup_keys. Qed.

Lemma toArray_sorted t : StronglySorted (@Dexie.keyLe A) (Dexie.toArray t).
Proof.
  unfold Dexie.toArray, Dexie.orderBy.
  apply (StronglySorted_merge_sort (@Dexie.keyLe A)).
Qed.

Lemma toArray_length t : length (Dexie.toArray t) = size (Dexie.rows t).
Proof.
  unfold Dexie.toArray. rewrite orderBy_Permutation. apply length_map_to_list.
Qed.

(** Two key-sorted listings of the same rows are the same list. *)
Lemma keySorted_unique t (l : list (N * A)) :
  StronglySorted (@Dexie.keyLe A) l → l ≡ₚ map_to_list (Dexie.rows t) →
  l = Dexie.toArray t.
Proof.
  intros Hs Hp.
  apply (StronglySorted_unique_strong (@Dexie.keyLe A)); [| exact Hs | apply toArray_sorted |].
  - intros [k1 r1] [k2 r2] H1 H2 H12 H21.
    apply keyLe_le in H12, H21. cbn in *.
    assert (k1 = k2) as -> by lia.
    rewrite Hp in H1. apply elem_of_map_to_list in H1.
    apply elem_of_toArray in H2. unfold Dexie.get in H2. congruence.
  - rewrite Hp. symmetry. apply orderBy_Permutation.
Qed.

Lemma toArray_empty (n : N) : Dexie.toArray (Dexie.mkTable (∅ : gmap N A) n) = [].
Proof.
  symmetry. apply keySorted_unique; [constructor |].
  cbn. rewrite map_to_list_empty. reflexivity.
Qed.

(** A row added under the generator's key comes last in the array. *)
Lemma toArray_insert_fresh t row :
  Dexie.wfTable t →
  Dexie.toArray (Dexie.mkTable (<[Dexie.nextKey t := row]> (Dexie.rows t))
                   (Dexie.nextKey t + 1)%N)
  = Dexie.toArray t ++ [(Dexie.nextKey t, row)].
Proof.
  intros Hwf. symmetry. apply keySorted_unique.
  - apply StronglySorted_app_2.
    + intros [k1 r1] x2 H1 H2. apply list_elem_of_singleton in H2 as ->.
      apply keyLe_le. cbn. apply elem_of_toArray in H1.
      apply Hwf in H1. cbn in H1. lia.
    + apply toArray_sorted.
    + repeat constructor.
  - cbn. rewrite map_to_list_insert by exact (wfTable_fresh t Hwf).
    rewrite <- Permutation_cons_append. constructor.
    apply orderBy_Permutation.
Qed.

Lemma elem_of_whereEquals {K : Type} `{EqDecision K} (key : A → K) (v : K)
    t k row :
  (k, row) ∈ Dexie.whereEquals key v t ↔ Dexie.get k t = Some row ∧ key row = v.
Proof.
  unfold Dexie.whereEquals. rewrite list_elem_of_filter, elem_of_toArray.
  cbn. tauto.
Qed.

Lemma whereEquals_insert_fresh {K : Type} `{EqDecision K} (key : A → K) (v : K)
    t row :
  Dexie.wfTable t →
  Dexie.whereEquals key v
    (Dexie.mkTable (<[Dexie.nextKey t := row]> (Dexie.rows t))
       (Dexie.nextKey t + 1)%N)
  = Dexie.whereEquals key v t
    ++ (if decide (key row = v) then [(Dexie.nextKey t, row)] else []).
Proof.
  intros Hwf. unfold Dexie.whereEquals.
  rewrite (toArray_insert_fresh t row Hwf), filter_app. f_equal.
Qed.

Lemma getLast_None t : last (Dexie.toArray t) = None ↔ Dexie.rows t = ∅.
Proof.
  rewrite last_None. split; intros H.
  - apply map_empty. intros k.
    destruct (Dexie.rows t !! k) as [row |] eqn:E; [| reflexivity].
    apply (elem_of_toArray t k row) in E. rewrite H in E. inversion E.
  - destruct t as [r n]. cbn in H. subst r. apply toArray_empty.
Qed.

Lemma getLast_Some t k row :
  last (Dexie.toArray t) = Some (k, row) →
  Dexie.get k t = Some row ∧ ∀ j, is_Some (Dexie.get j t) → (j ≤ k)%N.
Proof.
  intros H. apply last_Some in H as [l' Hl]. split.
  - apply elem_of_toArray. rewrite Hl. apply elem_of_app. right. left.
  - intros j [r Hj]. apply elem_of_toArray in Hj. rewrite Hl in Hj.
    apply elem_of_app in Hj as [Hj | Hj].
    + pose proof (toArray_sorted t) as Hs. rewrite Hl in Hs.
      apply (StronglySorted_app_1_elem_of _ _ _ (j, r) (k, row)) in Hs;
        [| exact Hj | left].
      apply keyLe_le in Hs. exact Hs.
    + apply list_elem_of_singleton in Hj. injection Hj as -> _. lia.
Qed.

Lemma wfTable_clear t : Dexie.wfTable (Dexie.clear t).
Proof. unfold Dexie.wfTable, Dexie.clear. cbn. apply map_Forall_empty. Qed.

End ArrayFacts.

(** ** Check-in: stale rows, repeated check-ins, payments and the gate *)

Section CheckInExtras.
Import SchemaV2 Samples.

Lemma gate_true (m : Member) :
  status m = overdue ∨ paymentStatus m = incomplete →
  bool_decide (status m = overdue) || bool_decide (paymentStatus m = incomplete)
    = true.
Proof.
  intros H. apply orb_true_iff. rewrite !bool_decide_eq_true. exact H.
Qed.

Lemma gate_cases (m : Member) :
  (status m = overdue ∨ paymentStatus m = incomplete) ∨
  (status m ≠ overdue ∧ paymentStatus m = paid).
Proof.
  destruct (decide (status m = overdue)); [auto |].
  destruct (paymentStatus m); auto.
Qed.

(** X6. [handleCheckIn] decides on the stored row, not only on the row
    the page displays: whatever the displayed row says, a member that is
    stored as overdue or with an incomplete payment, or that is not
    stored at all, is not checked in, and nothing is written or read
    from the clock. *)
Theorem handleCheckIn_rechecks_stored_row (clock : Clock) (w : World DB)
    (id : N) (shown : Member) :
  (forall stored, Dexie.get id (members (db w)) = Some stored ->
     status stored = overdue \/ paymentStatus stored = incomplete ->
     exists toast, handleCheckIn id shown clock w = (Ok toast, w) /\
       toast <> CheckInSuccessful) /\
  (Dexie.get id (members (db w)) = None ->
     exists toast, handleCheckIn id shown clock w = (Ok toast, w) /\
       toast <> CheckInSuccessful).
Proof.
  split.
  - intros stored Hget Hgate. unfold handleCheckIn, catch.
    destruct (gate_cases shown) as [Hb | [Hs Hp]].
    + rewrite (gate_true shown Hb). eexists. split; [reflexivity | discriminate].
    + rewrite (proj2 (gate_false shown) (conj Hs Hp)). unfold bind.
      rewrite (checkInMember_blocked clock w id stored Hget Hgate).
      eexists. split; [reflexivity | discriminate].
  - intros Hget. unfold handleCheckIn, catch.
    destruct (gate_cases shown) as [Hb | [Hs Hp]].
    + rewrite (gate_true shown Hb). eexists. split; [reflexivity | discriminate].
    + rewrite (proj2 (gate_false shown) (conj Hs Hp)). unfold bind.
      rewrite (checkInMember_missing clock w id Hget).
      eexists. split; [reflexivity | discriminate].
Qed.

Lemma afterCheckIn_member (clock : Clock) (w : World DB) (id : N) (m : Member) :
  Dexie.get id (members (db w)) = Some m →
  Dexie.get id (members (db (afterCheckIn clock w id)))
    = Some (setLastCheckIn (clock (3 + reads w)%nat) m).
Proof.
  intros Hget. unfold afterCheckIn. cbn [db members].
  rewrite get_update_eq, Hget. reflexivity.
Qed.

Lemma afterCheckIn_wf (clock : Clock) (w : World DB) (id : N) :
  Dexie.wfTable (checkIns (db w)) →
  Dexie.wfTable (checkIns (db (afterCheckIn clock w id))).
Proof.
  intros Hwf. unfold afterCheckIn. cbn [db checkIns].
  eapply wfTable_add; [exact Hwf |].
  apply add_fresh, wfTable_fresh, Hwf.
Qed.

(** X7. Nothing limits check-ins to one a day: right after an accepted
    check-in a second one for the same member is accepted as well, and
    the log then holds two more rows than before. *)
Theorem checkInMember_twice (clock : Clock) (w : World DB) (id : N) (m : Member) :
  Dexie.wfTable (checkIns (db w)) ->
  Dexie.get id (members (db w)) = Some m ->
  status m <> overdue -> paymentStatus m = paid ->
  exists w1 w2,
    checkInMember id clock w = (Ok tt, w1) /\
    checkInMember id clock w1 = (Ok tt, w2) /\
    size (Dexie.rows (checkIns (db w2)))
      = S (S (size (Dexie.rows (checkIns (db w))))) /\
    lastCheckIn <$> Dexie.get id (members (db w2))
      = Some (Some (clock (8 + reads w)%nat)).
Proof.
  intros Hwf Hget Hs Hp.
  pose proof (afterCheckIn_member clock w id m Hget) as Hget1.
  pose proof (afterCheckIn_wf clock w id Hwf) as Hwf1.
  exists (afterCheckIn clock w id),
         (afterCheckIn clock (afterCheckIn clock w id) id).
  split; [apply (checkInMember_accepted clock w id m Hwf Hget Hs Hp) |].
  split.
  { apply (checkInMember_accepted clock _ id _ Hwf1 Hget1); [exact Hs | exact Hp]. }
  split.
  - unfold afterCheckIn at 1. cbn [db checkIns Dexie.rows].
    rewrite map_size_insert_None by exact (wfTable_fresh _ Hwf1).
    unfold afterCheckIn. cbn [db checkIns Dexie.rows].
    rewrite map_size_insert_None by exact (wfTable_fresh _ Hwf).
    reflexivity.
  - rewrite (afterCheckIn_member clock _ id _ Hget1). reflexivity.
Qed.

Lemma checkInMember_twice_witness :
  Dexie.wfTable (checkIns gym) /\
  Dexie.get 1%N (members gym) = Some alice /\
  exists w1 w2,
    checkInMember 1%N (ticking jan10) (mkWorld gym 0) = (Ok tt, w1) /\
    checkInMember 1%N (ticking jan10) w1 = (Ok tt, w2) /\
    size (Dexie.rows (checkIns (db w2))) = 2%nat.
Proof.
  assert (Hwf : Dexie.wfTable (checkIns (db (mkWorld gym 0))))
    by apply wfTable_empty.
  assert (Hget : Dexie.get 1%N (members (db (mkWorld gym 0))) = Some alice)
    by reflexivity.
  split; [exact Hwf |]. split; [exact Hget |].
  destruct (checkInMember_twice (ticking jan10) (mkWorld gym 0) 1%N alice
              Hwf Hget ltac:(discriminate) eq_refl)
    as (w1 & w2 & H1 & H2 & Hsize & _).
  exists w1, w2. split; [exact H1 |]. split; [exact H2 |].
  rewrite Hsize. reflexivity.
Defined.

End CheckInExtras.

(** ** Payment rows and the queries over them *)

Section PaymentRows.
Import SchemaV2 Samples.

(** The row [db.payments.add] stores: the given one with the creating
    hook's stamp. *)
Lemma paymentsAdd_run (obj : Payment) (clock : Clock) (w : World DB) :
  Dexie.wfTable (payments (db w)) →
  paymentsAdd obj clock w =
  (Ok (Dexie.nextKey (payments (db w))),
   mkWorld
     (mkDB (members (db w))
        (Dexie.mkTable
           (<[Dexie.nextKey (payments (db w)) :=
                mkPayment (memberId obj) (amount obj) (paymentMethod obj)
                  (paymentDate obj) (renewalPeriod obj)
                  (paySubscriptionType obj) (notes obj) (clock (reads w))]>
              (Dexie.rows (payments (db w))))
           (Dexie.nextKey (payments (db w)) + 1)%N)
        (checkIns (db w)))
     (1 + reads w)%nat).
Proof.
  intros Hwf. unfold paymentsAdd, paymentsCreating, bind, now, read, ret. cbn.
  rewrite (add_fresh _ _ (wfTable_fresh _ Hwf)). cbn. reflexivity.
Qed.

End PaymentRows.
Section PaymentQueryExtras.
Import SchemaV2 Samples.

(** X11. Payment history, newest first.  [getMemberPayments] lists
    exactly the stored payments carrying the member's id; right after a
    payment row is added the new row heads its member's list, the
    earlier ones follow unchanged, and no other member's list changes. *)
Theorem getMemberPayments_after_add (clock : Clock) (w : World DB)
    (obj : Payment) :
  Dexie.wfTable (payments (db w)) ->
  exists w' p earlier,
    paymentsAdd obj clock w = (Ok (Dexie.nextKey (payments (db w))), w') /\
    (forall c, getMemberPayments (memberId obj) c w = (Ok earlier, w)) /\
    (forall k' p', (k', p') ∈ earlier <->
       Dexie.get k' (payments (db w)) = Some p' /\ memberId p' = memberId obj) /\
    (forall c, getMemberPayments (memberId obj) c w'
       = (Ok ((Dexie.nextKey (payments (db w)), p) :: earlier), w')) /\
    amount p = amount obj /\
    paymentMethod p = paymentMethod obj /\
    paymentDate p = paymentDate obj /\
    payCreatedAt p = clock (reads w) /\
    (forall other c, other <> memberId obj ->
       fst (getMemberPayments other c w') = fst (getMemberPayments other c w)).
Proof.
  intros Hwf. eexists. eexists.
  exists (reverse (Dexie.whereEquals memberId (memberId obj) (payments (db w)))).
  split; [apply (paymentsAdd_run obj clock w Hwf) |].
  split; [reflexivity |]. split.
  { intros k' p'. rewrite elem_of_reverse. apply elem_of_whereEquals. }
  split.
  { intros c. unfold getMemberPayments, read. cbn [db payments].
    rewrite (whereEquals_insert_fresh memberId _ _ _ Hwf).
    cbn [memberId]. rewrite decide_True by reflexivity.
    rewrite reverse_snoc. reflexivity. }
  split; [reflexivity |]. split; [reflexivity |]. split; [reflexivity |].
  split; [reflexivity |].
  intros other c Hother. unfold getMemberPayments, read. cbn [fst db payments].
  rewrite (whereEquals_insert_fresh memberId _ _ _ Hwf).
  cbn [memberId]. rewrite decide_False by congruence.
  rewrite app_nil_r. reflexivity.
Qed.

Lemma getMemberPayments_after_add_witness :
  Dexie.wfTable (payments gymWithLatePayment) /\
  exists w' l,
    paymentsAdd latePayment (ticking jan10) (mkWorld gymWithLatePayment 0)
      = (Ok 2%N, w') /\
    getMemberPayments (memberId latePayment) (ticking jan10) w' = (Ok l, w') /\
    length l = 2%nat.
Proof.
  assert (Hwf : Dexie.wfTable (payments (db (mkWorld gymWithLatePayment 0)))).
  { apply (bool_decide_unpack _). vm_compute. reflexivity. }
  split; [exact Hwf |].
  destruct (getMemberPayments_after_add (ticking jan10)
              (mkWorld gymWithLatePayment 0) latePayment Hwf)
    as (w' & p & earlier & Hrun & Hbefore & _ & Hafter & _).
  exists w'. eexists. split; [exact Hrun |].
  split; [apply (Hafter (ticking jan10)) |].
  specialize (Hbefore (ticking jan10)).
  injection Hbefore as <-. vm_compute. reflexivity.
Defined.

(** X12. Monthly revenue after a payment row is added.
    [getMonthlyRevenue] reads without writing; a payment row added to
    the table raises the revenue reported for a month by its amount when
    its payment date lies from the month's first instant up to, but not
    including, second 23:59:59 of its last day, and leaves it as it was
    otherwise. *)
Theorem getMonthlyRevenue_after_add (clock : Clock) (w : World DB)
    (obj : Payment) (year month : Z) :
  Dexie.wfTable (payments (db w)) ->
  exists w' before after,
    paymentsAdd obj clock w = (Ok (Dexie.nextKey (payments (db w))), w') /\
    (forall c, getMonthlyRevenue year month c w = (Ok before, w)) /\
    (forall c, getMonthlyRevenue year month c w' = (Ok after, w')) /\
    after = before +
      (if (newDate year (month - 1) 1 0 0 0 <=? paymentDate obj)
          && (paymentDate obj <? newDate year month 0 23 59 59)
       then amount obj else 0).
Proof.
  intros Hwf. eexists. eexists. eexists.
  split; [apply (paymentsAdd_run obj clock w Hwf) |].
  split; [intros c; apply getMonthlyRevenue_sum |].
  split; [intros c; apply getMonthlyRevenue_sum |].
  cbn [db payments Dexie.rows].
  set (P := λ kv : N * Payment,
         (newDate year (month - 1) 1 0 0 0 <=? paymentDate kv.2)
         && (paymentDate kv.2 <? newDate year month 0 23 59 59) = true).
  set (f := λ kv : N * Payment, amount kv.2).
  set (k := Dexie.nextKey (payments (db w))).
  set (p := mkPayment _ _ _ _ _ _ _ _).
  rewrite (foldr_sum_Permutation f
             (filter P (map_to_list (<[k := p]> (Dexie.rows (payments (db w))))))
             (filter P ((k, p) :: map_to_list (Dexie.rows (payments (db w)))))).
  2:{ rewrite map_to_list_insert by exact (wfTable_fresh _ Hwf). reflexivity. }
  rewrite filter_cons. subst P f p. cbn [snd paymentDate amount].
  destruct ((newDate year (month - 1) 1 0 0 0 <=? paymentDate obj)
            && (paymentDate obj <? newDate year month 0 23 59 59)) eqn:E.
  - rewrite decide_True by reflexivity. cbn. lia.
  - rewrite decide_False by discriminate. lia.
Qed.

Lemma getMonthlyRevenue_after_add_witness :
  Dexie.wfTable (payments gym) /\
  exists w',
    paymentsAdd midJanuaryPayment (ticking jan10) (mkWorld gym 0)
      = (Ok 1%N, w') /\
    fst (getMonthlyRevenue 2024 1 (ticking jan10) w') = Ok 2000 /\
    fst (getMonthlyRevenue 2024 2 (ticking jan10) w') = Ok 0.
Proof.
  assert (Hwf : Dexie.wfTable (payments (db (mkWorld gym 0))))
    by apply wfTable_empty.
  split; [exact Hwf |].
  destruct (getMonthlyRevenue_after_add (ticking jan10) (mkWorld gym 0)
              midJanuaryPayment 2024 1 Hwf)
    as (w' & before & after & Hrun & Hbefore & Hafter & Hsum).
  exists w'. split; [exact Hrun |].
  split.
  - rewrite (Hafter (ticking jan10)). cbn [fst]. rewrite Hsum.
    specialize (Hbefore (ticking jan10)). injection Hbefore as <-.
    vm_compute. reflexivity.
  - assert (Hw : w' = snd (paymentsAdd midJanuaryPayment (ticking jan10)
                             (mkWorld gym 0))) by (rewrite Hrun; reflexivity).
    rewrite Hw. vm_compute. reflexivity.
Defined.

End PaymentQueryExtras.

(** ** Status queries *)

Section StatusQueryExtras.
Import SchemaV2 Samples.

Lemma refreshed_statuses (n : Date) (w : World DB) :
  ∃ w1, updateMemberStatuses (still n) w = (Ok tt, w1) ∧
    ∀ k m, Dexie.get k (members (db w1)) = Some m →
      status m = calculateMemberStatus n (renewalDate m).
Proof.
  destruct (updateMemberStatuses_refresh (still n) w)
    as (w1 & Hrun & _ & Hnone & Hsome).
  exists w1. split; [exact Hrun |]. intros k m Hget.
  destruct (Dexie.get k (members (db w))) as [m0 |] eqn:E.
  - destruct (Hsome k m0 E) as (i & Hi). unfold still in Hi.
    rewrite Hget in Hi. injection Hi as ->. apply refresh_status.
  - rewrite (Hnone k E) in Hget. discriminate.
Qed.

(** X13. After the statuses were refreshed at instant [n], the status
    queries answer by the renewal dates: [getActiveMembers] lists
    exactly the members whose renewal date is after [n],
    [getDueMembers] those whose renewal date passed less than eight days
    ago, and [getOverdueMembers] those whose renewal date passed eight
    days ago or more. *)
Theorem status_queries_after_refresh (n : Date) (w : World DB) :
  exists w1 la ld lo,
    updateMemberStatuses (still n) w = (Ok tt, w1) /\
    (forall c, getActiveMembers c w1 = (Ok la, w1)) /\
    (forall c, getDueMembers c w1 = (Ok ld, w1)) /\
    (forall c, getOverdueMembers c w1 = (Ok lo, w1)) /\
    (forall k m, (k, m) ∈ la <->
       Dexie.get k (members (db w1)) = Some m /\ n < renewalDate m) /\
    (forall k m, (k, m) ∈ ld <->
       Dexie.get k (members (db w1)) = Some m /\
       renewalDate m <= n < renewalDate m + 8 * msPerDay) /\
    (forall k m, (k, m) ∈ lo <->
       Dexie.get k (members (db w1)) = Some m /\
       renewalDate m + 8 * msPerDay <= n).
Proof.
  destruct (refreshed_statuses n w) as (w1 & Hrun & Hst).
  exists w1. eexists. eexists. eexists.
  split; [exact Hrun |].
  split; [reflexivity |]. split; [reflexivity |]. split; [reflexivity |].
  assert (Hq : ∀ s k m, (k, m) ∈ Dexie.whereEquals status s (members (db w1)) ↔
            Dexie.get k (members (db w1)) = Some m ∧
            calculateMemberStatus n (renewalDate m) = s).
  { intros s k m. rewrite elem_of_whereEquals. split; intros [Hget Hs].
    - split; [exact Hget |]. rewrite <- (Hst _ _ Hget). exact Hs.
    - split; [exact Hget |]. rewrite (Hst _ _ Hget). exact Hs. }
  pose proof (dues_thresholds n) as Ht.
  split; [| split]; intros k m; rewrite Hq;
    destruct (Ht (renewalDate m)) as (Ha & Hd & Ho);
    rewrite ?Ha, ?Hd, ?Ho; reflexivity.
Qed.

Lemma status_filter_lengths (l : list (N * Member)) :
  (length (filter (λ kv, status kv.2 = active) l)
   + length (filter (λ kv, status kv.2 = due) l)
   + length (filter (λ kv, status kv.2 = overdue) l))%nat
  = length l.
Proof.
  induction l as [| [k m] l IH]; [reflexivity |].
  rewrite !filter_cons. cbn [snd].
  destruct (status m); repeat case_decide; try discriminate; try congruence;
    cbn [length]; lia.
Qed.

(** X14. The status counts add up: every member is listed by exactly one
    of [getActiveMembers], [getDueMembers] and [getOverdueMembers], so
    the three list lengths sum to the length of [getAllMembers]. *)
Theorem status_counts_add_up (clock : Clock) (w : World DB) :
  exists all la ld lo,
    getAllMembers clock w = (Ok all, w) /\
    getActiveMembers clock w = (Ok la, w) /\
    getDueMembers clock w = (Ok ld, w) /\
    getOverdueMembers clock w = (Ok lo, w) /\
    (length la + length ld + length lo)%nat = length all /\
    (forall k m, Dexie.get k (members (db w)) = Some m ->
       ((k, m) ∈ la /\ ((k, m) ∉ ld) /\ ((k, m) ∉ lo)) \/
       (((k, m) ∉ la) /\ (k, m) ∈ ld /\ ((k, m) ∉ lo)) \/
       (((k, m) ∉ la) /\ ((k, m) ∉ ld) /\ (k, m) ∈ lo)).
Proof.
  eexists. eexists. eexists. eexists.
  split; [reflexivity |]. split; [reflexivity |].
  split; [reflexivity |]. split; [reflexivity |]. split.
  - unfold Dexie.whereEquals. rewrite status_filter_lengths.
    unfold Dexie.toArray. rewrite !orderBy_Permutation. reflexivity.
  - intros k m Hget. rewrite !elem_of_whereEquals.
    destruct (status m) eqn:E; [left | right; left | right; right];
      repeat split; try exact Hget; try exact E;
      intros [_ Hs]; congruence.
Qed.

End StatusQueryExtras.

(** ** Today's check-ins and revenue, the week's check-ins *)

Lemma startOfDay_eq (t : Date) :
  YearFromTime t < 0 ∨ 99 < YearFromTime t →
  newDate (getFullYear t) (getMonth t) (getDate t) 0 0 0 = Day t * msPerDay.
Proof.
  intros Hy. unfold newDate, getFullYear, getMonth, getDate. cbv zeta.
  replace ((0 <=? YearFromTime t) && (YearFromTime t <=? 99)) with false
    by (symmetry; apply andb_false_iff; rewrite !Z.leb_gt; lia).
  rewrite MakeDay_fields. unfold MakeDate, MakeTime. lia.
Qed.

Lemma endOfDay_eq (t : Date) :
  YearFromTime t < 0 ∨ 99 < YearFromTime t →
  newDate (getFullYear t) (getMonth t) (getDate t) 23 59 59
  = Day t * msPerDay + 86399000.
Proof.
  intros Hy. unfold newDate, getFullYear, getMonth, getDate. cbv zeta.
  replace ((0 <=? YearFromTime t) && (YearFromTime t <=? 99)) with false
    by (symmetry; apply andb_false_iff; rewrite !Z.leb_gt; lia).
  rewrite MakeDay_fields.
  unfold MakeDate, MakeTime, msPerHour, msPerMinute, msPerSecond. lia.
Qed.

Lemma between_length_insert_fresh {A : Type} (key : A → Z) (lower upper : Z)
    (il iu : bool) (t : Dexie.Table A) (row : A) :
  Dexie.wfTable t →
  length (Dexie.between key lower upper il iu
            (Dexie.mkTable (<[Dexie.nextKey t := row]> (Dexie.rows t))
               (Dexie.nextKey t + 1)%N))
  = (length (Dexie.between key lower upper il iu t)
     + (if Dexie.inRange lower upper il iu (key row) then 1 else 0))%nat.
Proof.
  intros Hwf. rewrite !between_Permutation. cbn [Dexie.rows].
  rewrite map_to_list_insert by exact (wfTable_fresh t Hwf).
  rewrite filter_cons. cbn [snd].
  destruct (Dexie.inRange lower upper il iu (key row)) eqn:E.
  - rewrite decide_True by reflexivity. cbn [length]. lia.
  - rewrite decide_False by discriminate. lia.
Qed.

Lemma mapM_reads {DB A B : Type} (body : A → M DB B) (g : A → B)
    (clock : Clock) (w : World DB) (xs : list A) :
  (∀ x, body x clock w = (Ok (g x), w)) →
  mapM body xs clock w = (Ok (g <$> xs), w).
Proof.
  intros Hbody. induction xs as [| x xs IH]; [reflexivity |].
  cbn [mapM]. unfold bind. rewrite Hbody, IH. reflexivity.
Qed.

Section TodayExtras.
Import SchemaV2 Samples.

Lemma getTodayCheckIns_run (clock : Clock) (w : World DB) :
  getTodayCheckIns clock w =
  (Ok (length
         (Dexie.between checkInDate
            (newDate (getFullYear (clock (reads w))) (getMonth (clock (reads w)))
               (getDate (clock (reads w))) 0 0 0)
            (newDate (getFullYear (clock (reads w))) (getMonth (clock (reads w)))
               (getDate (clock (reads w))) 23 59 59)
            true false (checkIns (db w)))),
   mkWorld (db w) (S (reads w))).
Proof. reflexivity. Qed.

(** X15. Today's check-in count.  [getTodayCheckIns] counts the stored
    check-ins from today's midnight up to, but not including, second
    23:59:59.  An accepted check-in therefore raises the count by one,
    unless it happens in the last second of the day, in which case the
    count stays as it was. *)
Theorem getTodayCheckIns_after_checkIn (n : Date) (w : World DB)
    (id : N) (m : Member) :
  Dexie.wfTable (checkIns (db w)) ->
  Dexie.get id (members (db w)) = Some m ->
  status m <> overdue -> paymentStatus m = paid ->
  YearFromTime n < 0 \/ 99 < YearFromTime n ->
  exists w' before after wa wb,
    checkInMember id (still n) w = (Ok tt, w') /\
    getTodayCheckIns (still n) w = (Ok before, wa) /\
    getTodayCheckIns (still n) w' = (Ok after, wb) /\
    db wa = db w /\ db wb = db w' /\
    before = length (filter
                       (λ kv, (Day n * msPerDay <=? checkInDate kv.2)
                              && (checkInDate kv.2 <? Day n * msPerDay + 86399000)
                              = true)
                       (map_to_list (Dexie.rows (checkIns (db w))))) /\
    after = if TimeWithinDay n <? 86399000 then S before else before.
Proof.
  intros Hwf Hget Hs Hp Hy.
  exists (afterCheckIn (still n) w id). eexists. eexists. eexists. eexists.
  split; [apply (checkInMember_accepted (still n) w id m Hwf Hget Hs Hp) |].
  split; [apply getTodayCheckIns_run |].
  split; [apply getTodayCheckIns_run |].
  split; [reflexivity |]. split; [reflexivity |].
  unfold still. rewrite (startOfDay_eq n Hy), (endOfDay_eq n Hy).
  split.
  - rewrite between_Permutation. reflexivity.
  - unfold afterCheckIn. cbn [db checkIns].
    rewrite (between_length_insert_fresh checkInDate _ _ _ _ _ _ Hwf).
    cbn [checkInDate]. unfold Dexie.inRange.
    pose proof (MakeDate_Day n) as En. unfold MakeDate in En.
    pose proof (TimeWithinDay_bounds n) as Hb.
    destruct (Z.ltb_spec (TimeWithinDay n) 86399000) as [Hlt | Hge].
    + replace ((Day n * msPerDay <=? n) && (n <? Day n * msPerDay + 86399000))
        with true; [lia |].
      symmetry. apply andb_true_iff. rewrite Z.leb_le, Z.ltb_lt. lia.
    + replace ((Day n * msPerDay <=? n) && (n <? Day n * msPerDay + 86399000))
        with false; [lia |].
      symmetry. apply andb_false_iff. right. apply Z.ltb_ge. lia.
Qed.

Lemma getTodayCheckIns_after_checkIn_witness :
  Dexie.wfTable (checkIns gym) /\
  Dexie.get 1%N (members gym) = Some alice /\
  (YearFromTime jan10 < 0 \/ 99 < YearFromTime jan10) /\
  exists w',
    checkInMember 1%N (still jan10) (mkWorld gym 0) = (Ok tt, w') /\
    fst (getTodayCheckIns (still jan10) w') = Ok 1%nat.
Proof.
  assert (Hwf : Dexie.wfTable (checkIns (db (mkWorld gym 0))))
    by apply wfTable_empty.
  assert (Hget : Dexie.get 1%N (members (db (mkWorld gym 0))) = Some alice)
    by reflexivity.
  assert (Hy : YearFromTime jan10 < 0 \/ 99 < YearFromTime jan10)
    by (right; vm_compute; reflexivity).
  split; [exact Hwf |]. split; [exact Hget |]. split; [exact Hy |].
  destruct (getTodayCheckIns_after_checkIn jan10 (mkWorld gym 0) 1%N alice
              Hwf Hget ltac:(discriminate) eq_refl Hy)
    as (w' & before & after & wa & wb & Hrun & _ & Hafter & _ & _ & Hb & Ha).
  exists w'. split; [exact Hrun |].
  rewrite Hafter. cbn [fst]. rewrite Ha, Hb. vm_compute. reflexivity.
Defined.

End TodayExtras.

Section DashboardExtras.
Import SchemaV2 Samples.

Lemma addRevenue_buckets (l : list (N * Payment)) (r0 : Revenue) :
  let r := foldl (λ revenue payment, addRevenue revenue payment.2) r0 l in
  revDaily r
    = revDaily r0 + sumAmounts (filter (λ kv, paySubscriptionType kv.2 = daily) l) ∧
  revWeekly r
    = revWeekly r0 + sumAmounts (filter (λ kv, paySubscriptionType kv.2 = weekly) l) ∧
  revMonthly r
    = revMonthly r0 + sumAmounts (filter (λ kv, paySubscriptionType kv.2 = monthly) l) ∧
  revDaily r + revWeekly r + revMonthly r
    = revDaily r0 + revWeekly r0 + revMonthly r0 + sumAmounts l.
Proof.
  revert r0. induction l as [| [k p] l IH]; intros r0; cbn zeta.
  - cbn. lia.
  - cbn [foldl snd]. specialize (IH (addRevenue r0 p)). cbn zeta in IH.
    destruct IH as (Hd & Hw & Hm & Ht).
    rewrite Hd, Hw, Hm. rewrite !filter_cons. cbn [snd].
    unfold addRevenue.
    destruct (paySubscriptionType p); repeat case_decide;
      try discriminate; try congruence;
      cbn [revDaily revWeekly revMonthly sumAmounts foldr snd];
      fold (sumAmounts l);
      repeat match goal with
      | |- context [foldr ?f 0 (filter ?P l)] =>
          change (foldr f 0 (filter P l)) with (sumAmounts (filter P l))
      end; lia.
Qed.

Lemma getTodayRevenue_run (clock : Clock) (w : World DB) :
  let todayPayments :=
    Dexie.between paymentDate
      (newDate (getFullYear (clock (reads w))) (getMonth (clock (reads w)))
         (getDate (clock (reads w))) 0 0 0)
      (newDate (getFullYear (clock (reads w))) (getMonth (clock (reads w)))
         (getDate (clock (reads w))) 23 59 59)
      true false (payments (db w)) in
  let revenue :=
    foldl (λ revenue payment, addRevenue revenue payment.2)
          (mkRevenue 0 0 0 0) todayPayments in
  getTodayRevenue clock w =
  (Ok (mkRevenue (revDaily revenue) (revWeekly revenue) (revMonthly revenue)
         (foldl (λ sum member, sum + subscriptionFee member.2) 0
            (Dexie.whereEquals paymentStatus incomplete (members (db w))))),
   mkWorld (db w) (S (reads w))).
Proof. reflexivity. Qed.

(** X16. Today's revenue by subscription type.  [getTodayRevenue] reads
    without writing; each of its three buckets is the sum of today's
    payments of that subscription type, so the buckets add up to the sum
    of all of today's payments, and [incomplete] is the sum of the fees
    of the members whose payment is stored as incomplete. *)
Theorem getTodayRevenue_buckets (clock : Clock) (w : World DB) :
  exists revenue todayPayments incompleteMembers w',
    getTodayRevenue clock w = (Ok revenue, w') /\
    db w' = db w /\
    todayPayments =
      Dexie.between paymentDate
        (newDate (getFullYear (clock (reads w))) (getMonth (clock (reads w)))
           (getDate (clock (reads w))) 0 0 0)
        (newDate (getFullYear (clock (reads w))) (getMonth (clock (reads w)))
           (getDate (clock (reads w))) 23 59 59)
        true false (payments (db w)) /\
    getMembersWithIncompletePayments clock w = (Ok incompleteMembers, w) /\
    revDaily revenue
      = sumAmounts (filter (λ kv, paySubscriptionType kv.2 = daily) todayPayments) /\
    revWeekly revenue
      = sumAmounts (filter (λ kv, paySubscriptionType kv.2 = weekly) todayPayments) /\
    revMonthly revenue
      = sumAmounts (filter (λ kv, paySubscriptionType kv.2 = monthly) todayPayments) /\
    revDaily revenue + revWeekly revenue + revMonthly revenue
      = sumAmounts todayPayments /\
    revIncomplete revenue = sumFees incompleteMembers.
Proof.
  eexists. eexists. eexists. eexists.
  split; [apply getTodayRevenue_run |].
  split; [reflexivity |]. split; [reflexivity |].
  split; [reflexivity |].
  cbn [revDaily revWeekly revMonthly revIncomplete].
  match goal with
  | |- context [foldl _ ?r0 ?l] =>
      destruct (addRevenue_buckets l r0) as (Hd & Hw & Hm & Ht)
  end.
  cbn zeta in Hd, Hw, Hm, Ht. cbn [revDaily revWeekly revMonthly] in Hd, Hw, Hm, Ht.
  split; [rewrite Hd; lia |]. split; [rewrite Hw; lia |].
  split; [rewrite Hm; lia |]. split; [rewrite Ht; lia |].
  unfold sumFees. rewrite foldl_sum_foldr. lia.
Qed.

Lemma WeekDay_days_ago (t i : Z) :
  WeekDay (t - i * msPerDay) = (WeekDay t - i) mod 7.
Proof.
  unfold WeekDay, Day, msPerDay. zlia.
Qed.

Lemma setDate_days_ago (t i : Z) :
  setDate t (getDate t - i) = t - i * msPerDay.
Proof.
  change (getDate t - i) with (getDate t + - i).
  rewrite setDate_shift. lia.
Qed.

(** X17. The week's check-ins.  [getWeeklyCheckInStats] reads without
    writing and returns seven entries, for the seven days ending today,
    oldest first, each named by its day of the week; the entry for today
    carries the count [getTodayCheckIns] reports at the same instant. *)
Theorem getWeeklyCheckInStats_week (clock : Clock) (w : World DB) :
  let today := clock (reads w) in
  exists stats w' todayCount w'',
    getWeeklyCheckInStats clock w = (Ok stats, w') /\
    db w' = db w /\
    length stats = 7%nat /\
    stats.*1 = (λ i, weekdayShort (today - i * msPerDay)) <$> [6; 5; 4; 3; 2; 1; 0] /\
    (forall i, WeekDay (today - i * msPerDay) = (WeekDay today - i) mod 7) /\
    getTodayCheckIns clock w = (Ok todayCount, w'') /\
    last stats = Some (weekdayShort today, todayCount).
Proof.
  cbv zeta.
  set (today := clock (reads w)).
  set (w1 := mkWorld (db w) (S (reads w))).
  set (g := λ i : Z,
         let date := setDate today (getDate today - i) in
         (weekdayShort date,
          length (Dexie.between checkInDate
                    (newDate (getFullYear date) (getMonth date) (getDate date) 0 0 0)
                    (newDate (getFullYear date) (getMonth date) (getDate date) 23 59 59)
                    Dexie.defaultIncludeLower Dexie.defaultIncludeUpper
                    (checkIns (db w))))).
  assert (Hrun : getWeeklyCheckInStats clock w
                 = (Ok (g <$> [6; 5; 4; 3; 2; 1; 0]), w1)).
  { unfold getWeeklyCheckInStats, bind, now. fold today. fold w1.
    apply (mapM_reads _ g). intros i. reflexivity. }
  eexists. eexists. eexists. eexists.
  split; [exact Hrun |]. split; [reflexivity |]. split; [reflexivity |].
  split.
  { rewrite <- list_fmap_compose. apply list_fmap_ext. intros j i _.
    unfold compose, g. cbv beta zeta. cbn [fst].
    rewrite setDate_days_ago. reflexivity. }
  split; [intros i; apply WeekDay_days_ago |].
  split; [apply getTodayCheckIns_run |].
  cbn [fmap list_fmap last]. subst g. cbv beta zeta. fold today.
  rewrite setDate_days_ago.
  replace (today - 0 * msPerDay) with today by lia. reflexivity.
Qed.

End DashboardExtras.

(** ** Recent check-ins *)

Lemma StronglySorted_reverse {A : Type} (R : relation A) (l : list A) :
  StronglySorted R l → StronglySorted (flip R) (reverse l).
Proof.
  induction 1 as [| x l Hs IH Hx]; [constructor |].
  rewrite reverse_cons. apply StronglySorted_app_2.
  - intros y z Hy Hz. apply list_elem_of_singleton in Hz as ->.
    rewrite elem_of_reverse in Hy.
    unfold flip. rewrite Forall_forall in Hx. apply Hx, Hy.
  - exact IH.
  - repeat constructor.
Qed.

Lemma StronglySorted_take {A : Type} (R : relation A) (n : nat) (l : list A) :
  StronglySorted R l → StronglySorted R (take n l).
Proof.
  intros H. rewrite <- (take_drop n l) in H.
  eapply StronglySorted_app_1_l, H.
Qed.

Section ByIndex.
Context {A : Type} (key : A → Z).

Lemma indexLe_spec (x y : N * A) :
  Dexie.indexLe key x y ↔
  key x.2 < key y.2 ∨ (key x.2 = key y.2 ∧ (x.1 ≤ y.1)%N).
Proof.
  unfold Dexie.indexLe, Dexie.byZ.
  rewrite orb_true_iff, andb_true_iff, Z.ltb_lt, Z.eqb_eq, N.leb_le.
  reflexivity.
Qed.

#[local] Instance indexLe_total : Total (Dexie.indexLe key).
Proof. intros x y. rewrite !indexLe_spec. lia. Qed.

#[local] Instance indexLe_trans : Transitive (Dexie.indexLe key).
Proof. intros x y z. rewrite !indexLe_spec. lia. Qed.

Lemma orderBy_index_sorted (t : Dexie.Table A) :
  StronglySorted (Dexie.indexLe key) (Dexie.orderBy (Dexie.byZ key) t).
Proof.
  unfold Dexie.orderBy. apply (StronglySorted_merge_sort (Dexie.indexLe key)).
Qed.

End ByIndex.

Section RecentExtras.
Import SchemaV2 Samples.

Lemma memberNameOr_nonempty (member : option Member) :
  memberNameOr unknownMember member ≠ "".
Proof.
  unfold memberNameOr. destruct member as [m |]; [| discriminate].
  destruct (String.eqb_spec (fullName m) ""); [discriminate | assumption].
Qed.

(** X18. Recent check-ins.  [getRecentCheckIns limit] reads without
    writing and returns at most [limit] stored check-ins, as many as
    there are when fewer are stored, the latest first.  Each comes with
    the stored member's name, replaced by ["Unknown Member"] when the
    member is not stored or has an empty name, so no entry has an empty
    name. *)
Theorem getRecentCheckIns_latest (limit : nat) (clock : Clock) (w : World DB) :
  exists l,
    getRecentCheckIns limit clock w = (Ok l, w) /\
    length l = Nat.min limit (size (Dexie.rows (checkIns (db w)))) /\
    StronglySorted (λ earlier later, later <= earlier)
      ((λ entry, checkInDate entry.1.2) <$> l) /\
    (forall k ci name, (k, ci, name) ∈ l ->
       Dexie.get k (checkIns (db w)) = Some ci /\
       name = memberNameOr unknownMember
                (Dexie.get (ciMemberId ci) (members (db w))) /\
       name <> ""%string /\
       (Dexie.get (ciMemberId ci) (members (db w)) = None ->
          name = unknownMember)).
Proof.
  set (sorted := Dexie.orderBy (Dexie.byZ checkInDate) (checkIns (db w))).
  set (g := λ checkIn : N * CheckIn,
         (checkIn, memberNameOr unknownMember
                     (Dexie.get (ciMemberId checkIn.2) (members (db w))))).
  exists (g <$> take limit (reverse sorted)).
  split.
  { unfold getRecentCheckIns, bind, read. fold sorted.
    apply (mapM_reads _ g). intros x. reflexivity. }
  split.
  { rewrite length_fmap, length_take, length_reverse. f_equal.
    unfold sorted. rewrite orderBy_Permutation. apply length_map_to_list. }
  split.
  { rewrite <- list_fmap_compose.
    apply (StronglySorted_fmap _ (flip (Dexie.indexLe checkInDate))).
    - intros x y Hxy. unfold flip in Hxy. apply indexLe_spec in Hxy.
      unfold compose, g. cbn [fst snd]. lia.
    - apply StronglySorted_take, StronglySorted_reverse, orderBy_index_sorted. }
  intros k ci name Hin.
  apply list_elem_of_fmap in Hin as ([k' ci'] & Heq & Hin).
  unfold g in Heq. cbn [snd] in Heq. injection Heq as -> -> ->.
  split.
  { apply elem_of_take in Hin as (i & Hi & _).
    apply list_elem_of_lookup_2 in Hi. rewrite elem_of_reverse in Hi.
    unfold sorted in Hi. apply elem_of_orderBy in Hi. exact Hi. }
  split; [reflexivity |]. split; [apply memberNameOr_nonempty |].
  intros Hnone. rewrite Hnone. reflexivity.
Qed.

End RecentExtras.

(** ** Registration, deletion and clearing (schema revision 1) *)

Lemma StronglySorted_filter {A : Type} (R : relation A) (P : A → Prop)
    `{∀ x, Decision (P x)} (l : list A) :
  StronglySorted R l → StronglySorted R (filter P l).
Proof.
  induction 1 as [| x l Hs IH Hx]; [constructor |].
  rewrite filter_cons. destruct (decide (P x)); [| exact IH].
  constructor; [exact IH |].
  rewrite Forall_forall in Hx |- *. intros y Hy.
  apply list_elem_of_filter in Hy as [_ Hy]. apply Hx, Hy.
Qed.

Section FilteredTables.
Context {A : Type}.
Implicit Types (t : Dexie.Table A).

(** The array of a table whose rows were filtered is the filtered array. *)
Lemma toArray_filter (P : N * A → Prop) `{∀ x, Decision (P x)} t (n : N) :
  Dexie.toArray (Dexie.mkTable (filter P (Dexie.rows t)) n)
  = filter P (Dexie.toArray t).
Proof.
  symmetry. apply keySorted_unique.
  - apply StronglySorted_filter, toArray_sorted.
  - cbn. apply NoDup_Permutation.
    + apply NoDup_filter. eapply NoDup_fmap_1, toArray_NoDup_keys.
    + apply NoDup_map_to_list.
    + intros [k row]. rewrite list_elem_of_filter, elem_of_toArray.
      rewrite elem_of_map_to_list, map_lookup_filter_Some.
      unfold Dexie.get. tauto.
Qed.

Lemma orderBy_empty (before : N * A → N * A → bool) (n : N) :
  Dexie.orderBy before (Dexie.mkTable (∅ : gmap N A) n) = [].
Proof.
  apply Permutation_nil_r. rewrite orderBy_Permutation. cbn.
  rewrite map_to_list_empty. reflexivity.
Qed.

End FilteredTables.

Section RevisionOneExtras.
Import SchemaV1 Samples.

Lemma addMemberOnSubmit_run (data : MemberFormData) (clock : Clock)
    (w : World DB) :
  Dexie.get (Dexie.nextKey (members (db w))) (members (db w)) = None →
  addMemberOnSubmit data clock w =
  (Ok true,
   mkWorld
     (mkDB
        (Dexie.mkTable
           (<[Dexie.nextKey (members (db w)) :=
                mkMember (formFullName data) (formPhone data)
                  (orUndefined (formEmail data)) (formGender data)
                  (formStartDate data) (formSubscriptionType data)
                  (formSubscriptionFee data)
                  (calculateRenewalDate (formStartDate data)
                     (formSubscriptionType data))
                  (calculateMemberStatus (clock (4 + reads w)%nat)
                     (calculateRenewalDate (formStartDate data)
                        (formSubscriptionType data)))
                  (clock (2 + reads w)%nat) (clock (3 + reads w)%nat)]>
              (Dexie.rows (members (db w))))
           (Dexie.nextKey (members (db w)) + 1)%N)
        (payments (db w)))
     (5 + reads w)%nat).
Proof.
  intros Hfree.
  unfold addMemberOnSubmit, catch, bind, now, membersAdd, membersCreating,
    calculateMemberStatusNow, bind, now, read, ret. cbn.
  rewrite (add_fresh _ _ Hfree). cbn. reflexivity.
Qed.

(** X19. Registration.  In a well-formed store the registration form
    adds one member under a key no row had, with the form's values, an
    empty e-mail stored as absent, the renewal date projected from the
    start date, and the status derived from that renewal date by the
    creating hook, whatever status the page passes; the hook's stamps
    replace the page's.  No other member and no payment changes. *)
Theorem addMemberOnSubmit_registers (data : MemberFormData) (clock : Clock)
    (w : World DB) :
  Dexie.wfTable (members (db w)) ->
  exists w' m,
    addMemberOnSubmit data clock w = (Ok true, w') /\
    Dexie.get (Dexie.nextKey (members (db w))) (members (db w)) = None /\
    Dexie.get (Dexie.nextKey (members (db w))) (members (db w')) = Some m /\
    fullName m = formFullName data /\
    phone m = formPhone data /\
    email m = orUndefined (formEmail data) /\
    email m <> Some ""%string /\
    gender m = formGender data /\
    startDate m = formStartDate data /\
    subscriptionType m = formSubscriptionType data /\
    subscriptionFee m = formSubscriptionFee data /\
    renewalDate m
      = calculateRenewalDate (formStartDate data) (formSubscriptionType data) /\
    status m = calculateMemberStatus (clock (4 + reads w)%nat) (renewalDate m) /\
    createdAt m = clock (2 + reads w)%nat /\
    updatedAt m = clock (3 + reads w)%nat /\
    (forall j, j <> Dexie.nextKey (members (db w)) ->
       Dexie.get j (members (db w')) = Dexie.get j (members (db w))) /\
    payments (db w') = payments (db w) /\
    Dexie.wfTable (members (db w')).
Proof.
  intros Hwf. pose proof (wfTable_fresh _ Hwf) as Hfree.
  eexists. eexists.
  split; [apply (addMemberOnSubmit_run data clock w Hfree) |].
  split; [exact Hfree |].
  split; [apply lookup_insert_eq |].
  cbn.
  split; [reflexivity |]. split; [reflexivity |]. split; [reflexivity |].
  split.
  { unfold orUndefined. destruct (formEmail data) as [s |]; [| discriminate].
    destruct (String.eqb_spec s ""); [discriminate | congruence]. }
  split; [reflexivity |]. split; [reflexivity |]. split; [reflexivity |].
  split; [reflexivity |]. split; [reflexivity |]. split; [reflexivity |].
  split; [reflexivity |]. split; [reflexivity |].
  split.
  { intros j Hj. unfold Dexie.get. cbn. apply lookup_insert_ne. congruence. }
  split; [reflexivity |].
  eapply wfTable_add; [exact Hwf |]. apply add_fresh, Hfree.
Qed.

Lemma addMemberOnSubmit_registers_witness :
  Dexie.wfTable (members emptyDB) /\
  exists w' m,
    addMemberOnSubmit erinRegistration (still (ymd 2024 3 1)) (mkWorld emptyDB 0)
      = (Ok true, w') /\
    Dexie.get 1%N (members (db w')) = Some m /\
    renewalDate m = ymd 2024 2 1 /\
    status m = expired.
Proof.
  assert (Hwf : Dexie.wfTable (members (db (mkWorld emptyDB 0))))
    by apply wfTable_empty.
  split; [exact Hwf |].
  destruct (addMemberOnSubmit_registers erinRegistration (still (ymd 2024 3 1))
              (mkWorld emptyDB 0) Hwf)
    as (w' & m & Hrun & _ & Hget & _ & _ & _ & _ & _ & _ & _ & _ & Hr & Hs & _).
  exists w', m. split; [exact Hrun |]. split; [exact Hget |].
  split; [rewrite Hr; vm_compute; reflexivity |].
  rewrite Hs, Hr. vm_compute. reflexivity.
Defined.

Lemma handleDeleteMember_run (clock : Clock) (w : World DB) (memberId : N) :
  handleDeleteMember true memberId clock w =
  (Ok tt,
   mkWorld
     (mkDB (Dexie.delete memberId (members (db w)))
        (Dexie.deleteWhere (λ p, bool_decide (SchemaV1.memberId p = memberId))
           (payments (db w))))
     (reads w)).
Proof. reflexivity. Qed.

Lemma getMemberPayments_deleteWhere (d : DB) (memberId other : N) :
  Dexie.whereEquals SchemaV1.memberId other
    (Dexie.deleteWhere (λ p, bool_decide (SchemaV1.memberId p = memberId))
       (payments d))
  = if decide (other = memberId) then []
    else Dexie.whereEquals SchemaV1.memberId other (payments d).
Proof.
  unfold Dexie.whereEquals, Dexie.deleteWhere.
  rewrite (toArray_filter _ (payments d)), list_filter_filter.
  destruct (decide (other = memberId)) as [-> | Hne].
  - induction (Dexie.toArray (payments d)) as [| x l IH]; [reflexivity |].
    rewrite filter_cons, IH. destruct (decide _) as [[Ha Hb] |]; [| reflexivity].
    cbn in Ha, Hb. apply bool_decide_eq_false in Hb. contradiction.
  - apply list_filter_iff. intros [k p]. cbn. rewrite bool_decide_eq_false.
    split; [tauto |]. intros Hp. split; [exact Hp | congruence].
Qed.

(** X20. After a confirmed deletion the deleted member has no payment
    history, every other member's history is what it was, and deleting
    the same member again changes nothing. *)
Theorem getMemberPayments_after_delete (clock clock' : Clock) (w : World DB)
    (memberId : N) :
  exists w',
    handleDeleteMember true memberId clock w = (Ok tt, w') /\
    getMemberPayments memberId clock' w' = (Ok [], w') /\
    (forall other, other <> memberId ->
       exists l, getMemberPayments other clock' w = (Ok l, w) /\
                 getMemberPayments other clock' w' = (Ok l, w')) /\
    handleDeleteMember true memberId clock' w' = (Ok tt, w').
Proof.
  eexists. split; [apply handleDeleteMember_run |].
  split.
  { unfold getMemberPayments, read. cbn [db payments].
    rewrite getMemberPayments_deleteWhere, decide_True by reflexivity.
    reflexivity. }
  split.
  { intros other Hne. eexists. split; [reflexivity |].
    unfold getMemberPayments, read. cbn [db payments].
    rewrite getMemberPayments_deleteWhere, decide_False by exact Hne.
    reflexivity. }
  rewrite handleDeleteMember_run. cbn [db members payments reads].
  f_equal. f_equal. f_equal.
  - unfold Dexie.delete. cbn. f_equal.
    apply delete_id, lookup_delete_eq.
  - unfold Dexie.deleteWhere. cbn. f_equal.
    rewrite map_filter_filter. apply map_filter_ext. intros k p _. tauto.
Qed.

Lemma clearAllData_run (clock : Clock) (w : World DB) :
  clearAllData true clock w =
  (Ok true,
   mkWorld (mkDB (Dexie.clear (members (db w))) (Dexie.clear (payments (db w))))
     (reads w)).
Proof. reflexivity. Qed.

(** X21. Clearing the data.  Once confirmed, the member list, every
    status list, every payment history and every month's revenue are
    empty.  The key generators are not reset: the next registration
    succeeds and takes the key that was next before the clearing, so no
    key of a cleared member is given out again.  Declining the
    confirmation changes nothing. *)
Theorem clearAllData_empties (clock clock' : Clock) (w : World DB)
    (data : MemberFormData) :
  clearAllData false clock w = (Ok false, w) /\
  exists w',
    clearAllData true clock w = (Ok true, w') /\
    getAllMembers clock' w' = (Ok [], w') /\
    (forall s, getMembersByStatus s clock' w' = (Ok [], w')) /\
    (forall k, getMemberPayments k clock' w' = (Ok [], w')) /\
    (forall year month, getMonthlyRevenue year month clock' w' = (Ok 0, w')) /\
    exists w'' m,
      addMemberOnSubmit data clock' w' = (Ok true, w'') /\
      Dexie.toArray (members (db w''))
        = [(Dexie.nextKey (members (db w)), m)].
Proof.
  split; [reflexivity |].
  eexists. split; [apply clearAllData_run |].
  split.
  { unfold getAllMembers, read. cbn [db members]. unfold Dexie.clear.
    rewrite orderBy_empty. reflexivity. }
  split.
  { intros s. unfold getMembersByStatus, read, Dexie.whereEquals.
    cbn [db members]. unfold Dexie.clear. rewrite toArray_empty. reflexivity. }
  split.
  { intros k. unfold getMemberPayments, read, Dexie.whereEquals.
    cbn [db payments]. unfold Dexie.clear. rewrite toArray_empty. reflexivity. }
  split.
  { intros year month. unfold getMonthlyRevenue, bind, read, ret, Dexie.between.
    cbv zeta. cbn [db payments]. unfold Dexie.clear.
    rewrite orderBy_empty. reflexivity. }
  eexists. eexists.
  split.
  { apply addMemberOnSubmit_run. cbn. unfold Dexie.get. cbn.
    apply lookup_empty. }
  cbn [db members Dexie.clear Dexie.nextKey Dexie.rows].
  rewrite insert_empty.
  apply Permutation_singleton_r. unfold Dexie.toArray.
  rewrite orderBy_Permutation. cbn [Dexie.rows].
  rewrite map_to_list_singleton. reflexivity.
Qed.

End RevisionOneExtras.

(** ** Settings (schema revision 1) *)

Section LatestRow.
Context {A : Type}.
Implicit Types (t : Dexie.Table A).

(** The last row of the array is the one with the largest key. *)
Lemma getLast_largest t (k : N) (row : A) :
  Dexie.get k t = Some row →
  (∀ j, is_Some (Dexie.get j t) → (j ≤ k)%N) →
  last (Dexie.toArray t) = Some (k, row).
Proof.
  intros Hget Hmax.
  destruct (last (Dexie.toArray t)) as [[k' row'] |] eqn:E.
  - apply getLast_Some in E as [Hget' Hmax'].
    assert (k' = k) as ->.
    { apply N.le_antisymm; [apply Hmax | apply Hmax']; eauto. }
    congruence.
  - apply getLast_None in E. unfold Dexie.get in Hget. rewrite E in Hget.
    rewrite lookup_empty in Hget. discriminate.
Qed.

Lemma getLast_update t (k : N) (row : A) (f : A → A) :
  last (Dexie.toArray t) = Some (k, row) →
  last (Dexie.toArray (Dexie.update k f t)) = Some (k, f row).
Proof.
  intros H. apply getLast_Some in H as [Hget Hmax].
  apply getLast_largest.
  - rewrite get_update_eq, Hget. reflexivity.
  - intros j Hj. apply Hmax.
    destruct (decide (k = j)) as [<- | Hne]; [eauto |].
    rewrite get_update_ne in Hj by exact Hne. exact Hj.
Qed.

Lemma toArray_singleton (k n : N) (row : A) :
  Dexie.toArray (Dexie.mkTable {[k := row]} n) = [(k, row)].
Proof.
  apply Permutation_singleton_r. unfold Dexie.toArray.
  rewrite orderBy_Permutation. cbn [Dexie.rows].
  rewrite map_to_list_singleton. reflexivity.
Qed.

End LatestRow.

Section SettingsExtras.
Import SettingsV1 Samples.

Lemma settingsAdd_run (obj : GymSettings) (clock : Clock) (w : World DB) :
  Dexie.get (Dexie.nextKey (db w)) (db w) = None →
  settingsAdd obj clock w =
  (Ok (Dexie.nextKey (db w)),
   mkWorld
     (Dexie.mkTable
        (<[Dexie.nextKey (db w) :=
             mkGymSettings (gymName obj) (gymLogo obj) (contactPhone obj)
               (contactEmail obj) (address obj) (defaultMonthlyFee obj)
               (defaultQuarterlyFee obj) (defaultAnnualFee obj) (pinCode obj)
               (clock (reads w)) (clock (1 + reads w)%nat)]>
           (Dexie.rows (db w)))
        (Dexie.nextKey (db w) + 1)%N)
     (2 + reads w)%nat).
Proof.
  intros Hfree.
  unfold settingsAdd, settingsCreating, bind, now, read, ret. cbn.
  rewrite (add_fresh _ _ Hfree). cbn. reflexivity.
Qed.

Lemma getGymSettings_run (clock : Clock) (w : World DB) :
  getGymSettings clock w = (Ok (last (Dexie.toArray (db w))), w).
Proof. reflexivity. Qed.

Lemma initializeDefaultSettings_some (clock : Clock) (w : World DB)
    (latest : N * GymSettings) :
  last (Dexie.toArray (db w)) = Some latest →
  initializeDefaultSettings clock w = (Ok tt, w).
Proof.
  intros H. unfold initializeDefaultSettings, bind.
  rewrite getGymSettings_run, H. reflexivity.
Qed.

(** X22. Default settings.  [initializeDefaultSettings] always
    completes.  On a table that has a row it writes nothing; on an empty
    table it adds one row, named "My Gym", with the fees 2000, 5500 and
    20000, no PIN, and the creating hook's stamps.  Run again
    afterwards, at any time, it writes nothing. *)
Theorem initializeDefaultSettings_once (clock : Clock) (w : World DB) :
  exists w1,
    initializeDefaultSettings clock w = (Ok tt, w1) /\
    (Dexie.rows (db w) <> ∅ -> w1 = w) /\
    (Dexie.rows (db w) = ∅ ->
       exists s,
         Dexie.toArray (db w1) = [(Dexie.nextKey (db w), s)] /\
         gymName s = "My Gym"%string /\
         defaultMonthlyFee s = 2000 /\
         defaultQuarterlyFee s = 5500 /\
         defaultAnnualFee s = 20000 /\
         pinCode s = None /\
         gymLogo s = None /\
         createdAt s = clock (2 + reads w)%nat /\
         updatedAt s = clock (3 + reads w)%nat) /\
    (forall clock', initializeDefaultSettings clock' w1 = (Ok tt, w1)).
Proof.
  destruct (last (Dexie.toArray (db w))) as [latest |] eqn:E.
  - exists w. split; [apply (initializeDefaultSettings_some _ _ _ E) |].
    split; [reflexivity |]. split.
    + intros Hempty. apply getLast_None in Hempty. congruence.
    + intros clock'. apply (initializeDefaultSettings_some _ _ _ E).
  - pose proof (proj1 (getLast_None _) E) as Hempty.
    assert (Hrun : initializeDefaultSettings clock w =
      (Ok tt,
       mkWorld
         (Dexie.mkTable
            {[Dexie.nextKey (db w) :=
                mkGymSettings "My Gym" None None None None 2000 5500 20000 None
                  (clock (2 + reads w)%nat) (clock (3 + reads w)%nat)]}
            (Dexie.nextKey (db w) + 1)%N)
         (4 + reads w)%nat)).
    { unfold initializeDefaultSettings, bind.
      rewrite getGymSettings_run, E. unfold now. cbn [db reads].
      rewrite settingsAdd_run
        by (unfold Dexie.get; cbn; rewrite Hempty; apply lookup_empty).
      cbn. rewrite Hempty, insert_empty. reflexivity. }
    eexists. split; [exact Hrun |].
    split; [intros Hne; contradiction |].
    split.
    + intros _. eexists. split; [apply toArray_singleton |]. cbn.
      repeat split.
    + intros clock'. eapply initializeDefaultSettings_some.
      cbn [db]. rewrite toArray_singleton. reflexivity.
Qed.

Lemma onSubmit_update_run (clock : Clock) (w : World DB) (key : N)
    (shown stored : GymSettings) (data : SettingsFormData) :
  key ≠ 0%N →
  Dexie.get key (db w) = Some stored →
  onSubmit (Some (key, shown)) data clock w =
  (Ok true,
   mkWorld
     (Dexie.update key
        (applySettingsData data (orElse (formPinCode data) (pinCode shown))
           (clock (reads w)))
        (db w))
     (2 + reads w)%nat).
Proof.
  intros Hkey Hget.
  unfold onSubmit, catch, bind, now. cbn [mbind option_bind snd].
  apply N.eqb_neq in Hkey. rewrite Hkey.
  unfold settingsUpdating, bind, read, now, write, ret. cbn.
  rewrite Hget. cbn. reflexivity.
Qed.

Lemma orElse_nonempty (a b : option string) (p : string) :
  b = Some p → p ≠ ""%string → ∃ q, orElse a b = Some q ∧ q ≠ ""%string.
Proof.
  intros -> Hp. unfold orElse. destruct a as [s |]; [| eauto].
  destruct (String.eqb_spec s ""); eauto.
Qed.

(** X23. Saving the settings over the loaded row.  When the page holds
    the latest row, the save rewrites that row in place: the table keeps
    its rows and keys, the row stays the latest, the form's values go
    in, the logo and the creation stamp stay, and the update stamp is
    the one the page took when it built the modifications, not the
    later one of the updating hook. *)
Theorem onSubmit_updates_in_place (clock0 clock : Clock) (w : World DB)
    (key : N) (s : GymSettings) (data : SettingsFormData) :
  getGymSettings clock0 w = (Ok (Some (key, s)), w) ->
  key <> 0%N ->
  exists w' s',
    onSubmit (Some (key, s)) data clock w = (Ok true, w') /\
    getGymSettings clock0 w' = (Ok (Some (key, s')), w') /\
    size (Dexie.rows (db w')) = size (Dexie.rows (db w)) /\
    (forall j, j <> key -> Dexie.get j (db w') = Dexie.get j (db w)) /\
    gymName s' = formGymName data /\
    contactPhone s' = formContactPhone data /\
    contactEmail s' = formContactEmail data /\
    address s' = formAddress data /\
    defaultMonthlyFee s' = formMonthlyFee data /\
    defaultQuarterlyFee s' = formQuarterlyFee data /\
    defaultAnnualFee s' = formAnnualFee data /\
    gymLogo s' = gymLogo s /\
    createdAt s' = createdAt s /\
    updatedAt s' = clock (reads w).
Proof.
  intros Hload Hkey. rewrite getGymSettings_run in Hload.
  injection Hload as Hlast.
  pose proof (getLast_Some _ _ _ Hlast) as [Hget _].
  eexists. eexists.
  split; [apply (onSubmit_update_run clock w key s s data Hkey Hget) |].
  split.
  { rewrite getGymSettings_run. cbn [db].
    rewrite (getLast_update _ _ _ _ Hlast). reflexivity. }
  split.
  { cbn [db]. unfold Dexie.update. cbn [Dexie.rows].
    unfold Dexie.get in Hget.
    rewrite (alter_alt_Some _ _ _ _ Hget).
    apply map_size_insert_Some. eauto. }
  split.
  { intros j Hj. cbn [db]. apply get_update_ne. congruence. }
  cbn. repeat split.
Qed.

Lemma onSubmit_updates_in_place_witness :
  getGymSettings (still 0) settingsStore
    = (Ok (Some (1%N, protectedSettings)), settingsStore) /\
  exists w' s',
    onSubmit (Some (1%N, protectedSettings)) renamingForm (ticking 100)
      settingsStore = (Ok true, w') /\
    Dexie.get 1%N (db w') = Some s' /\
    gymName s' = "Iron Temple"%string /\
    gymLogo s' = Some "logo"%string /\
    updatedAt s' = 100.
Proof.
  assert (Hload : getGymSettings (still 0) settingsStore
                  = (Ok (Some (1%N, protectedSettings)), settingsStore)).
  { rewrite getGymSettings_run. unfold settingsStore. cbn [db].
    rewrite toArray_singleton. reflexivity. }
  split; [exact Hload |].
  destruct (onSubmit_updates_in_place (still 0) (ticking 100) settingsStore 1%N
              protectedSettings renamingForm Hload ltac:(discriminate))
    as (w' & s' & Hrun & Hload' & _ & _ & Hname & _ & _ & _ & _ & _ & _
        & Hlogo & _ & Hstamp).
  exists w', s'. split; [exact Hrun |].
  split.
  { rewrite getGymSettings_run in Hload'. injection Hload' as Hlast.
    apply getLast_Some in Hlast as [Hget _]. exact Hget. }
  split; [exact Hname |]. split; [exact Hlogo |]. exact Hstamp.
Defined.

(** X24. The form cannot switch PIN protection off.  When the loaded
    row has a PIN, the row saved over it has one too, whatever the form
    holds; and when the form's PIN field is empty or absent the stored
    PIN stays, so the same entries are accepted and refused as before. *)
Theorem onSubmit_never_clears_pin (clock0 clock : Clock) (w : World DB)
    (key : N) (s : GymSettings) (data : SettingsFormData) (p : string) :
  getGymSettings clock0 w = (Ok (Some (key, s)), w) ->
  key <> 0%N ->
  pinCode s = Some p -> p <> ""%string ->
  exists w' s',
    onSubmit (Some (key, s)) data clock w = (Ok true, w') /\
    getGymSettings clock0 w' = (Ok (Some (key, s')), w') /\
    (exists q, pinCode s' = Some q /\ q <> ""%string) /\
    (formPinCode data = None \/ formPinCode data = Some ""%string ->
       pinCode s' = Some p /\
       forall entered,
         authenticatePin (Some (key, s')) entered
           = authenticatePin (Some (key, s)) entered).
Proof.
  intros Hload Hkey Hpin Hp. rewrite getGymSettings_run in Hload.
  injection Hload as Hlast.
  pose proof (getLast_Some _ _ _ Hlast) as [Hget _].
  eexists. eexists.
  split; [apply (onSubmit_update_run clock w key s s data Hkey Hget) |].
  split.
  { rewrite getGymSettings_run. cbn [db].
    rewrite (getLast_update _ _ _ _ Hlast). reflexivity. }
  cbn [pinCode applySettingsData].
  split; [apply (orElse_nonempty _ _ p Hpin Hp) |].
  intros Hform.
  assert (Hsame : orElse (formPinCode data) (pinCode s) = Some p).
  { destruct Hform as [-> | ->]; cbn; exact Hpin. }
  split; [exact Hsame |].
  intros entered. unfold authenticatePin. cbn [mbind option_bind snd pinCode].
  rewrite Hsame, Hpin. reflexivity.
Qed.

Lemma onSubmit_never_clears_pin_witness :
  getGymSettings (still 0) settingsStore
    = (Ok (Some (1%N, protectedSettings)), settingsStore) /\
  exists w' s',
    onSubmit (Some (1%N, protectedSettings)) emptyPinForm (ticking 100)
      settingsStore = (Ok true, w') /\
    pinCode s' = Some "1234"%string /\
    authenticatePin (Some (1%N, s')) "1234" = Some true /\
    authenticatePin (Some (1%N, s')) "" = Some false.
Proof.
  assert (Hload : getGymSettings (still 0) settingsStore
                  = (Ok (Some (1%N, protectedSettings)), settingsStore)).
  { rewrite getGymSettings_run. unfold settingsStore. cbn [db].
    rewrite toArray_singleton. reflexivity. }
  split; [exact Hload |].
  destruct (onSubmit_never_clears_pin (still 0) (ticking 100) settingsStore 1%N
              protectedSettings emptyPinForm "1234" Hload ltac:(discriminate)
              eq_refl ltac:(discriminate))
    as (w' & s' & Hrun & _ & _ & Hkeep).
  destruct (Hkeep (or_intror eq_refl)) as [Hpin Hauth].
  exists w', s'. split; [exact Hrun |]. split; [exact Hpin |].
  rewrite !Hauth. split; reflexivity.
Defined.

(** X25. The first save.  When the page found no settings row, the save
    adds one with the form's values, no logo, the form's PIN when it is
    not empty, and the creating hook's stamps; loading the settings
    afterwards gives that row. *)
Theorem onSubmit_first_save (clock0 clock : Clock) (w : World DB)
    (data : SettingsFormData) :
  getGymSettings clock0 w = (Ok None, w) ->
  exists w' s',
    onSubmit None data clock w = (Ok true, w') /\
    getGymSettings clock0 w' = (Ok (Some (Dexie.nextKey (db w), s')), w') /\
    size (Dexie.rows (db w')) = 1%nat /\
    gymName s' = formGymName data /\
    contactPhone s' = formContactPhone data /\
    contactEmail s' = formContactEmail data /\
    address s' = formAddress data /\
    defaultMonthlyFee s' = formMonthlyFee data /\
    defaultQuarterlyFee s' = formQuarterlyFee data /\
    defaultAnnualFee s' = formAnnualFee data /\
    gymLogo s' = None /\
    pinCode s' = orElse (formPinCode data) None /\
    createdAt s' = clock (2 + reads w)%nat /\
    updatedAt s' = clock (3 + reads w)%nat.
Proof.
  intros Hload. rewrite getGymSettings_run in Hload. injection Hload as Hlast.
  apply getLast_None in Hlast.
  assert (Hrun : onSubmit None data clock w =
    (Ok true,
     mkWorld
       (Dexie.mkTable
          {[Dexie.nextKey (db w) :=
              mkGymSettings (formGymName data) None (formContactPhone data)
                (formContactEmail data) (formAddress data) (formMonthlyFee data)
                (formQuarterlyFee data) (formAnnualFee data)
                (orElse (formPinCode data) None)
                (clock (2 + reads w)%nat) (clock (3 + reads w)%nat)]}
          (Dexie.nextKey (db w) + 1)%N)
       (4 + reads w)%nat)).
  { unfold onSubmit, catch, bind, now. cbn [db reads mbind option_bind].
    rewrite settingsAdd_run
      by (unfold Dexie.get; cbn; rewrite Hlast; apply lookup_empty).
    cbn. rewrite Hlast, insert_empty. reflexivity. }
  eexists. eexists. split; [exact Hrun |].
  split.
  { rewrite getGymSettings_run. cbn [db]. rewrite toArray_singleton.
    reflexivity. }
  split; [cbn; apply map_size_singleton |].
  cbn. repeat split.
Qed.

Lemma onSubmit_first_save_witness :
  getGymSettings (still 0) (mkWorld Dexie.empty 0)
    = (Ok None, mkWorld Dexie.empty 0) /\
  exists w' s',
    onSubmit None newPinForm (ticking 100) (mkWorld Dexie.empty 0)
      = (Ok true, w') /\
    getGymSettings (still 0) w' = (Ok (Some (1%N, s')), w') /\
    pinCode s' = Some "4321"%string.
Proof.
  assert (Hload : getGymSettings (still 0) (mkWorld Dexie.empty 0)
                  = (Ok None, mkWorld Dexie.empty 0)).
  { rewrite getGymSettings_run. cbn [db]. unfold Dexie.empty.
    rewrite toArray_empty. reflexivity. }
  split; [exact Hload |].
  destruct (onSubmit_first_save (still 0) (ticking 100) (mkWorld Dexie.empty 0)
              newPinForm Hload)
    as (w' & s' & Hrun & Hload' & _ & _ & _ & _ & _ & _ & _ & _ & _ & Hpin & _).
  exists w', s'. split; [exact Hrun |]. split; [exact Hload' |].
  rewrite Hpin. reflexivity.
Defined.

End SettingsExtras.

(** ** The key generators stay ahead of the stored keys *)

Section WellFormedStore.
Import SchemaV2.

Lemma wfTable_insert_next {A : Type} (t : Dexie.Table A) (row : A) :
  Dexie.wfTable t →
  Dexie.wfTable (Dexie.mkTable (<[Dexie.nextKey t := row]> (Dexie.rows t))
                   (Dexie.nextKey t + 1)%N).
Proof.
  intros Hwf. eapply wfTable_add; [exact Hwf |].
  apply add_fresh, wfTable_fresh, Hwf.
Qed.

Lemma wfDB_empty : wfDB emptyDB.
Proof. repeat split; apply wfTable_empty. Qed.

Lemma wfDB_afterCheckIn (clock : Clock) (w : World DB) (id : N) :
  wfDB (db w) → wfDB (db (afterCheckIn clock w id)).
Proof.
  intros (Hm & Hp & Hc). unfold afterCheckIn. cbn [db].
  split; [apply wfTable_update, Hm |].
  split; [exact Hp | apply wfTable_insert_next, Hc].
Qed.

Lemma membersAdd_run (obj : Member) (clock : Clock) (w : World DB) :
  Dexie.wfTable (members (db w)) →
  membersAdd obj clock w =
  (Ok (Dexie.nextKey (members (db w))),
   mkWorld
     (mkDB
        (Dexie.mkTable
           (<[Dexie.nextKey (members (db w)) :=
                setStatus (calculateMemberStatus (clock (2 + reads w)%nat)
                             (renewalDate obj))
                  (setUpdatedAt (clock (1 + reads w)%nat)
                     (setCreatedAt (clock (reads w)) obj))]>
              (Dexie.rows (members (db w))))
           (Dexie.nextKey (members (db w)) + 1)%N)
        (payments (db w)) (checkIns (db w)))
     (3 + reads w)%nat).
Proof.
  intros Hwf.
  unfold membersAdd, membersCreating, calculateMemberStatusNow, bind, now,
    read, ret. cbn.
  rewrite (add_fresh _ _ (wfTable_fresh _ Hwf)). cbn. reflexivity.
Qed.

(** X26. Keys never clash.  In a store where every table's key
    generator is ahead of the stored keys, as in the empty store, adding
    a member succeeds, adding a payment row succeeds, a check-in attempt
    ends in a toast, the status refresh completes, and each of them
    leaves the store in that condition; so no sequence of these
    operations ever fails on a taken key. *)
Theorem wfDB_preserved (clock : Clock) (w : World DB) :
  wfDB (db w) ->
  wfDB emptyDB /\
  (forall obj, exists k w',
     membersAdd obj clock w = (Ok k, w') /\ wfDB (db w')) /\
  (forall obj, exists k w',
     paymentsAdd obj clock w = (Ok k, w') /\ wfDB (db w')) /\
  (forall id, exists r w',
     checkInMember id clock w = (r, w') /\ wfDB (db w') /\
     r <> Error constraintError) /\
  (forall id shown, exists toast w',
     handleCheckIn id shown clock w = (Ok toast, w') /\ wfDB (db w') /\
     toast <> CheckInFailed constraintError) /\
  (exists w', updateMemberStatuses clock w = (Ok tt, w') /\ wfDB (db w')).
Proof.
  intros Hwf. pose proof Hwf as (Hm & Hp & Hc).
  split; [exact wfDB_empty |].
  split.
  { intros obj. eexists. eexists.
    split; [apply (membersAdd_run obj clock w Hm) |].
    cbn [db]. split; [apply wfTable_insert_next, Hm |]. split; assumption. }
  split.
  { intros obj. eexists. eexists.
    split; [apply (paymentsAdd_run obj clock w Hp) |].
    cbn [db]. split; [exact Hm |].
    split; [apply wfTable_insert_next, Hp | exact Hc]. }
  split.
  { intros id.
    destruct (Dexie.get id (members (db w))) as [m |] eqn:Hget.
    - destruct (gate_cases m) as [Hb | [Hs Hpaid]].
      + eexists. eexists.
        split; [apply (checkInMember_blocked clock w id m Hget Hb) |].
        split; [exact Hwf | discriminate].
      + eexists. eexists.
        split; [apply (checkInMember_accepted clock w id m Hc Hget Hs Hpaid) |].
        split; [apply wfDB_afterCheckIn, Hwf | discriminate].
    - eexists. eexists.
      split; [apply (checkInMember_missing clock w id Hget) |].
      split; [exact Hwf | discriminate]. }
  split.
  { intros id shown.
    destruct (gate_cases shown) as [Hb | [Hs Hpaid]].
    { destruct (handleCheckIn_blocked clock w id shown Hb) as [reason Hrun].
      eexists. eexists. split; [exact Hrun |].
      split; [exact Hwf | discriminate]. }
    unfold handleCheckIn, catch, bind.
    rewrite (proj2 (gate_false shown) (conj Hs Hpaid)).
    destruct (Dexie.get id (members (db w))) as [m |] eqn:Hget.
    - destruct (gate_cases m) as [Hb | [Hs' Hpaid']].
      + rewrite (checkInMember_blocked clock w id m Hget Hb).
        eexists. eexists. split; [reflexivity |].
        split; [exact Hwf | discriminate].
      + rewrite (checkInMember_accepted clock w id m Hc Hget Hs' Hpaid').
        eexists. eexists. split; [reflexivity |].
        split; [apply wfDB_afterCheckIn, Hwf | discriminate].
    - rewrite (checkInMember_missing clock w id Hget).
      eexists. eexists. split; [reflexivity |].
      split; [exact Hwf | discriminate]. }
  destruct (updateMemberStatuses_frame clock w)
    as (w' & Hrun & (Hpay & Hci & Hnext) & Hnone & _).
  exists w'. split; [exact Hrun |].
  split; [| split; [rewrite Hpay; exact Hp | rewrite Hci; exact Hc]].
  intros k m' Hk. cbn. rewrite Hnext.
  destruct (Dexie.rows (members (db w)) !! k) as [m |] eqn:E.
  - apply (Hm k m E).
  - apply Hnone in E. unfold Dexie.get in E. congruence.
Qed.

Lemma wfDB_preserved_witness :
  wfDB Samples.gym /\
  exists k w', paymentsAdd Samples.midJanuaryPayment (ticking Samples.jan10)
                 (mkWorld Samples.gym 0) = (Ok k, w') /\
               wfDB (db w').
Proof.
  assert (Hwf : wfDB (db (mkWorld Samples.gym 0))).
  { split; [| split]; apply (bool_decide_unpack _); vm_compute; reflexivity. }
  split; [exact Hwf |].
  destruct (wfDB_preserved (ticking Samples.jan10) (mkWorld Samples.gym 0) Hwf)
    as (_ & _ & Hpay & _).
  exact (Hpay Samples.midJanuaryPayment).
Defined.

End WellFormedStore.

(** ** The check-in desk: refresh, then check in *)

Section DeskExtras.
Import SchemaV2 Samples.

(** X27. Admission at the desk.  The check-in page refreshes the
    statuses before it shows a member.  For a member shown right after
    the refresh, at instant [n]: the check-in goes through when less
    than eight days have passed since the renewal date and the payment
    is stored as paid, and then sets the member's [lastCheckIn] and no
    other field of the row; it is refused with a toast, writing nothing,
    when eight days or more have passed or the payment is incomplete. *)
Theorem handleCheckIn_after_refresh (n : Date) (w : World DB) (id : N) :
  Dexie.wfTable (checkIns (db w)) ->
  exists w1,
    updateMemberStatuses (still n) w = (Ok tt, w1) /\
    forall m, Dexie.get id (members (db w1)) = Some m ->
      (n < renewalDate m + 8 * msPerDay -> paymentStatus m = paid ->
         handleCheckIn id m (still n) w1
           = (Ok CheckInSuccessful, afterCheckIn (still n) w1 id) /\
         Dexie.get id (members (db (afterCheckIn (still n) w1 id)))
           = Some (setLastCheckIn n m) /\
         size (Dexie.rows (checkIns (db (afterCheckIn (still n) w1 id))))
           = S (size (Dexie.rows (checkIns (db w1))))) /\
      (renewalDate m + 8 * msPerDay <= n \/ paymentStatus m = incomplete ->
         exists reason,
           handleCheckIn id m (still n) w1 = (Ok (CheckInBlocked reason), w1)).
Proof.
  intros Hwf.
  destruct (refreshed_statuses n w) as (w1 & Hrun & Hstatus).
  destruct (updateMemberStatuses_frame (still n) w)
    as (w1' & Hrun' & (_ & Hci & _) & _).
  rewrite Hrun in Hrun'. injection Hrun' as <-.
  exists w1. split; [exact Hrun |].
  intros m Hget. pose proof (Hstatus id m Hget) as Hs.
  destruct (dues_thresholds n (renewalDate m)) as (_ & _ & Hover).
  split.
  - intros Hearly Hpaid.
    assert (Hwf1 : Dexie.wfTable (checkIns (db w1))) by (rewrite Hci; exact Hwf).
    split.
    { apply (handleCheckIn_accepted (still n) w1 id m);
        [exact Hwf1 | exact Hget | | exact Hpaid].
      rewrite Hs. intros Ho. apply Hover in Ho. lia. }
    split; [apply (afterCheckIn_member (still n) w1 id m Hget) |].
    unfold afterCheckIn. cbn [db checkIns Dexie.rows].
    apply map_size_insert_None, wfTable_fresh, Hwf1.
  - intros [Hlate | Hinc].
    + apply (handleCheckIn_blocked (still n) w1 id m). left.
      rewrite Hs. apply Hover, Hlate.
    + apply (handleCheckIn_blocked (still n) w1 id m). right. exact Hinc.
Qed.

Lemma handleCheckIn_after_refresh_witness :
  Dexie.wfTable (checkIns gym) /\
  exists w1,
    updateMemberStatuses (still jan10) (mkWorld gym 0) = (Ok tt, w1) /\
    (Dexie.get 1%N (members (db w1)) = Some alice ->
     handleCheckIn 1%N alice (still jan10) w1
       = (Ok CheckInSuccessful, afterCheckIn (still jan10) w1 1%N)).
Proof.
  assert (Hwf : Dexie.wfTable (checkIns (db (mkWorld gym 0))))
    by apply wfTable_empty.
  split; [exact Hwf |].
  destruct (handleCheckIn_after_refresh jan10 (mkWorld gym 0) 1%N Hwf)
    as (w1 & Hrun & Hdesk).
  exists w1. split; [exact Hrun |].
  intros Hget. destruct (Hdesk alice Hget) as [Hin _].
  destruct Hin as [Hrun' _]; [vm_compute; reflexivity | reflexivity |].
  exact Hrun'.
Defined.

End DeskExtras.

(** ** A new renewal date and the stored status *)

Section RenewalUpdate.
Import SchemaV2 Samples.

Lemma membersUpdate_renewal_run (clock : Clock) (w : World DB) (id : N)
    (m : Member) (r : Date) :
  Dexie.get id (members (db w)) = Some m →
  membersUpdate id (mkMods (Some r) None None None) clock w =
  (Ok 1%nat,
   mkWorld
     (mkDB (Dexie.update id (setRenewalDate r) (members (db w)))
        (payments (db w)) (checkIns (db w)))
     (2 + reads w)%nat).
Proof.
  intros Hget.
  unfold membersUpdate, membersGet, membersUpdating, calculateMemberStatusNow,
    bind, now, read, write, ret, withMembers.
  cbn. rewrite Hget. reflexivity.
Qed.

Lemma refresh_paymentStatus (n : Date) (m : Member) :
  paymentStatus (refresh n m) = paymentStatus m.
Proof. unfold refresh. case_decide; [reflexivity |]. destruct m. reflexivity. Qed.

Lemma refresh_renewalDate (n : Date) (m : Member) :
  renewalDate (refresh n m) = renewalDate m.
Proof. unfold refresh. case_decide; [reflexivity |]. destruct m. reflexivity. Qed.

(** X10. A new renewal date does not refresh the status.  An update of
    a stored member with a renewal date alone stores that date and
    leaves every other field, the status and the update stamp included;
    no other row changes.  A member stored as overdue is therefore still
    refused at check-in right after the update.  The status follows at
    the next refresh: run before the new renewal date, it stores active,
    and a paid member's check-in is then accepted. *)
Theorem membersUpdate_renewal_keeps_status (clock : Clock) (w : World DB)
    (id : N) (m : Member) (r : Date) :
  Dexie.get id (members (db w)) = Some m ->
  exists w',
    membersUpdate id (mkMods (Some r) None None None) clock w = (Ok 1%nat, w') /\
    Dexie.get id (members (db w')) = Some (setRenewalDate r m) /\
    (forall j, j <> id ->
       Dexie.get j (members (db w')) = Dexie.get j (members (db w))) /\
    payments (db w') = payments (db w) /\
    checkIns (db w') = checkIns (db w) /\
    (status m = overdue ->
       checkInMember id clock w' = (Error cannotCheckIn, w')) /\
    (forall n, n < r -> paymentStatus m = paid ->
       Dexie.wfTable (checkIns (db w)) ->
       exists w1 w2,
         updateMemberStatuses (still n) w' = (Ok tt, w1) /\
         status <$> Dexie.get id (members (db w1)) = Some active /\
         checkInMember id (still n) w1 = (Ok tt, w2)).
Proof.
  intros Hget. eexists.
  split; [apply (membersUpdate_renewal_run clock w id m r Hget) |].
  assert (Hget' : Dexie.get id (Dexie.update id (setRenewalDate r) (members (db w)))
                  = Some (setRenewalDate r m))
    by (rewrite get_update_eq, Hget; reflexivity).
  cbn [db members payments checkIns].
  split; [exact Hget' |].
  split; [intros j Hj; apply get_update_ne; congruence |].
  split; [reflexivity |]. split; [reflexivity |].
  split.
  { intros Hover. eapply checkInMember_blocked; [exact Hget' |].
    left. exact Hover. }
  intros n Hn Hpaid Hwf.
  set (w' := mkWorld _ _).
  destruct (updateMemberStatuses_refresh (still n) w')
    as (w1 & Hrun & (_ & Hci & _) & _ & Hsome).
  destruct (Hsome id (setRenewalDate r m) Hget') as (i & Hi).
  unfold still in Hi.
  assert (Hactive : status (refresh n (setRenewalDate r m)) = active).
  { rewrite refresh_status, refresh_renewalDate.
    apply dues_thresholds. exact Hn. }
  exists w1. eexists. split; [exact Hrun |].
  split; [rewrite Hi; cbn; f_equal; exact Hactive |].
  eapply checkInMember_accepted; [| exact Hi | |].
  - rewrite Hci. exact Hwf.
  - rewrite Hactive. discriminate.
  - rewrite refresh_paymentStatus. exact Hpaid.
Qed.

Lemma membersUpdate_renewal_keeps_status_witness :
  Dexie.get 3%N (members gym) = Some carol /\
  status carol = overdue /\
  exists w',
    membersUpdate 3%N
      (mkMods (Some (calculateRenewalDate jan10 monthly)) None None None)
      (ticking jan10) (mkWorld gym 0) = (Ok 1%nat, w') /\
    status <$> Dexie.get 3%N (members (db w')) = Some overdue /\
    checkInMember 3%N (ticking jan10) w' = (Error cannotCheckIn, w').
Proof.
  assert (Hget : Dexie.get 3%N (members (db (mkWorld gym 0))) = Some carol)
    by reflexivity.
  split; [exact Hget |]. split; [reflexivity |].
  destruct (membersUpdate_renewal_keeps_status (ticking jan10) (mkWorld gym 0)
              3%N carol (calculateRenewalDate jan10 monthly) Hget)
    as (w' & Hrun & Hrow & _ & _ & _ & Hblocked & _).
  exists w'. split; [exact Hrun |].
  split; [rewrite Hrow; reflexivity |].
  apply Hblocked. reflexivity.
Defined.

End RenewalUpdate.
